(** * The development-database seeder [server/scripts/seed_fake_data.py]

    A shallow embedding of the seeding script and the properties its
    specification states about it.

    The script talks to three things outside itself: an SQLite database
    file (through Python's [sqlite3] module), the module-level pseudo-random
    generator of [random], and the wall clock.  Each is modelled here as a
    component of an explicit state that the code threads through a small
    state-and-exception monad:

    - a database is a record of its six tables; the [counters] table, whose
      [name] column is the key, is a finite map, every other table is the
      list of its rows in insertion order;
    - a connection holds the path it was opened on, the database as the
      connection sees it, and the [in_transaction] flag.  What is on disk
      changes at [commit] only;
    - the generator is abstract (a state, a seeding function and
      [_randbelow]), because the Mersenne Twister is not part of the
      script;
    - the clock is a function giving the k-th reading of [datetime.now]. *)

From Stdlib Require Import ZArith Lia.
From stdpp Require Import gmap strings list pretty sorting.

Local Open Scope string_scope.
Local Open Scope list_scope.
Local Open Scope Z_scope.

(** ** Rows and tables *)

Record UserRow := mkUser {
  u_seq : Z; u_id : string; u_nickname : string;
  u_avatar : string; u_cover : string; u_bio : string;
  u_created_at : string }.

Record AccountRow := mkAccount {
  a_account : string; a_user_id : string; a_password_hash : string }.

(** Only the two columns the script reads. *)
Record BoardRow := mkBoard { b_seq : Z; b_id : string }.

Record PostRow := mkPost {
  p_seq : Z; p_id : string; p_board_id : string; p_author_id : string;
  p_title : string; p_content : string; p_content_json : string;
  p_tags : string; p_attachments : string;
  p_created_at : string; p_deleted_at : option string }.

Record VoteRow := mkVote {
  v_post_id : string; v_user_id : string; v_value : Z; v_created_at : string }.

Record DB := mkDB {
  counters : gmap string Z;
  users : list UserRow;
  accounts : list AccountRow;
  boards : list BoardRow;
  posts : list PostRow;
  post_votes : list VoteRow }.

Definition set_counters (f : gmap string Z → gmap string Z) (d : DB) : DB :=
  mkDB (f (counters d)) (users d) (accounts d) (boards d) (posts d) (post_votes d).
Definition add_user (r : UserRow) (d : DB) : DB :=
  mkDB (counters d) (users d ++ [r]) (accounts d) (boards d) (posts d) (post_votes d).
Definition add_account (r : AccountRow) (d : DB) : DB :=
  mkDB (counters d) (users d) (accounts d ++ [r]) (boards d) (posts d) (post_votes d).
Definition add_post (r : PostRow) (d : DB) : DB :=
  mkDB (counters d) (users d) (accounts d) (boards d) (posts d ++ [r]) (post_votes d).
Definition add_vote (r : VoteRow) (d : DB) : DB :=
  mkDB (counters d) (users d) (accounts d) (boards d) (posts d) (post_votes d ++ [r]).

(** The schema is created by the application's migrations, not by this
    script.  Its constraints on the four tables the script writes with a
    plain [INSERT] (keys, uniqueness, foreign keys, checks) are a parameter:
    each says whether the database, as the connection sees it, accepts the
    row.  A rejected row raises [IntegrityError]. *)
Class Schema := {
  users_accepts : DB → UserRow → bool;
  accounts_accepts : DB → AccountRow → bool;
  posts_accepts : DB → PostRow → bool;
  post_votes_accepts : DB → VoteRow → bool }.

(** ** The pseudo-random generator

    [random.seed] and [Random._randbelow]; [randbelow g n] is called with
    [0 < n] only. *)
Class PRNG := {
  rng_state : Type;
  rng_seed : Z → rng_state;
  randbelow : rng_state → Z → Z * rng_state }.

(** The contract of [_randbelow]: a draw below [n] lies in [0, n). *)
Class PRNGRange `{PRNG} :=
  randbelow_range : ∀ g n, 0 < n → 0 ≤ (randbelow g n).1 < n.

(** ** Files, connections, the world *)

Inductive FsEntry := File (d : DB) | Directory.

Record Connection := mkConn {
  db_path : string; cur : DB; in_transaction : bool }.

Inductive exn :=
  | IntegrityError | OperationalError | IndexError | TypeError.

Inductive result (A : Type) := Ok (a : A) | Raise (e : exn).
Arguments Ok {A} a.
Arguments Raise {A} e.

Section Model.
Context `{PRNG} `{Schema}.

Record World := mkWorld {
  fs : gmap string FsEntry;
  rng : rng_state;
  clock : nat → Z;
  ticks : nat;
  stdout : list string;
  stderr : list string }.

(** The state while a connection is open. *)
Record State := mkState { world : World; conn : Connection }.

Definition M (A : Type) : Type := State → result A * State.

Global Instance M_ret : MRet M := λ A a s, (Ok a, s).
Global Instance M_bind : MBind M := λ A B k m s,
  match m s with
  | (Ok a, s') => k a s'
  | (Raise e, s') => (Raise e, s')
  end.
Definition raise {A} (e : exn) : M A := λ s, (Raise e, s).

End Model.

(** ** Python values the script computes with *)

(** [range(n)]: empty when [n ≤ 0]. *)
Definition py_range (n : Z) : list Z := Z.of_nat <$> seq 0 (Z.to_nat n).

(** [range(start, stop, step)] for a positive [step]. *)
Definition py_range3 (start stop step : Z) : list Z :=
  (λ k : nat, start + Z.of_nat k * step) <$>
    seq 0 (Z.to_nat ((stop - start + step - 1) `div` step)).

(** [len(l)] as a Python integer. *)
Definition len {A} (l : list A) : Z := Z.of_nat (length l).

(** [l[:k]]: a negative [k] counts from the end. *)
Definition py_slice_to {A} (l : list A) (k : Z) : list A :=
  if 0 <=? k then take (Z.to_nat k) l
  else take (length l - Z.to_nat (- k))%nat l.

(** [enumerate(l)]. *)
Definition enumerate {A} (l : list A) : list (Z * A) :=
  zip (py_range (len l)) l.

(** [x or 0] on integers. *)
Definition py_or0 (x : Z) : Z := if x =? 0 then 0 else x.

(** Decimal digits of a non-negative number, padded with zeros on the left
    to [width] characters. *)
Definition zfill (width : nat) (s : string) : string :=
  String.concat "" (replicate (width - String.length s) "0") +:+ s.

(** The format specification [0Nd]: the sign counts in the width. *)
Definition fmt_0d (width : nat) (n : Z) : string :=
  if n <? 0 then "-" +:+ zfill (width - 1) (pretty (- n))
  else zfill width (pretty n).

(** The format specification [d] of an f-string: [f"{n}"]. *)
Definition fmt_d (n : Z) : string := pretty n.

(** *** Time

    An aware [datetime] in UTC is the number of microseconds since the
    epoch; a [timedelta] is a number of microseconds.  The rendering below
    is that of [strftime] for years of four digits, which is where a clock
    reads. *)
Definition timedelta (days seconds : Z) : Z :=
  (days * 86400 + seconds) * 1000000.

(** Year, month and day of a day number counted from 1970-01-01, in the
    proleptic Gregorian calendar. *)
Definition civil_from_days (days : Z) : Z * Z * Z :=
  let z := days + 719468 in
  let era := z `div` 146097 in
  let doe := z `mod` 146097 in
  let yoe := (doe - doe `div` 1460 + doe `div` 36524 - doe `div` 146096) `div` 365 in
  let doy := doe - (365 * yoe + yoe `div` 4 - yoe `div` 100) in
  let mp := (5 * doy + 2) `div` 153 in
  let d := doy - (153 * mp + 2) `div` 5 + 1 in
  let m := if mp <? 10 then mp + 3 else mp - 9 in
  let y := yoe + era * 400 + (if m <=? 2 then 1 else 0) in
  (y, m, d).

(** Hour, minute and second of a second of the day. *)
Definition clock_of_second (sod : Z) : Z * Z * Z :=
  (sod `div` 3600, (sod `mod` 3600) `div` 60, sod `mod` 60).

(** [dt.strftime(fmt)] for the two formats of the script; the fields are
    the same, the separators differ. *)
Definition strftime (sep_date sep_dt sep_time suffix : string) (dt : Z) : string :=
  let secs := dt `div` 1000000 in
  let '(y, m, d) := civil_from_days (secs `div` 86400) in
  let '(hh, mm, ss) := clock_of_second (secs `mod` 86400) in
  fmt_0d 4 y +:+ sep_date +:+ fmt_0d 2 m +:+ sep_date +:+ fmt_0d 2 d +:+ sep_dt +:+
  fmt_0d 2 hh +:+ sep_time +:+ fmt_0d 2 mm +:+ sep_time +:+ fmt_0d 2 ss +:+ suffix.

Definition rfc3339 (dt : Z) : string := strftime "-" "T" ":" "Z" dt.

(** [strftime("%Y%m%d%H%M%S")], the run discriminator of [main]. *)
Definition strftime_compact (dt : Z) : string := strftime "" "" "" "" dt.

Definition SAMPLE_POSTS : list (string * string) := [
  ("矿大哪个食堂最好吃？", "最近总不知道吃什么，求推荐。");
  ("大二 CS 选课求助", "想选计网/OS，学长学姐给点建议。");
  ("丢了一张校园卡...", "在三食堂附近丢的，有捡到的同学联系我。");
  ("期末复习资料求分享", "有没有离散/高数复习资料？");
  ("宿舍空调维修渠道", "空调不制冷，有没有靠谱报修？");
  ("图书馆自习室占座", "现在占座还严重吗？");
  ("校园跑腿推荐", "有没有便宜的跑腿小哥/平台？");
  ("考研自习搭子", "找个考研搭子一起打卡。");
  ("校园网速度慢", "晚上打游戏延迟高，怎么办？");
  ("社团活动推荐", "想认识新朋友，有哪些好玩的社团？")
].

(** The order of [ORDER BY seq ASC] on boards. *)
Definition board_le (a b : BoardRow) : Prop := b_seq a ≤ b_seq b.
Global Instance board_le_dec a b : Decision (board_le a b) :=
  Z_le_dec (b_seq a) (b_seq b).

(** ** The [sqlite3] connection *)

Section Script.
Context `{PRNG} `{Schema}.

Definition with_conn (f : Connection → Connection) (s : State) : State :=
  mkState (world s) (f (conn s)).
Definition with_world (f : World → World) (s : State) : State :=
  mkState (f (world s)) (conn s).

(** [sqlite3] opens a transaction implicitly before a statement that
    writes ([INSERT], [UPDATE]); a statement that reads opens none. *)
Definition begin_implicit (c : Connection) : Connection :=
  mkConn (db_path c) (cur c) true.
Definition txn_write (f : DB → DB) (c : Connection) : Connection :=
  mkConn (db_path c) (f (cur c)) true.

Definition query {A} (q : DB → A) : M A := λ s, (Ok (q (cur (conn s))), s).
Definition dml (f : DB → DB) : M unit := λ s, (Ok tt, with_conn (txn_write f) s).

(** A plain [INSERT]: the row is appended when the schema accepts it. *)
Definition insert {R} (accepts : DB → R → bool) (add : R → DB → DB) (r : R) : M unit :=
  λ s, if accepts (cur (conn s)) r then dml (add r) s
       else (Raise IntegrityError, with_conn begin_implicit s).

(** [commit] writes the database of the connection to its file. *)
Definition commit (s : State) : State :=
  if in_transaction (conn s) then
    mkState
      (let w := world s in
       mkWorld (<[db_path (conn s) := File (cur (conn s))]> (fs w))
               (rng w) (clock w) (ticks w) (stdout w) (stderr w))
      (mkConn (db_path (conn s)) (cur (conn s)) false)
  else s.

(** [rollback] makes the connection see the file again. *)
Definition rollback (s : State) : State :=
  if in_transaction (conn s) then
    match fs (world s) !! db_path (conn s) with
    | Some (File d) => with_conn (λ c, mkConn (db_path c) d false) s
    | _ => with_conn (λ c, mkConn (db_path c) (cur c) false) s
    end
  else s.

(** [with conn: body]: commit when the body returns, roll back and raise
    again when it raises. *)
Definition with_connection {A} (body : M A) : M A :=
  λ s, match body s with
       | (Ok a, s') => (Ok a, commit s')
       | (Raise e, s') => (Raise e, rollback s')
       end.

(** [sqlite3.connect(path)], on a path that exists.  (A path that names
    nothing would be created as an empty file; [main] never connects to
    one.) *)
Definition sqlite3_connect (w : World) (path : string) : result Connection :=
  match fs w !! path with
  | Some (File d) => Ok (mkConn path d false)
  | _ => Raise OperationalError
  end.

Definition os_path_exists (w : World) (path : string) : bool :=
  bool_decide (is_Some (fs w !! path)).

(** *** The statements of the script *)

(** [INSERT OR IGNORE INTO counters(name, value) VALUES(?, ?)] *)
Definition sql_insert_or_ignore_counter (name : string) (value : Z) : M unit :=
  dml (set_counters (λ m, match m !! name with
                          | Some _ => m
                          | None => <[name := value]> m
                          end)).

(** [UPDATE counters SET value = CASE WHEN value < ? THEN ? ELSE value END
    WHERE name = ?] *)
Definition sql_update_counter_case (p1 p2 : Z) (name : string) : M unit :=
  dml (set_counters (alter (λ value, if value <? p1 then p2 else value) name)).

(** [UPDATE counters SET value = value + 1 WHERE name = ?] *)
Definition sql_update_counter_incr (name : string) : M unit :=
  dml (set_counters (alter (λ value, value + 1) name)).

(** [SELECT value FROM counters WHERE name = ?], [fetchone()] *)
Definition sql_select_counter (name : string) : M (option Z) :=
  query (λ d, counters d !! name).

(** The [seq] column of a table that has one. *)
Definition seq_column (table : string) (d : DB) : option (list Z) :=
  if decide (table = "users") then Some (u_seq <$> users d)
  else if decide (table = "posts") then Some (p_seq <$> posts d)
  else if decide (table = "boards") then Some (b_seq <$> boards d)
  else None.

(** [COALESCE(MAX(seq), 0)]: [MAX] of no row is [NULL]. *)
Definition coalesce_max (l : list Z) : Z :=
  match l with
  | [] => 0
  | x :: l' => foldr Z.max x l'
  end.

(** [SELECT COALESCE(MAX(seq), 0) FROM {table}], [fetchone()[0]] *)
Definition sql_select_max_seq (table : string) : M Z :=
  λ s, match seq_column table (cur (conn s)) with
       | Some l => (Ok (coalesce_max l), s)
       | None => (Raise OperationalError, s)
       end.

(** [SELECT id FROM boards ORDER BY seq ASC], [fetchall()] *)
Definition sql_select_board_ids : M (list string) :=
  query (λ d, b_id <$> merge_sort board_le (boards d)).

Definition sql_insert_user : UserRow → M unit := insert users_accepts add_user.
Definition sql_insert_account : AccountRow → M unit := insert accounts_accepts add_account.
Definition sql_insert_post : PostRow → M unit := insert posts_accepts add_post.
Definition sql_insert_post_vote : VoteRow → M unit := insert post_votes_accepts add_vote.

(** *** [random] and [datetime] *)

Definition set_rng (g : rng_state) (w : World) : World :=
  mkWorld (fs w) g (clock w) (ticks w) (stdout w) (stderr w).

Definition random_seed (a : Z) (w : World) : World := set_rng (rng_seed a) w.

Definition random_randbelow (n : Z) : M Z :=
  λ s, let '(r, g) := randbelow (rng (world s)) n in
       (Ok r, with_world (set_rng g) s).

(** [random.randint(a, b)] is [a + _randbelow(b - a + 1)]. *)
Definition random_randint (a b : Z) : M Z :=
  r ← random_randbelow (b - a + 1); mret (a + r).

(** [l[i]]: an index below zero counts from the end; outside the list it
    is an [IndexError]. *)
Definition py_lookup {A} (l : list A) (i : Z) : option A :=
  let j := if i <? 0 then len l + i else i in
  if j <? 0 then None else l !! Z.to_nat j.

Definition py_index {A} (l : list A) (i : Z) : M A :=
  match py_lookup l i with
  | Some x => mret x
  | None => raise IndexError
  end.

(** [random.choice(l)]: [IndexError] on an empty sequence, before any
    draw. *)
Definition random_choice {A} (l : list A) : M A :=
  match l with
  | [] => raise IndexError
  | _ => i ← random_randbelow (len l); py_index l i
  end.

Definition tick (w : World) : World :=
  mkWorld (fs w) (rng w) (clock w) (S (ticks w)) (stdout w) (stderr w).

(** [datetime.now(timezone.utc)] *)
Definition datetime_now : M Z :=
  λ s, (Ok (clock (world s) (ticks (world s))), with_world tick s).

(** *** Loops *)

(** [for x in l: body], collecting what each iteration appends. *)
Fixpoint for_in {A B} (l : list A) (body : A → M B) : M (list B) :=
  match l with
  | [] => mret []
  | x :: l' => b ← body x; bs ← for_in l' body; mret (b :: bs)
  end.

(** [for x in l: body], updating a local variable. *)
Fixpoint fold_in {A S} (l : list A) (acc : S) (body : S → A → M S) : M S :=
  match l with
  | [] => mret acc
  | x :: l' => acc' ← body acc x; fold_in l' acc' body
  end.

(** ** The script *)

Definition ensure_counter_at_least (name : string) (min_value : Z) : M unit :=
  sql_insert_or_ignore_counter name min_value;;
  sql_update_counter_case min_value min_value name.

Definition next_counter (name : string) : M Z :=
  sql_insert_or_ignore_counter name 0;;
  sql_update_counter_incr name;;
  row ← sql_select_counter name;
  match row with
  | Some value => mret value
  | None => raise TypeError
  end.

Definition max_seq (table : string) : M Z :=
  v ← sql_select_max_seq table; mret (py_or0 v).

Definition fetch_board_ids : M (list string) :=
  rows ← sql_select_board_ids;
  match rows with
  | [] => mret ["b_1"; "b_2"; "b_3"]
  | _ => mret rows
  end.

(** One iteration of the loop of [seed_users]. *)
Definition seed_user (base_time : Z) (run_id : string) (i : Z) : M string :=
  seq ← next_counter "user";
  let user_id := "u_" +:+ fmt_d seq in
  let nickname := "虚拟用户" +:+ fmt_0d 3 (i + 1) in
  days ← random_randint 0 90;
  let created_at := rfc3339 (base_time - timedelta days 0) in
  sql_insert_user (mkUser seq user_id nickname "" "" "" created_at);;
  let account := "seed_" +:+ run_id +:+ "_" +:+ fmt_0d 3 (i + 1) in
  sql_insert_account (mkAccount account user_id "");;
  mret user_id.

Definition seed_users (count : Z) (run_id : string) : M (list string) :=
  base_time ← datetime_now;
  for_in (py_range count) (seed_user base_time run_id).

(** One iteration of the first loop of [seed_posts]. *)
Definition seed_post (base_time : Z) (user_ids board_ids : list string) (i : Z)
    : M (string * string) :=
  seq ← next_counter "post";
  let post_id := "p_" +:+ fmt_d seq in
  board_id ← random_choice board_ids;
  author_id ← random_choice user_ids;
  '(title, content) ← py_index SAMPLE_POSTS (i `mod` len SAMPLE_POSTS);
  let content := content +:+ "（帖子 " +:+ fmt_d (i + 1) +:+ "）" in
  days ← random_randint 0 30;
  seconds ← random_randint 0 86400;
  let created_at := rfc3339 (base_time - timedelta days seconds) in
  sql_insert_post
    (mkPost seq post_id board_id author_id title content "" "" "" created_at None);;
  mret (post_id, created_at).

(** One iteration of the second loop of [seed_posts]. *)
Definition like_post (user_ids : list string) (liked_indices : gset Z)
    (like_user_count : Z) (liked_posts : Z) (p : Z * (string * string)) : M Z :=
  let '(idx, (post_id, created_at)) := p in
  if bool_decide (idx ∉ liked_indices) || (like_user_count <=? 0) then
    mret liked_posts
  else
    for_in (py_slice_to user_ids like_user_count) (λ user_id,
      sql_insert_post_vote (mkVote post_id user_id 1 created_at));;
    mret (liked_posts + 1).

Definition seed_posts (count : Z) (user_ids board_ids : list string)
    (likes_per_post liked_every : Z) : M (list (string * string) * Z) :=
  base_time ← datetime_now;
  posts ← for_in (py_range count) (seed_post base_time user_ids board_ids);
  let liked_every := Z.max 1 liked_every in
  let liked_indices : gset Z := list_to_set (py_range3 0 count liked_every) in
  let like_user_count := Z.min likes_per_post (len user_ids) in
  liked_posts ← fold_in (enumerate posts) 0
                  (like_post user_ids liked_indices like_user_count);
  mret (posts, liked_posts).

Record Args := mkArgs {
  args_db : string;
  args_users : Z;
  args_posts : Z;
  args_likes_per_post : Z;
  args_liked_every : Z }.

(** The defaults of the argument parser. *)
Definition default_args : Args :=
  mkArgs "server/storage/dev.db" 50 200 50 5.

Definition print (line : string) (w : World) : World :=
  mkWorld (fs w) (rng w) (clock w) (ticks w) (stdout w ++ [line]) (stderr w).
Definition print_stderr (line : string) (w : World) : World :=
  mkWorld (fs w) (rng w) (clock w) (ticks w) (stdout w) (stderr w ++ [line]).

(** The body of [with conn:] in [main]. *)
Definition seed_all (args : Args) : M (list string * list (string * string) * Z) :=
  m ← max_seq "users"; ensure_counter_at_least "user" m;;
  m ← max_seq "posts"; ensure_counter_at_least "post" m;;
  now ← datetime_now;
  let run_id := strftime_compact now in
  user_ids ← seed_users (args_users args) run_id;
  board_ids ← fetch_board_ids;
  '(posts, liked_posts) ← seed_posts (args_posts args) user_ids board_ids
                            (args_likes_per_post args) (args_liked_every args);
  mret (user_ids, posts, liked_posts).

(** How [main] ends: it returns a status, or an exception leaves it. *)
Inductive outcome := Returned (status : Z) | Uncaught (e : exn).

Definition summary (users posts liked_posts : Z) : string :=
  "Seeded users: " +:+ fmt_d users +:+ ", posts: " +:+ fmt_d posts +:+
  ", posts with likes: " +:+ fmt_d liked_posts.

Definition warning (cap : Z) : string :=
  "Warning: likes_per_post exceeds user count; likes capped to " +:+ fmt_d cap +:+ ".".

(** [PRAGMA foreign_keys = ON] writes nothing and opens no transaction; the
    enforcement it switches on is part of what the schema accepts.
    [conn.close()] in the [finally] clause ends the connection; by then the
    transaction is committed or rolled back. *)
Definition main (args : Args) (w : World) : outcome * World :=
  if negb (os_path_exists w (args_db args)) then
    (Returned 1, print_stderr ("Database not found: " +:+ args_db args) w)
  else
    let w := random_seed 42 w in
    match sqlite3_connect w (args_db args) with
    | Raise e => (Uncaught e, w)
    | Ok c =>
      match with_connection (seed_all args) (mkState w c) with
      | (Raise e, s) => (Uncaught e, world s)
      | (Ok (user_ids, posts, liked_posts), s) =>
        let w := print (summary (len user_ids) (len posts) liked_posts) (world s) in
        let w := if args_likes_per_post args >? len user_ids
                 then print (warning (len user_ids)) w else w in
        (Returned 0, w)
      end
    end.

Definition exn_name (e : exn) : string :=
  match e with
  | IntegrityError => "sqlite3.IntegrityError"
  | OperationalError => "sqlite3.OperationalError"
  | IndexError => "IndexError"
  | TypeError => "TypeError"
  end.

(** [raise SystemExit(main())]: the exit status of the process.  An
    exception that leaves [main] is reported on the error stream and the
    status is 1. *)
Definition script (args : Args) (w : World) : Z * World :=
  match main args w with
  | (Returned status, w') => (status, w')
  | (Uncaught e, w') => (1, print_stderr ("Traceback: " +:+ exn_name e) w')
  end.

End Script.

(** * Vocabulary of the properties *)

Section Vocabulary.
Context `{PRNG} `{Schema}.

(** ** What the body of the transaction leaves alone

    [steady s s']: from [s] to [s'] nothing changed on disk, the connection
    is on the same path, the clock and the two output streams are the same,
    the [boards] table is the same, and a transaction that was open is
    still open.  Every computation of the script's body, however it ends,
    takes a state to a steady successor. *)
Definition steady (s s' : State) : Prop :=
  fs (world s') = fs (world s) ∧
  db_path (conn s') = db_path (conn s) ∧
  clock (world s') = clock (world s) ∧
  stdout (world s') = stdout (world s) ∧
  stderr (world s') = stderr (world s) ∧
  boards (cur (conn s')) = boards (cur (conn s)) ∧
  (in_transaction (conn s) = true → in_transaction (conn s') = true).

Definition keeps {A} (m : M A) : Prop :=
  ∀ s r s', m s = (r, s') → steady s s'.

(** A write changes no table but the one it writes to; no statement of
    the script writes to [boards]. *)
Definition spares_boards (f : DB → DB) : Prop := ∀ d, boards (f d) = boards d.

(** The value [next_counter] starts from: an absent counter counts from 0. *)
Definition counter_value (d : DB) (name : string) : Z :=
  default 0 (counters d !! name).

(** The counters after [ensure_counter_at_least name min_value]. *)
Definition floor_counter (name : string) (min_value : Z) (m : gmap string Z) : gmap string Z :=
  <[name := match m !! name with
            | Some v => Z.max v min_value
            | None => min_value
            end]> m.

(** The boards a post can be put on. *)
Definition board_pool (d : DB) : list string :=
  match b_id <$> merge_sort board_le (boards d) with
  | [] => ["b_1"; "b_2"; "b_3"]
  | ids => ids
  end.

(** What [random.choice] returns depends on the list and on the generator
    only. *)
Definition chosen {A} (l : list A) (g : rng_state) : option A :=
  match l with
  | [] => None
  | _ => py_lookup l (randbelow g (len l)).1
  end.

(** The sample a post at index [i] takes its title and content from. *)
Definition sample (i : Z) : string * string :=
  default ("", "") (py_lookup SAMPLE_POSTS (i `mod` len SAMPLE_POSTS)).

(** The sequence numbers [n] calls of [next_counter] return after the
    counter stood at [c]. *)
Definition seqs_from (c : Z) (n : nat) : list Z :=
  (λ j : nat, c + Z.of_nat j + 1) <$> seq 0 n.

Definition user_row (c base i days : Z) : UserRow :=
  mkUser (c + 1) ("u_" +:+ fmt_d (c + 1)) ("虚拟用户" +:+ fmt_0d 3 (i + 1)) "" "" ""
         (rfc3339 (base - timedelta days 0)).

Definition account_row (c : Z) (run_id : string) (i : Z) : AccountRow :=
  mkAccount ("seed_" +:+ run_id +:+ "_" +:+ fmt_0d 3 (i + 1)) ("u_" +:+ fmt_d (c + 1)) "".

Definition post_row (c base i : Z) (board_id author_id : string) (days seconds : Z)
    : PostRow :=
  mkPost (c + 1) ("p_" +:+ fmt_d (c + 1)) board_id author_id (sample i).1
         ((sample i).2 +:+ "（帖子 " +:+ fmt_d (i + 1) +:+ "）") "" "" ""
         (rfc3339 (base - timedelta days seconds)) None.

(** The counters after [n] calls of [next_counter name]. *)
Definition bump (name : string) (n : Z) (m : gmap string Z) : gmap string Z :=
  if decide (n = 0) then m else <[name := default 0 (m !! name) + n]> m.

(** The like rows of one post: one per user, with the value +1 and the
    creation time of the post. *)
Definition like_rows (post_id created_at : string) (us : list string) : list VoteRow :=
  (λ u, mkVote post_id u 1 created_at) <$> us.

Definition add_votes (rows : list VoteRow) (d : DB) : DB :=
  mkDB (counters d) (users d) (accounts d) (boards d) (posts d) (post_votes d ++ rows).

(** The posts that are given likes: those at a multiple of the period. *)
Definition liked (liked_every idx : Z) : bool :=
  idx `mod` Z.max 1 liked_every =? 0.

(** The like rows the post [p], generated at index [p.1], is given when
    [k] users like each liked post. *)
Definition likes_for (user_ids : list string) (k liked_every : Z)
    (p : Z * (string * string)) : list VoteRow :=
  if liked liked_every p.1 && (0 <? k)
  then like_rows p.2.1 p.2.2 (take (Z.to_nat k) user_ids)
  else [].

(** The value a counter is raised to before seeding: the larger of what
    is stored, when something is, and the largest sequence number in the
    table. *)
Definition counter_floor (d : DB) (name : string) (seqs : list Z) : Z :=
  match counters d !! name with
  | Some v => Z.max v (coalesce_max seqs)
  | None => coalesce_max seqs
  end.

Definition user_floor (d : DB) : Z := counter_floor d "user" (u_seq <$> users d).

Definition post_floor (d : DB) : Z := counter_floor d "post" (p_seq <$> posts d).

(** The rows a run appended to a table. *)
Definition inserted {A} (before after : list A) : list A := drop (length before) after.

(** The rows of a list of votes that belong to one post. *)
Definition likes_received (post_id : string) (votes : list VoteRow) : list VoteRow :=
  filter (λ v, v_post_id v = post_id) votes.

(** How many of the first [count] posts are given likes. *)
Definition liked_count (liked_every count : Z) : Z :=
  len (filter (λ idx, liked liked_every idx = true) (py_range count)).

(** A timestamp of each run, backdated by the same amount from the base
    time of its run. *)
Definition backdated (b1 b2 : Z) (days seconds : Z) (c1 c2 : string) : Prop :=
  c1 = rfc3339 (b1 - timedelta days seconds) ∧
  c2 = rfc3339 (b2 - timedelta days seconds).

(** Rows of two runs that differ in nothing but what comes from the
    clock. *)
Definition same_user (b1 b2 : Z) (r1 r2 : UserRow) : Prop :=
  u_seq r1 = u_seq r2 ∧ u_id r1 = u_id r2 ∧ u_nickname r1 = u_nickname r2 ∧
  u_avatar r1 = u_avatar r2 ∧ u_cover r1 = u_cover r2 ∧ u_bio r1 = u_bio r2 ∧
  ∃ days, backdated b1 b2 days 0 (u_created_at r1) (u_created_at r2).

Definition same_account (run_id1 run_id2 : string) (r1 r2 : AccountRow) : Prop :=
  a_user_id r1 = a_user_id r2 ∧ a_password_hash r1 = a_password_hash r2 ∧
  ∃ suffix,
    a_account r1 = "seed_" +:+ run_id1 +:+ "_" +:+ suffix ∧
    a_account r2 = "seed_" +:+ run_id2 +:+ "_" +:+ suffix.

Definition same_post (b1 b2 : Z) (r1 r2 : PostRow) : Prop :=
  p_seq r1 = p_seq r2 ∧ p_id r1 = p_id r2 ∧
  p_board_id r1 = p_board_id r2 ∧ p_author_id r1 = p_author_id r2 ∧
  p_title r1 = p_title r2 ∧ p_content r1 = p_content r2 ∧
  p_content_json r1 = p_content_json r2 ∧ p_tags r1 = p_tags r2 ∧
  p_attachments r1 = p_attachments r2 ∧ p_deleted_at r1 = p_deleted_at r2 ∧
  ∃ days seconds, backdated b1 b2 days seconds (p_created_at r1) (p_created_at r2).

Definition same_vote (b1 b2 : Z) (r1 r2 : VoteRow) : Prop :=
  v_post_id r1 = v_post_id r2 ∧ v_user_id r1 = v_user_id r2 ∧ v_value r1 = v_value r2 ∧
  ∃ days seconds, backdated b1 b2 days seconds (v_created_at r1) (v_created_at r2).

(** Two tables that grew from the same table by rows related by [R]. *)
Definition grown {A} (R : A → A → Prop) (base l1 l2 : list A) : Prop :=
  ∃ n1 n2, l1 = base ++ n1 ∧ l2 = base ++ n2 ∧ Forall2 R n1 n2.

(** The states of two runs that started on the database [d] and drew the
    same numbers. *)
Definition sim (d : DB) (bu1 bu2 bp1 bp2 : Z) (run_id1 run_id2 : string)
    (t1 t2 : State) : Prop :=
  rng (world t1) = rng (world t2) ∧
  counters (cur (conn t1)) = counters (cur (conn t2)) ∧
  boards (cur (conn t1)) = boards (cur (conn t2)) ∧
  grown (same_user bu1 bu2) (users d) (users (cur (conn t1))) (users (cur (conn t2))) ∧
  grown (same_account run_id1 run_id2) (accounts d)
        (accounts (cur (conn t1))) (accounts (cur (conn t2))) ∧
  grown (same_post bp1 bp2) (posts d) (posts (cur (conn t1))) (posts (cur (conn t2))) ∧
  grown (same_vote bp1 bp2) (post_votes d)
        (post_votes (cur (conn t1))) (post_votes (cur (conn t2))).

(** What the first loop of [seed_posts] returns for a post, in two runs. *)
Definition same_stamped (bp1 bp2 : Z) (p1 p2 : string * string) : Prop :=
  p1.1 = p2.1 ∧ ∃ days seconds, backdated bp1 bp2 days seconds p1.2 p2.2.

(** The [k]-th reading of the clock after the run started in [w]. *)
Definition reading (w : World) (k : nat) : Z := clock w (k + ticks w)%nat.

(** A number [_randbelow(n)] returned, from some state of the generator. *)
Definition drawn_below (n x : Z) : Prop := ∃ g, x = (randbelow g n).1.

(** The key of a like in [post_votes]. *)
Definition vote_key (v : VoteRow) : string * string := (v_post_id v, v_user_id v).

(** Every insert is accepted: a schema without constraints, or a database
    on which none of them bites. *)
Definition accepts_all : Prop :=
  (∀ d r, users_accepts d r = true) ∧ (∀ d r, accounts_accepts d r = true) ∧
  (∀ d r, posts_accepts d r = true) ∧ (∀ d r, post_votes_accepts d r = true).

(** The generator after the draws of [n] users: one draw of a number of
    days for each. *)
Fixpoint rng_after_users (n : nat) (g : rng_state) : rng_state :=
  match n with
  | O => g
  | S n' => (randbelow (rng_after_users n' g) 91).2
  end.

(** The four draws of one post, in the order the loop makes them: the
    board, the author, the days and the seconds. *)
Definition post_draws (boards users : Z) (g : rng_state) : (Z * Z * Z * Z) * rng_state :=
  let '(board, g) := randbelow g boards in
  let '(author, g) := randbelow g users in
  let '(days, g) := randbelow g 31 in
  let '(seconds, g) := randbelow g 86401 in
  ((board, author, days, seconds), g).

(** The generator after the draws of [n] posts. *)
Fixpoint rng_after_posts (boards users : Z) (n : nat) (g : rng_state) : rng_state :=
  match n with
  | O => g
  | S n' => (post_draws boards users (rng_after_posts boards users n' g)).2
  end.

(** The schema refuses some row on some database. *)
Definition refused : Prop :=
  ∃ d, (∃ r, users_accepts d r = false) ∨ (∃ r, accounts_accepts d r = false) ∨
       (∃ r, posts_accepts d r = false) ∨ (∃ r, post_votes_accepts d r = false).

(** [raises_only P m]: an exception that leaves [m] satisfies [P]. *)
Definition raises_only {A} (P : exn → Prop) (m : M A) : Prop :=
  ∀ s e s', m s = (Raise e, s') → P e.

(** What can end the body of the transaction: a row the schema refused,
    or a choice from no user when a post is to be written. *)
Definition seeding_error (no_users : Prop) (count : Z) (e : exn) : Prop :=
  (e = IntegrityError ∧ refused) ∨ (e = IndexError ∧ no_users ∧ 1 ≤ count).

End Vocabulary.

(** ** A concrete setting, for running the script

    A linear congruential generator, and a schema with the usual keys:
    [users.id], [accounts.account] and [posts.id] are unique, a vote is
    keyed by its post and user, and an account and a post refer to an
    existing user. *)
Module Fixture.

Global Instance lcg : PRNG := {|
  rng_state := Z;
  rng_seed a := a;
  randbelow g n := ((g `div` 65536) `mod` n, (g * 1103515245 + 12345) `mod` 2147483648) |}.

Global Instance schema : Schema := {|
  users_accepts d r := bool_decide (u_id r ∉ u_id <$> users d);
  accounts_accepts d r :=
    bool_decide (a_account r ∉ a_account <$> accounts d) &&
    bool_decide (a_user_id r ∈ u_id <$> users d);
  posts_accepts d r :=
    bool_decide (p_id r ∉ p_id <$> posts d) &&
    bool_decide (p_author_id r ∈ u_id <$> users d);
  post_votes_accepts d r :=
    bool_decide ((v_post_id r, v_user_id r) ∉ (λ v, (v_post_id v, v_user_id v)) <$> post_votes d) |}.

(** A schema that accepts every row. *)
Definition open_schema : Schema := {|
  users_accepts _ _ := true;
  accounts_accepts _ _ := true;
  posts_accepts _ _ := true;
  post_votes_accepts _ _ := true |}.

Definition empty_db : DB := mkDB ∅ [] [] [] [] [].

(** A database with two boards, one user and one post whose identifier
    runs ahead of its sequence number. *)
Definition used_db : DB :=
  mkDB {[ "user" := 1 ]}
       [mkUser 1 "u_1" "admin" "" "" "" "2024-01-01T00:00:00Z"]
       [mkAccount "admin" "u_1" "x"]
       [mkBoard 2 "b_study"; mkBoard 1 "b_food"]
       [mkPost 1 "p_3" "b_food" "u_1" "hello" "world" "" "" "" "2024-01-02T00:00:00Z" None]
       [].

(** A database with one user and nothing else. *)
Definition one_user_db : DB :=
  mkDB ∅ [mkUser 1 "u_1" "admin" "" "" "" "2024-01-01T00:00:00Z"] [] [] [] [].

(** A world with one database file, [dev.db], and a clock that stands
    still at [now]. *)
Definition world_of (d : DB) (now : Z) : World :=
  mkWorld {[ "dev.db" := File d ]} 7 (λ _, now) 0 [] [].

(** A connection just opened on [dev.db]. *)
Definition start_of (d : DB) (now : Z) : State :=
  mkState (world_of d now) (mkConn "dev.db" d false).

(** 2023-11-14T22:13:20Z, and the same time a day later. *)
Definition t0 : Z := 1700000000000000.
Definition t1 : Z := 1700086400000000.

(** What a computation returned, when it returned. *)
Definition is_ok {A} (r : result A) : bool :=
  match r with Ok _ => true | Raise _ => false end.
Definition ok_value {A} (r : result A) (default : A) : A :=
  match r with Ok a => a | Raise _ => default end.

(** The world a run leaves, and the database in its file. *)
Definition after (args : Args) (w : World) : World := (main args w).2.
Definition database_of (w : World) : DB :=
  match fs w !! "dev.db" with
  | Some (File d) => d
  | _ => empty_db
  end.

End Fixture.

(** * Properties *)

Section Properties.
Context `{PRNG} `{Schema}.

(** ** Running the monad *)

Lemma bind_run {A B} (m : M A) (k : A → M B) s :
  (m ≫= k) s = match m s with
               | (Ok a, s') => k a s'
               | (Raise e, s') => (Raise e, s')
               end.
Proof. reflexivity. Qed.

Lemma bind_ok {A B} (m : M A) (k : A → M B) s b s'' :
  (m ≫= k) s = (Ok b, s'') ↔ ∃ a s', m s = (Ok a, s') ∧ k a s' = (Ok b, s'').
Proof.
  rewrite bind_run. destruct (m s) as [[a|e] s']; split.
  - eauto.
  - intros (a' & s1 & [= -> ->] & Hk). done.
  - done.
  - intros (a' & s1 & [=] & _).
Qed.

Lemma bind_raise {A B} (m : M A) (k : A → M B) s e s'' :
  (m ≫= k) s = (Raise e, s'') ↔
  m s = (Raise e, s'') ∨ ∃ a s', m s = (Ok a, s') ∧ k a s' = (Raise e, s'').
Proof.
  rewrite bind_run. destruct (m s) as [[a|e'] s']; split.
  - eauto.
  - intros [[=]|(a' & s1 & [= -> ->] & Hk)]. done.
  - intros [= <- <-]. by left.
  - intros [[= <- <-]|(a' & s1 & [=] & _)]. done.
Qed.

Lemma ret_run {A} (a : A) s : (mret a : M A) s = (Ok a, s).
Proof. reflexivity. Qed.

Lemma raise_run {A} e s : (raise e : M A) s = (Raise e, s).
Proof. reflexivity. Qed.

Lemma steady_refl s : steady s s.
Proof. by repeat split. Qed.

Lemma steady_trans s1 s2 s3 : steady s1 s2 → steady s2 s3 → steady s1 s3.
Proof.
  intros (?&?&?&?&?&?&?) (?&?&?&?&?&?&?).
  repeat split; try congruence. auto.
Qed.

Lemma keeps_ret {A} (a : A) : keeps (mret a : M A).
Proof. intros s r s' [= _ <-]. apply steady_refl. Qed.

Lemma keeps_raise {A} e : keeps (raise e : M A).
Proof. intros s r s' [= _ <-]. apply steady_refl. Qed.

Lemma keeps_bind {A B} (m : M A) (k : A → M B) :
  keeps m → (∀ a, keeps (k a)) → keeps (m ≫= k).
Proof.
  intros Hm Hk s r s'. rewrite bind_run.
  destruct (m s) as [[a|e] s1] eqn:E.
  - intros Hr. eapply steady_trans; [by eapply Hm|by eapply Hk].
  - intros [= _ <-]. by eapply Hm.
Qed.

Lemma keeps_for_in {A B} (l : list A) (body : A → M B) :
  (∀ x, keeps (body x)) → keeps (for_in l body).
Proof.
  intros Hb. induction l as [|x l IH]; simpl.
  - apply keeps_ret.
  - apply keeps_bind; [done|]. intros b.
    apply keeps_bind; [done|]. intros bs. apply keeps_ret.
Qed.

Lemma keeps_fold_in {A S} (l : list A) (acc : S) (body : S → A → M S) :
  (∀ a x, keeps (body a x)) → keeps (fold_in l acc body).
Proof.
  intros Hb. revert acc. induction l as [|x l IH]; intros acc; simpl.
  - apply keeps_ret.
  - apply keeps_bind; [done|]. intros a. apply IH.
Qed.

Lemma keeps_query {A} (q : DB → A) : keeps (query q).
Proof. intros s r s' [= _ <-]. apply steady_refl. Qed.

Lemma keeps_dml f : spares_boards f → keeps (dml f).
Proof. intros Hf s r s' [= _ <-]. repeat split; simpl; auto. Qed.

Lemma keeps_insert {R} acc add (r : R) :
  spares_boards (add r) → keeps (insert acc add r).
Proof.
  intros Hf s o s'. unfold insert. destruct (acc _ _).
  - by apply keeps_dml.
  - intros [= _ <-]. by repeat split.
Qed.

Lemma keeps_select_max_seq table : keeps (sql_select_max_seq table).
Proof.
  intros s r s'. unfold sql_select_max_seq.
  destruct (seq_column _ _); intros [= _ <-]; apply steady_refl.
Qed.

Lemma keeps_randbelow n : keeps (random_randbelow n).
Proof.
  intros s r s'. unfold random_randbelow.
  destruct (randbelow _ _). intros [= _ <-]. by repeat split.
Qed.

Lemma keeps_now : keeps datetime_now.
Proof. intros s r s' [= _ <-]. by repeat split. Qed.

Lemma keeps_py_index {A} (l : list A) i : keeps (py_index l i).
Proof.
  unfold py_index. destruct (py_lookup l i); [apply keeps_ret|apply keeps_raise].
Qed.

Lemma spares_boards_counters f : spares_boards (set_counters f).
Proof. done. Qed.
Lemma spares_boards_user r : spares_boards (add_user r).
Proof. done. Qed.
Lemma spares_boards_account r : spares_boards (add_account r).
Proof. done. Qed.
Lemma spares_boards_post r : spares_boards (add_post r).
Proof. done. Qed.
Lemma spares_boards_vote r : spares_boards (add_vote r).
Proof. done. Qed.

Create HintDb keeps.
#[local] Hint Resolve keeps_ret keeps_raise keeps_query keeps_dml keeps_insert
  keeps_select_max_seq keeps_randbelow keeps_now keeps_py_index
  spares_boards_counters spares_boards_user spares_boards_account
  spares_boards_post spares_boards_vote : keeps.
#[local] Hint Extern 2 (keeps (_ ≫= _)) => apply keeps_bind; [|intros ?] : keeps.
#[local] Hint Extern 2 (keeps (for_in _ _)) => apply keeps_for_in; intros ? : keeps.
#[local] Hint Extern 2 (keeps (fold_in _ _ _)) => apply keeps_fold_in; intros ? ? : keeps.
#[local] Hint Extern 3 (keeps (match ?x with _ => _ end)) => destruct x : keeps.

Lemma keeps_next_counter name : keeps (next_counter name).
Proof.
  unfold next_counter, sql_insert_or_ignore_counter, sql_update_counter_incr,
    sql_select_counter. eauto 20 with keeps.
Qed.

Lemma keeps_random_randint a b : keeps (random_randint a b).
Proof. unfold random_randint. eauto with keeps. Qed.

Lemma keeps_random_choice {A} (l : list A) : keeps (random_choice l).
Proof. unfold random_choice. destruct l; eauto with keeps. Qed.

#[local] Hint Resolve keeps_next_counter keeps_random_randint keeps_random_choice : keeps.

Lemma keeps_ensure_counter_at_least name v : keeps (ensure_counter_at_least name v).
Proof.
  unfold ensure_counter_at_least, sql_insert_or_ignore_counter, sql_update_counter_case.
  eauto with keeps.
Qed.

Lemma keeps_max_seq table : keeps (max_seq table).
Proof. unfold max_seq. eauto with keeps. Qed.

Lemma keeps_fetch_board_ids : keeps fetch_board_ids.
Proof. unfold fetch_board_ids, sql_select_board_ids. eauto with keeps. Qed.

Lemma keeps_seed_users count run_id : keeps (seed_users count run_id).
Proof.
  unfold seed_users, seed_user, sql_insert_user, sql_insert_account.
  eauto 20 with keeps.
Qed.

Lemma keeps_seed_posts count user_ids board_ids l e :
  keeps (seed_posts count user_ids board_ids l e).
Proof.
  unfold seed_posts, seed_post, like_post, sql_insert_post, sql_insert_post_vote.
  apply keeps_bind; [eauto with keeps|]. intros base.
  apply keeps_bind.
  { apply keeps_for_in. intros i. eauto 30 with keeps. }
  intros ps. apply keeps_bind; [|eauto with keeps].
  apply keeps_fold_in. intros a [idx [pid cat]].
  destruct (_ || _); eauto 20 with keeps.
Qed.

#[local] Hint Resolve keeps_ensure_counter_at_least keeps_max_seq keeps_fetch_board_ids
  keeps_seed_users keeps_seed_posts : keeps.

Lemma keeps_seed_all args : keeps (seed_all args).
Proof.
  unfold seed_all.
  repeat (apply keeps_bind; [solve [eauto with keeps]|intros ?]).
  match goal with |- keeps (let '(_, _) := ?x in _) => destruct x end.
  apply keeps_ret.
Qed.

(** ** Counters *)

Lemma set_counters_ext f g d :
  f (counters d) = g (counters d) → set_counters f d = set_counters g d.
Proof. unfold set_counters. by intros ->. Qed.

Lemma txn_write_twice f g s :
  with_conn (txn_write g) (with_conn (txn_write f) s) = with_conn (txn_write (g ∘ f)) s.
Proof. reflexivity. Qed.

Lemma txn_write_ext f g s :
  f (cur (conn s)) = g (cur (conn s)) →
  with_conn (txn_write f) s = with_conn (txn_write g) s.
Proof. unfold with_conn, txn_write. by intros ->. Qed.

Lemma ensure_counter_at_least_run name min_value s :
  ensure_counter_at_least name min_value s =
  (Ok (), with_conn (txn_write (set_counters (floor_counter name min_value))) s).
Proof.
  unfold ensure_counter_at_least, sql_insert_or_ignore_counter, sql_update_counter_case.
  rewrite bind_run. unfold dml at 1. cbv beta iota. unfold dml.
  rewrite txn_write_twice. f_equal. apply txn_write_ext.
  unfold compose, set_counters. simpl. f_equal. unfold floor_counter.
  apply map_eq. intros k. rewrite lookup_alter, lookup_insert.
  destruct (counters (cur (conn s)) !! name) as [v|] eqn:E;
    case_decide; subst; rewrite ?lookup_insert_eq, ?lookup_insert_ne, ?E by done;
    simpl; try done.
  - f_equal. destruct (Z.ltb_spec v min_value); lia.
  - f_equal. rewrite Z.ltb_irrefl. done.
Qed.

Lemma next_counter_run name s :
  next_counter name s =
  (Ok (counter_value (cur (conn s)) name + 1),
   with_conn (txn_write (set_counters <[name := counter_value (cur (conn s)) name + 1]>)) s).
Proof.
  unfold next_counter, sql_insert_or_ignore_counter, sql_update_counter_incr,
    sql_select_counter.
  rewrite bind_run. unfold dml at 1. cbv beta iota.
  rewrite bind_run. unfold dml at 1. cbv beta iota.
  rewrite bind_run. unfold query at 1. cbv beta iota.
  rewrite txn_write_twice.
  set (f := set_counters (alter (λ value, value + 1) name) ∘ set_counters _).
  assert (Hf : f (cur (conn s)) =
               set_counters <[name := counter_value (cur (conn s)) name + 1]> (cur (conn s))).
  { unfold f, compose, set_counters. simpl. f_equal. unfold counter_value.
    apply map_eq. intros k. rewrite lookup_alter, lookup_insert.
    destruct (counters (cur (conn s)) !! name) as [v|] eqn:E; case_decide; subst;
      rewrite ?lookup_insert_eq, ?lookup_insert_ne, ?E by done; done. }
  rewrite (txn_write_ext _ _ _ Hf). simpl. rewrite lookup_insert_eq. reflexivity.
Qed.

Lemma max_seq_run table l s :
  seq_column table (cur (conn s)) = Some l →
  max_seq table s = (Ok (coalesce_max l), s).
Proof.
  intros E. unfold max_seq. rewrite bind_run. unfold sql_select_max_seq.
  rewrite E. rewrite ret_run. do 2 f_equal. unfold py_or0.
  destruct (Z.eqb_spec (coalesce_max l) 0); congruence.
Qed.

Lemma fetch_board_ids_run s :
  fetch_board_ids s = (Ok (board_pool (cur (conn s))), s).
Proof.
  unfold fetch_board_ids, board_pool, sql_select_board_ids.
  rewrite bind_run. unfold query.
  by destruct (b_id <$> merge_sort board_le (boards (cur (conn s)))).
Qed.

Lemma board_pool_nonempty d : board_pool d ≠ [].
Proof. unfold board_pool. by destruct (b_id <$> _). Qed.

Lemma board_pool_elem d x :
  x ∈ board_pool d ↔
  if decide (boards d = []) then x ∈ ["b_1"; "b_2"; "b_3"] else x ∈ b_id <$> boards d.
Proof.
  unfold board_pool.
  assert (Hp : b_id <$> merge_sort board_le (boards d) ≡ₚ b_id <$> boards d).
  { apply fmap_Permutation, merge_sort_Permutation. }
  destruct (b_id <$> merge_sort board_le (boards d)) as [|y ys] eqn:E.
  - symmetry in Hp. apply Permutation_nil_r in Hp.
    apply fmap_nil_inv in Hp. by rewrite decide_True.
  - rewrite decide_False; [by rewrite Hp|].
    intros Hb. rewrite Hb in Hp. by apply Permutation_nil_r in Hp.
Qed.

(** ** The transaction *)

Lemma rollback_fs s : fs (world (rollback s)) = fs (world s).
Proof.
  unfold rollback. destruct (in_transaction _); [|done].
  by destruct (fs (world s) !! _) as [[]|].
Qed.

Lemma main_uncaught_fs args w e w' :
  main args w = (Uncaught e, w') → fs w' = fs w.
Proof.
  unfold main. destruct (negb _); [done|].
  destruct (sqlite3_connect _ _) as [c|e0]; [|by intros [= _ <-]].
  unfold with_connection.
  destruct (seed_all args _) as [[[[ids ps] liked]|e1] s1] eqn:E; [done|].
  intros [= _ <-]. rewrite rollback_fs.
  by apply keeps_seed_all in E as [-> _].
Qed.

Lemma floor_counter_twice name min_value m :
  floor_counter name min_value (floor_counter name min_value m) =
  floor_counter name min_value m.
Proof.
  unfold floor_counter. rewrite lookup_insert_eq, insert_insert_eq.
  f_equal. destruct (m !! name); lia.
Qed.

Lemma py_range_nonpos n : n ≤ 0 → py_range n = [].
Proof. intros Hn. unfold py_range. by replace (Z.to_nat n) with 0%nat by lia. Qed.

Lemma py_range_pos n : 1 ≤ n → ∃ l, py_range n = 0 :: l.
Proof.
  intros Hn. unfold py_range.
  destruct (Z.to_nat n) as [|k] eqn:E; [lia|]. simpl. eauto.
Qed.

Lemma seed_users_none count run_id s :
  count ≤ 0 → seed_users count run_id s = (Ok [], with_world tick s).
Proof. intros Hc. unfold seed_users. by rewrite py_range_nonpos. Qed.

(** ** One statement, one draw *)

Lemma insert_ok {R} acc add (r : R) s u s' :
  insert acc add r s = (Ok u, s') →
  acc (cur (conn s)) r = true ∧ s' = with_conn (txn_write (add r)) s.
Proof.
  unfold insert. destruct (acc _ _); [|done]. by intros [= _ <-].
Qed.

Lemma random_randint_run a b s :
  random_randint a b s =
  (Ok (a + (randbelow (rng (world s)) (b - a + 1)).1),
   with_world (set_rng (randbelow (rng (world s)) (b - a + 1)).2) s).
Proof.
  unfold random_randint. rewrite bind_run. unfold random_randbelow.
  by destruct (randbelow _ _).
Qed.

Lemma random_choice_ok {A} (l : list A) s x s' :
  random_choice l s = (Ok x, s') →
  chosen l (rng (world s)) = Some x ∧ x ∈ l ∧
  s' = with_world (set_rng (randbelow (rng (world s)) (len l)).2) s.
Proof.
  unfold random_choice, chosen. destruct l as [|y l']; [done|].
  set (l := y :: l'). rewrite bind_run. unfold random_randbelow.
  destruct (randbelow (rng (world s)) (len l)) as [i g]. simpl.
  unfold py_index. destruct (py_lookup l i) as [z|] eqn:E; [|done].
  intros [= <- <-]. split; [done|]. split; [|done].
  unfold py_lookup in E. destruct (_ <? 0); [done|].
  by eapply list_elem_of_lookup_2.
Qed.

Lemma sample_run i s :
  py_index SAMPLE_POSTS (i `mod` len SAMPLE_POSTS) s = (Ok (sample i), s).
Proof.
  unfold py_index, sample.
  assert (Hi : 0 ≤ i `mod` len SAMPLE_POSTS < 10) by (apply Z.mod_pos_bound; done).
  unfold py_lookup.
  destruct (Z.ltb_spec (i `mod` len SAMPLE_POSTS) 0) as [?|_]; [lia|].
  destruct (Z.ltb_spec (i `mod` len SAMPLE_POSTS) 0) as [?|_]; [lia|].
  destruct (SAMPLE_POSTS !! Z.to_nat (i `mod` len SAMPLE_POSTS)) eqn:E; [done|].
  apply lookup_ge_None in E. simpl in E. lia.
Qed.

(** ** One iteration *)

Lemma seqs_from_S c n : seqs_from c (S n) = seqs_from c n ++ [c + Z.of_nat n + 1].
Proof. unfold seqs_from. by rewrite seq_S, fmap_app. Qed.

Lemma length_seqs_from c n : length (seqs_from c n) = n.
Proof. unfold seqs_from. by rewrite length_fmap, length_seq. Qed.

Lemma elem_of_seqs_from c n x :
  x ∈ seqs_from c n ↔ c < x ≤ c + Z.of_nat n.
Proof.
  unfold seqs_from. rewrite list_elem_of_fmap. split.
  - intros (j & -> & Hj). apply elem_of_seq in Hj. lia.
  - intros Hx. exists (Z.to_nat (x - c - 1)). split; [lia|].
    apply elem_of_seq. lia.
Qed.

Lemma seed_user_ok base run_id i s user_id s' :
  seed_user base run_id i s = (Ok user_id, s') →
  let c := counter_value (cur (conn s)) "user" in
  let draw := randbelow (rng (world s)) 91 in
  user_id = "u_" +:+ fmt_d (c + 1) ∧
  s' = with_world (set_rng draw.2)
         (with_conn (txn_write (add_account (account_row c run_id i) ∘
                                add_user (user_row c base i (0 + draw.1)) ∘
                                set_counters <["user" := c + 1]>)) s).
Proof.
  unfold seed_user. rewrite bind_run, next_counter_run.
  rewrite bind_run, random_randint_run.
  rewrite bind_run.
  destruct (sql_insert_user _ _) as [[[]|e] s1] eqn:E1; [|done].
  apply insert_ok in E1 as [_ ->].
  rewrite bind_run.
  destruct (sql_insert_account _ _) as [[[]|e] s2] eqn:E2; [|done].
  apply insert_ok in E2 as [_ ->].
  rewrite ret_run. intros [= <- <-]. done.
Qed.

Lemma seed_post_ok base user_ids board_ids i s p s' :
  seed_post base user_ids board_ids i s = (Ok p, s') →
  let c := counter_value (cur (conn s)) "post" in
  let g0 := rng (world s) in
  let g1 := (randbelow g0 (len board_ids)).2 in
  let g2 := (randbelow g1 (len user_ids)).2 in
  let d3 := randbelow g2 31 in
  let d4 := randbelow d3.2 86401 in
  ∃ board_id author_id,
    chosen board_ids g0 = Some board_id ∧ board_id ∈ board_ids ∧
    chosen user_ids g1 = Some author_id ∧ author_id ∈ user_ids ∧
    let row := post_row c base i board_id author_id (0 + d3.1) (0 + d4.1) in
    p = (p_id row, p_created_at row) ∧
    s' = with_world (set_rng d4.2)
           (with_conn (txn_write (add_post row ∘ set_counters <["post" := c + 1]>)) s).
Proof.
  unfold seed_post. rewrite bind_run, next_counter_run.
  rewrite bind_run.
  destruct (random_choice board_ids _) as [[b|e] s1] eqn:E1; [|done].
  apply random_choice_ok in E1 as (Hb & Hbin & ->).
  rewrite bind_run.
  destruct (random_choice user_ids _) as [[a|e] s2] eqn:E2; [|done].
  apply random_choice_ok in E2 as (Ha & Hain & ->).
  rewrite bind_run, sample_run. destruct (sample i) as [title content] eqn:Es.
  rewrite bind_run, random_randint_run.
  rewrite bind_run, random_randint_run.
  rewrite bind_run.
  destruct (sql_insert_post _ _) as [[[]|e] s3] eqn:E3; [|done].
  apply insert_ok in E3 as [_ ->].
  rewrite ret_run. intros [= <- <-].
  exists b, a. simpl in *. unfold post_row. rewrite Es. simpl. done.
Qed.

(** ** Loops that return *)

Lemma for_in_ok {A B} (I : list A → list B → State → Prop) (body : A → M B) l s bs s' :
  I [] [] s →
  (∀ pre x acc s1 b s2,
     I pre acc s1 → body x s1 = (Ok b, s2) → I (pre ++ [x]) (acc ++ [b]) s2) →
  for_in l body s = (Ok bs, s') → I l bs s'.
Proof.
  intros H0' Hstep.
  cut (∀ pre acc s0, I pre acc s0 → for_in l body s0 = (Ok bs, s') →
                     I (pre ++ l) (acc ++ bs) s').
  { intros Hc Hrun. by apply (Hc [] [] s). }
  clear s H0'. revert bs. induction l as [|x l IH]; intros bs pre acc s0 HI; simpl.
  - intros [= <- <-]. by rewrite !app_nil_r.
  - intros Hrun. apply bind_ok in Hrun as (b & s1 & Hb & Hrun).
    apply bind_ok in Hrun as (bs' & s2 & Hl & [= <- <-]).
    rewrite (cons_middle x), (cons_middle b), !app_assoc. eauto.
Qed.

Lemma fold_in_ok {A S} (I : list A → S → State → Prop) (body : S → A → M S) l acc s r s' :
  I [] acc s →
  (∀ pre x a s1 a' s2,
     I pre a s1 → body a x s1 = (Ok a', s2) → I (pre ++ [x]) a' s2) →
  fold_in l acc body s = (Ok r, s') → I l r s'.
Proof.
  intros H0' Hstep.
  cut (∀ pre a s0, I pre a s0 → fold_in l a body s0 = (Ok r, s') → I (pre ++ l) r s').
  { intros Hc Hrun. by apply (Hc [] acc s). }
  clear s acc H0'. induction l as [|x l IH]; intros pre a s0 HI; simpl.
  - intros [= <- <-]. by rewrite app_nil_r.
  - intros Hrun. apply bind_ok in Hrun as (a' & s1 & Hb & Hrun).
    rewrite (cons_middle x), app_assoc. eauto.
Qed.

Lemma length_py_range n : length (py_range n) = Z.to_nat n.
Proof. unfold py_range. by rewrite length_fmap, length_seq. Qed.

Lemma len_app {A} (l k : list A) : len (l ++ k) = len l + len k.
Proof. unfold len. rewrite length_app. lia. Qed.

Lemma bump_step name n m :
  0 ≤ n →
  <[name := default 0 (bump name n m !! name) + 1]> (bump name n m) = bump name (n + 1) m.
Proof.
  intros Hn. unfold bump. rewrite (decide_False (P := n + 1 = 0)) by lia.
  destruct (decide (n = 0)) as [->|Hne]; [done|].
  rewrite lookup_insert_eq, insert_insert_eq. simpl. f_equal. lia.
Qed.

Lemma bump_present name n m c :
  m !! name = Some c → bump name n m = <[name := c + n]> m.
Proof.
  intros Hc. unfold bump. rewrite Hc. simpl.
  destruct (decide (n = 0)) as [->|Hne]; [|done].
  by rewrite Z.add_0_r, insert_id.
Qed.

(** ** [seed_users] that returns *)

Lemma seed_users_ok count run_id s ids s' :
  seed_users count run_id s = (Ok ids, s') →
  ∃ nu na,
    cur (conn s') =
      mkDB (bump "user" (len nu) (counters (cur (conn s))))
           (users (cur (conn s)) ++ nu) (accounts (cur (conn s)) ++ na)
           (boards (cur (conn s))) (posts (cur (conn s))) (post_votes (cur (conn s))) ∧
    length nu = Z.to_nat count ∧
    length na = Z.to_nat count ∧
    u_seq <$> nu = seqs_from (counter_value (cur (conn s)) "user") (Z.to_nat count) ∧
    u_id <$> nu = ids ∧
    a_user_id <$> na = ids ∧
    Forall (λ r, u_id r = "u_" +:+ fmt_d (u_seq r)) nu.
Proof.
  unfold seed_users. rewrite bind_run. unfold datetime_now. cbv beta iota.
  set (base := clock (world s) (ticks (world s))). set (s0 := with_world tick s).
  intros Hrun. set (d := cur (conn s)). set (c0 := counter_value d "user").
  pose (I := λ (pre : list Z) (acc : list string) (s1 : State),
    ∃ nu na,
      cur (conn s1) =
        mkDB (bump "user" (len nu) (counters d)) (users d ++ nu) (accounts d ++ na)
             (boards d) (posts d) (post_votes d) ∧
      length nu = length pre ∧ length na = length pre ∧
      u_seq <$> nu = seqs_from c0 (length pre) ∧
      u_id <$> nu = acc ∧ a_user_id <$> na = acc ∧
      Forall (λ r, u_id r = "u_" +:+ fmt_d (u_seq r)) nu).
  assert (HI : I (py_range count) ids s').
  { eapply (for_in_ok I); [| |exact Hrun].
    - exists [], []. unfold I, s0, len; simpl. rewrite !app_nil_r.
      by destruct (cur (conn s)).
    - clear. intros pre x acc s1 b s2 (nu & na & Hcur & Hnu & Hna & Hseq & Hid & Haid & Hfmt) Hb.
      apply seed_user_ok in Hb as [-> ->].
      set (c := counter_value (cur (conn s1)) "user").
      assert (Hc : c = c0 + len nu).
      { unfold c, counter_value. rewrite Hcur. simpl. unfold bump.
        case_decide as E; [rewrite E; fold (counter_value d "user"); unfold c0; lia|].
        by rewrite lookup_insert_eq. }
      exists (nu ++ [user_row c base x (0 + (randbelow (rng (world s1)) 91).1)]),
             (na ++ [account_row c run_id x]).
      simpl. unfold add_account, add_user, set_counters. simpl.
      split.
      { unfold c, counter_value. rewrite Hcur. simpl.
        f_equal; [|by rewrite <- app_assoc..].
        rewrite len_app. apply bump_step. unfold len. lia. }
      rewrite !fmap_app, !length_app, Hnu, Hna, Hseq, Hid, Haid. simpl.
      replace (length pre + 1)%nat with (S (length pre)) by lia.
      rewrite seqs_from_S.
      repeat split; try done.
      + do 2 f_equal. unfold len in *. lia.
      + apply Forall_app. split; [done|]. by apply Forall_singleton. }
  destruct HI as (nu & na & ? & Hnu & Hna & ? & ? & ? & ?).
  rewrite length_py_range in *. exists nu, na. by repeat split.
Qed.

(** ** [seed_posts] that returns *)

Lemma seed_post_loop_ok base user_ids board_ids count s ps s' :
  for_in (py_range count) (seed_post base user_ids board_ids) s = (Ok ps, s') →
  ∃ np,
    cur (conn s') =
      mkDB (bump "post" (len np) (counters (cur (conn s))))
           (users (cur (conn s))) (accounts (cur (conn s))) (boards (cur (conn s)))
           (posts (cur (conn s)) ++ np) (post_votes (cur (conn s))) ∧
    length np = Z.to_nat count ∧
    p_seq <$> np = seqs_from (counter_value (cur (conn s)) "post") (Z.to_nat count) ∧
    ps = (λ r, (p_id r, p_created_at r)) <$> np ∧
    Forall (λ r, p_author_id r ∈ user_ids ∧ p_board_id r ∈ board_ids ∧
                 p_id r = "p_" +:+ fmt_d (p_seq r)) np.
Proof.
  intros Hrun. set (d := cur (conn s)). set (c0 := counter_value d "post").
  pose (I := λ (pre : list Z) (acc : list (string * string)) (s1 : State),
    ∃ np,
      cur (conn s1) =
        mkDB (bump "post" (len np) (counters d)) (users d) (accounts d) (boards d)
             (posts d ++ np) (post_votes d) ∧
      length np = length pre ∧
      p_seq <$> np = seqs_from c0 (length pre) ∧
      acc = (λ r, (p_id r, p_created_at r)) <$> np ∧
      Forall (λ r, p_author_id r ∈ user_ids ∧ p_board_id r ∈ board_ids ∧
                   p_id r = "p_" +:+ fmt_d (p_seq r)) np).
  assert (HI : I (py_range count) ps s').
  { eapply (for_in_ok I); [| |exact Hrun].
    - exists []. unfold I, len; simpl. rewrite !app_nil_r.
      by destruct (cur (conn s)).
    - clear. intros pre x acc s1 b s2 (np & Hcur & Hnp & Hseq & Hacc & Hin) Hb.
      apply seed_post_ok in Hb as (bid & aid & _ & Hbin & _ & Hain & -> & ->).
      set (c := counter_value (cur (conn s1)) "post").
      assert (Hc : c = c0 + len np).
      { unfold c, counter_value. rewrite Hcur. simpl. unfold bump.
        case_decide as E; [rewrite E; fold (counter_value d "post"); unfold c0; lia|].
        by rewrite lookup_insert_eq. }
      eexists (np ++ [post_row c _ x bid aid _ _]).
      simpl. unfold add_post, set_counters. simpl.
      split.
      { unfold c, counter_value. rewrite Hcur. simpl.
        f_equal; [|by rewrite <- app_assoc].
        rewrite len_app. apply bump_step. unfold len. lia. }
      rewrite !fmap_app, !length_app, Hnp, Hseq, Hacc. simpl.
      replace (length pre + 1)%nat with (S (length pre)) by lia.
      rewrite seqs_from_S.
      repeat split; try done.
      + do 2 f_equal. unfold len in *. lia.
      + apply Forall_app. split; [done|]. by apply Forall_singleton. }
  destruct HI as (np & ? & Hnp & ? & ? & ?).
  rewrite length_py_range in *. exists np. by repeat split.
Qed.

Lemma add_votes_nil d : add_votes [] d = d.
Proof. unfold add_votes. rewrite app_nil_r. by destruct d. Qed.

Lemma add_votes_app r1 r2 d : add_votes r2 (add_votes r1 d) = add_votes (r1 ++ r2) d.
Proof. unfold add_votes. simpl. by rewrite app_assoc. Qed.

Lemma vote_loop_ok post_id created_at us s r s' :
  for_in us (λ user_id, sql_insert_post_vote (mkVote post_id user_id 1 created_at)) s
    = (Ok r, s') →
  cur (conn s') = add_votes (like_rows post_id created_at us) (cur (conn s)).
Proof.
  intros Hrun.
  eapply (for_in_ok (λ pre (_ : list ()) s1,
            cur (conn s1) = add_votes (like_rows post_id created_at pre) (cur (conn s))));
    [| |exact Hrun].
  - simpl. by rewrite add_votes_nil.
  - intros pre x _ s1 [] s2 Hcur Hb. apply insert_ok in Hb as [_ ->]. simpl.
    rewrite Hcur. unfold like_rows. rewrite fmap_app. simpl.
    by rewrite <- add_votes_app.
Qed.

Lemma elem_of_py_range3 stop step x :
  0 < step →
  x ∈ py_range3 0 stop step ↔ 0 ≤ x < stop ∧ x `mod` step = 0.
Proof.
  intros Hstep. unfold py_range3. rewrite list_elem_of_fmap.
  set (q := (stop - 0 + step - 1) `div` step).
  assert (Hq1 : step * q ≤ stop - 0 + step - 1) by (apply Z.mul_div_le; lia).
  assert (Hq2 : stop - 0 + step - 1 < step * Z.succ q) by (apply Z.mul_succ_div_gt; lia).
  split.
  - intros (k & -> & Hk). apply elem_of_seq in Hk.
    rewrite Z.add_0_l, Z.mod_mul by lia. split; [|done]. nia.
  - intros [Hx Hm]. apply Z.mod_divide in Hm as [k ->]; [|lia].
    exists (Z.to_nat k). split; [nia|]. apply elem_of_seq. nia.
Qed.

Lemma liked_index count liked_every idx :
  0 ≤ idx < count →
  bool_decide (idx ∈ (list_to_set (py_range3 0 count (Z.max 1 liked_every)) : gset Z))
  = liked liked_every idx.
Proof.
  intros Hidx. unfold liked.
  destruct (Z.eqb_spec (idx `mod` Z.max 1 liked_every) 0) as [E|E].
  - apply bool_decide_eq_true. rewrite elem_of_list_to_set, elem_of_py_range3 by lia. done.
  - apply bool_decide_eq_false. rewrite elem_of_list_to_set, elem_of_py_range3 by lia.
    tauto.
Qed.

Lemma py_slice_to_pos {A} (l : list A) k : 0 < k → py_slice_to l k = take (Z.to_nat k) l.
Proof. intros Hk. unfold py_slice_to. destruct (Z.leb_spec 0 k); [done|lia]. Qed.

Lemma like_post_ok user_ids count liked_every k acc p s acc' s' :
  0 ≤ p.1 < count →
  like_post user_ids (list_to_set (py_range3 0 count (Z.max 1 liked_every))) k acc p s
    = (Ok acc', s') →
  cur (conn s') = add_votes (likes_for user_ids k liked_every p) (cur (conn s)) ∧
  acc' = acc + (if liked liked_every p.1 && (0 <? k) then 1 else 0).
Proof.
  destruct p as [idx [post_id created_at]]. simpl. intros Hidx.
  unfold like_post, likes_for. simpl.
  rewrite bool_decide_not, (liked_index count) by done.
  rewrite (Z.leb_antisym 0 k), <- negb_andb.
  destruct (liked liked_every idx && (0 <? k)) eqn:E; simpl.
  - apply andb_true_iff in E as [_ Hk%Z.ltb_lt].
    rewrite py_slice_to_pos by done.
    intros Hrun. apply bind_ok in Hrun as (r & s1 & Hl & [= <- <-]).
    by apply vote_loop_ok in Hl.
  - intros [= <- <-]. rewrite add_votes_nil. split; [done|lia].
Qed.

Lemma enumerate_snoc {A} (l : list A) x : enumerate (l ++ [x]) = enumerate l ++ [(len l, x)].
Proof.
  unfold enumerate, py_range, len. rewrite length_app. simpl.
  rewrite !Nat2Z.id. replace (length l + 1)%nat with (S (length l)) by lia.
  rewrite seq_S, fmap_app. simpl.
  rewrite zip_with_app by (by rewrite length_fmap, length_seq). done.
Qed.

Lemma enumerate_index {A} (l : list A) idx x :
  (idx, x) ∈ enumerate l → 0 ≤ idx < len l.
Proof.
  induction l as [|y l IH] using rev_ind; [by intros ?%elem_of_nil|].
  rewrite enumerate_snoc, len_app. unfold len at 3. simpl.
  intros [Hin|Hin%list_elem_of_singleton]%elem_of_app.
  - apply IH in Hin. unfold len in *. lia.
  - injection Hin as -> _. unfold len. lia.
Qed.

Lemma like_loop_ok user_ids count liked_every k ps s n s' :
  length ps = Z.to_nat count →
  fold_in (enumerate ps) 0
    (like_post user_ids (list_to_set (py_range3 0 count (Z.max 1 liked_every))) k) s
    = (Ok n, s') →
  cur (conn s') =
    add_votes (concat (likes_for user_ids k liked_every <$> enumerate ps)) (cur (conn s)) ∧
  n = len (filter (λ p, liked liked_every p.1 && (0 <? k) = true) (enumerate ps)).
Proof.
  intros Hlen Hrun.
  pose (I := λ (pre : list (Z * (string * string))) (acc : Z) (s1 : State),
    Forall (λ p, 0 ≤ p.1 < count) pre →
    cur (conn s1) =
      add_votes (concat (likes_for user_ids k liked_every <$> pre)) (cur (conn s)) ∧
    acc = len (filter (λ p, liked liked_every p.1 && (0 <? k) = true) pre)).
  apply (fold_in_ok I) in Hrun.
  - apply Hrun. apply Forall_forall. intros [idx x] Hin.
    apply enumerate_index in Hin. unfold len in Hin. simpl. lia.
  - intros _. simpl. by rewrite add_votes_nil.
  - clear. intros pre x a s1 a' s2 HI Hb Hall.
    apply Forall_app in Hall as [Hpre Hx]. rewrite Forall_singleton in Hx.
    destruct (HI Hpre) as [Hcur ->].
    apply like_post_ok in Hb; [|exact Hx]. destruct Hb as [-> ->].
    rewrite Hcur, add_votes_app, fmap_app, concat_app, filter_app, len_app. simpl.
    rewrite app_nil_r. split; [done|]. f_equal.
    rewrite filter_cons, filter_nil.
    destruct (liked liked_every x.1 && (0 <? k)); by case_decide.
Qed.

Lemma seed_posts_ok count user_ids board_ids likes_per_post liked_every s ps n s' :
  seed_posts count user_ids board_ids likes_per_post liked_every s = (Ok (ps, n), s') →
  let k := Z.min likes_per_post (len user_ids) in
  ∃ np,
    cur (conn s') =
      mkDB (bump "post" (len np) (counters (cur (conn s))))
           (users (cur (conn s))) (accounts (cur (conn s))) (boards (cur (conn s)))
           (posts (cur (conn s)) ++ np)
           (post_votes (cur (conn s)) ++
              concat (likes_for user_ids k liked_every <$> enumerate ps)) ∧
    length np = Z.to_nat count ∧
    p_seq <$> np = seqs_from (counter_value (cur (conn s)) "post") (Z.to_nat count) ∧
    ps = (λ r, (p_id r, p_created_at r)) <$> np ∧
    Forall (λ r, p_author_id r ∈ user_ids ∧ p_board_id r ∈ board_ids ∧
                 p_id r = "p_" +:+ fmt_d (p_seq r)) np ∧
    n = len (filter (λ p, liked liked_every p.1 && (0 <? k) = true) (enumerate ps)).
Proof.
  unfold seed_posts. rewrite bind_run. unfold datetime_now at 1. cbv beta iota.
  intros Hrun.
  apply bind_ok in Hrun as (ps0 & s1 & Hposts & Hrun).
  apply bind_ok in Hrun as (n0 & s2 & Hlikes & [= <- <- <-]).
  apply seed_post_loop_ok in Hposts as (np & Hcur1 & Hlen & Hseq & -> & Hall).
  apply like_loop_ok in Hlikes as [Hcur2 ->]; [|by rewrite length_fmap].
  exists np. rewrite Hcur2, Hcur1. by repeat split.
Qed.

(** ** A run that returns *)

Lemma seed_all_ok args s ids ps n s' :
  seed_all args s = (Ok (ids, ps, n), s') →
  let d := cur (conn s) in
  let d' := cur (conn s') in
  let k := Z.min (args_likes_per_post args) (len ids) in
  ∃ nu na np,
    users d' = users d ++ nu ∧
    accounts d' = accounts d ++ na ∧
    boards d' = boards d ∧
    posts d' = posts d ++ np ∧
    post_votes d' =
      post_votes d ++ concat (likes_for ids k (args_liked_every args) <$> enumerate ps) ∧
    counters d' !! "user" = Some (user_floor d + len nu) ∧
    counters d' !! "post" = Some (post_floor d + len np) ∧
    (∀ name, name ≠ "user" → name ≠ "post" → counters d' !! name = counters d !! name) ∧
    length nu = Z.to_nat (args_users args) ∧
    length na = Z.to_nat (args_users args) ∧
    length np = Z.to_nat (args_posts args) ∧
    u_seq <$> nu = seqs_from (user_floor d) (Z.to_nat (args_users args)) ∧
    p_seq <$> np = seqs_from (post_floor d) (Z.to_nat (args_posts args)) ∧
    ids = u_id <$> nu ∧
    a_user_id <$> na = ids ∧
    ps = (λ r, (p_id r, p_created_at r)) <$> np ∧
    Forall (λ r, u_id r = "u_" +:+ fmt_d (u_seq r)) nu ∧
    Forall (λ r, p_author_id r ∈ ids ∧ p_board_id r ∈ board_pool d ∧
                 p_id r = "p_" +:+ fmt_d (p_seq r)) np ∧
    n = len (filter (λ p, liked (args_liked_every args) p.1 && (0 <? k) = true)
                    (enumerate ps)) ∧
    in_transaction (conn s') = true.
Proof.
  intros Hrun. pose proof (keeps_seed_all _ _ _ _ Hrun) as Hsteady.
  unfold seed_all in Hrun.
  rewrite bind_run, (max_seq_run "users" (u_seq <$> users (cur (conn s)))) in Hrun by done.
  rewrite bind_run, ensure_counter_at_least_run in Hrun.
  rewrite bind_run in Hrun.
  erewrite (max_seq_run "posts") in Hrun by reflexivity.
  rewrite bind_run, ensure_counter_at_least_run in Hrun.
  rewrite bind_run in Hrun. unfold datetime_now at 1 in Hrun. cbv beta iota in Hrun.
  apply bind_ok in Hrun as (ids0 & s1 & Husers & Hrun).
  rewrite bind_run, fetch_board_ids_run in Hrun.
  apply bind_ok in Hrun as ([ps0 n0] & s2 & Hposts & [= <- <- <- <-]).
  pose proof (keeps_seed_users _ _ _ _ _ Husers) as Hst1.
  pose proof (keeps_seed_posts _ _ _ _ _ _ _ _ Hposts) as Hst2.
  apply seed_users_ok in Husers as (nu & na & Hcur1 & Hnu & Hna & Hsequ & Hid & Haid & Hfu).
  apply seed_posts_ok in Hposts as (np & Hcur2 & Hnp & Hseqp & Hps & Hall & Hn).
  simpl in Hcur1, Hsequ.
  assert (Hu0 : floor_counter "post" (coalesce_max (p_seq <$> posts (cur (conn s))))
                  (floor_counter "user" (coalesce_max (u_seq <$> users (cur (conn s))))
                     (counters (cur (conn s)))) !! "user"
                = Some (user_floor (cur (conn s)))).
  { unfold floor_counter at 1. rewrite lookup_insert_ne by done.
    unfold floor_counter. by rewrite lookup_insert_eq. }
  assert (Hp0 : floor_counter "post" (coalesce_max (p_seq <$> posts (cur (conn s))))
                  (floor_counter "user" (coalesce_max (u_seq <$> users (cur (conn s))))
                     (counters (cur (conn s)))) !! "post"
                = Some (post_floor (cur (conn s)))).
  { unfold floor_counter at 1. rewrite lookup_insert_eq.
    unfold floor_counter. by rewrite lookup_insert_ne. }
  rewrite (bump_present _ _ _ _ Hu0) in Hcur1.
  unfold counter_value in Hsequ. simpl in Hsequ. rewrite Hu0 in Hsequ. simpl in Hsequ.
  rewrite Hcur1 in Hcur2, Hseqp, Hall. simpl in Hcur2, Hseqp, Hall.
  unfold counter_value in Hseqp. simpl in Hseqp.
  rewrite lookup_insert_ne, Hp0 in Hseqp by done. simpl in Hseqp.
  erewrite bump_present in Hcur2 by (by rewrite lookup_insert_ne).
  exists nu, na, np. simpl. rewrite Hcur2. simpl.
  rewrite lookup_insert_ne, !lookup_insert_eq by done.
  repeat split; try done.
  - intros name H1 H2. rewrite !lookup_insert_ne by done.
    unfold floor_counter. by rewrite !lookup_insert_ne.
  - destruct Hsteady as (_ & _ & _ & _ & _ & _ & Htx).
    destruct Hst2 as (_ & _ & _ & _ & _ & _ & Htx2).
    destruct Hst1 as (_ & _ & _ & _ & _ & _ & Htx1).
    apply Htx2, Htx1. done.
Qed.

Lemma inserted_app {A} (l new : list A) : inserted l (l ++ new) = new.
Proof. apply drop_app_length. Qed.

Lemma main_ok args w d w' :
  fs w !! args_db args = Some (File d) →
  main args w = (Returned 0, w') →
  ∃ ids ps n s',
    seed_all args (mkState (random_seed 42 w) (mkConn (args_db args) d false))
      = (Ok (ids, ps, n), s') ∧
    fs w' = <[args_db args := File (cur (conn s'))]> (fs w) ∧
    stdout w' = stdout w ++ summary (len ids) (len ps) n ::
                  (if args_likes_per_post args >? len ids then [warning (len ids)] else []) ∧
    stderr w' = stderr w ∧
    rng w' = rng (world s').
Proof.
  intros Hd. unfold main, os_path_exists, sqlite3_connect. simpl. rewrite Hd.
  rewrite bool_decide_true by eauto. simpl.
  unfold with_connection.
  destruct (seed_all args _) as [[[[ids ps] n]|e] s1] eqn:E; [|done].
  pose proof (keeps_seed_all _ _ _ _ E) as (Hfs & Hpath & _ & Hout & Herr & _ & _).
  apply seed_all_ok in E as Hok.
  destruct Hok as (nu & na & np & Hok).
  do 19 (destruct Hok as [_ Hok]).
  simpl in *. unfold commit. rewrite Hok. simpl.
  rewrite Hfs, Hpath, Hout, Herr.
  destruct (args_likes_per_post args >? len ids) eqn:Hgt; intros [= <-];
    exists ids, ps, n, s1; simpl; rewrite Hgt, <- ?app_assoc; done.
Qed.

Lemma main_outcome args w d o w' :
  fs w !! args_db args = Some (File d) →
  main args w = (o, w') →
  o = Returned 0 ∨ ∃ e, o = Uncaught e.
Proof.
  intros Hd. unfold main, os_path_exists, sqlite3_connect. simpl. rewrite Hd.
  rewrite bool_decide_true by eauto. simpl.
  unfold with_connection.
  destruct (seed_all args _) as [[[[ids ps] n]|e] s1].
  - intros [= <- _]. by left.
  - intros [= <- _]. eauto.
Qed.

Lemma coalesce_max_ge l x : x ∈ l → x ≤ coalesce_max l.
Proof.
  destruct l as [|y l]; [by intros ?%elem_of_nil|]. simpl.
  revert x. induction l as [|z l IH]; simpl; intros x Hx.
  - apply list_elem_of_singleton in Hx. lia.
  - assert (Hy : y ≤ foldr Z.max y l) by (apply IH; left).
    apply elem_of_cons in Hx as [->|Hx]; [lia|].
    apply elem_of_cons in Hx as [->|Hx]; [lia|].
    assert (x ≤ foldr Z.max y l) by (apply IH; by right). lia.
Qed.

Lemma counter_floor_ge_stored d name seqs v :
  counters d !! name = Some v → v ≤ counter_floor d name seqs.
Proof. intros Hv. unfold counter_floor. rewrite Hv. lia. Qed.

Lemma counter_floor_ge_seq d name seqs x :
  x ∈ seqs → x ≤ counter_floor d name seqs.
Proof.
  intros Hx%coalesce_max_ge. unfold counter_floor. destruct (counters d !! name); lia.
Qed.

(** ** Which post is given which rows *)

Lemma likes_received_like_rows post_id post_id' created_at us :
  likes_received post_id (like_rows post_id' created_at us) =
  if decide (post_id' = post_id) then like_rows post_id' created_at us else [].
Proof.
  unfold likes_received, like_rows. induction us as [|u us IH].
  - by case_decide.
  - rewrite fmap_cons, filter_cons, IH. simpl. by repeat case_decide.
Qed.

Lemma likes_received_likes_for post_id user_ids k liked_every p :
  likes_received post_id (likes_for user_ids k liked_every p) =
  if decide (p.2.1 = post_id) then likes_for user_ids k liked_every p else [].
Proof.
  unfold likes_for. destruct (_ && _).
  - apply likes_received_like_rows.
  - by case_decide.
Qed.

Lemma likes_received_other post_id user_ids k liked_every l :
  post_id ∉ (λ p : Z * (string * string), p.2.1) <$> l →
  likes_received post_id (concat (likes_for user_ids k liked_every <$> l)) = [].
Proof.
  induction l as [|x l IH]; [done|]. rewrite !fmap_cons, not_elem_of_cons.
  intros [Hx Hl]. cbn [concat]. unfold likes_received in *.
  rewrite filter_app, IH by done.
  fold (likes_received post_id (likes_for user_ids k liked_every x)).
  rewrite likes_received_likes_for, decide_False by done. done.
Qed.

Lemma likes_received_concat user_ids k liked_every l p :
  NoDup ((λ p : Z * (string * string), p.2.1) <$> l) →
  p ∈ l →
  likes_received p.2.1 (concat (likes_for user_ids k liked_every <$> l)) =
  likes_for user_ids k liked_every p.
Proof.
  induction l as [|x l IH]; [by intros _ ?%elem_of_nil|].
  rewrite !fmap_cons, NoDup_cons. intros [Hx Hnd] Hin. cbn [concat].
  unfold likes_received. rewrite filter_app.
  fold (likes_received p.2.1 (likes_for user_ids k liked_every x)).
  fold (likes_received p.2.1 (concat (likes_for user_ids k liked_every <$> l))).
  rewrite likes_received_likes_for.
  apply elem_of_cons in Hin as [->|Hin].
  - rewrite decide_True, likes_received_other, app_nil_r by done. done.
  - rewrite decide_False, IH by (try done; intros E; apply Hx; rewrite E;
                                  by apply (list_elem_of_fmap_2 (λ p, p.2.1))).
    done.
Qed.

Lemma py_range_snoc (n : nat) : py_range (Z.of_nat (S n)) = py_range (Z.of_nat n) ++ [Z.of_nat n].
Proof. unfold py_range. rewrite !Nat2Z.id, seq_S, fmap_app. done. Qed.

Lemma liked_posts_count {A} liked_every (b : bool) (l : list A) :
  len (filter (λ p, liked liked_every p.1 && b = true) (enumerate l)) =
  if b then liked_count liked_every (len l) else 0.
Proof.
  unfold liked_count.
  induction l as [|x l IH] using rev_ind; [by destruct b|].
  rewrite enumerate_snoc, filter_app, len_app, IH.
  assert (Hl : len (l ++ [x]) = Z.of_nat (S (length l)))
    by (unfold len; rewrite length_app; simpl; lia).
  rewrite Hl, py_range_snoc, filter_app, len_app. fold (len l).
  rewrite !filter_cons, !filter_nil. simpl.
  destruct b; [|rewrite andb_false_r; by case_decide].
  rewrite andb_true_r. by repeat case_decide.
Qed.

Lemma enumerate_ids (ps : list (string * string)) :
  (λ p : Z * (string * string), p.2.1) <$> enumerate ps = ps.*1.
Proof.
  trans (fst <$> (snd <$> enumerate ps)); [by rewrite <- list_fmap_compose|].
  unfold enumerate. rewrite snd_zip; [done|]. rewrite length_py_range. unfold len. lia.
Qed.

Lemma post_id_inj : Inj (=) (=) (λ x : Z, "p_" +:+ fmt_d x).
Proof.
  intros x y Hxy. unfold fmt_d in Hxy. cbn [String.append] in Hxy.
  injection Hxy as Hxy. exact (inj pretty x y Hxy).
Qed.

Lemma seqs_from_nodup c n : NoDup (seqs_from c n).
Proof.
  unfold seqs_from. apply NoDup_fmap_2_strong; [|apply NoDup_seq].
  intros x y _ _ ?. lia.
Qed.

Lemma post_ids_nodup np c n :
  p_seq <$> np = seqs_from c n →
  Forall (λ r, p_id r = "p_" +:+ fmt_d (p_seq r)) np →
  NoDup (((λ r, (p_id r, p_created_at r)) <$> np).*1).
Proof.
  intros Hseq Hid. rewrite <- list_fmap_compose.
  rewrite (Forall_fmap_ext_1 (fst ∘ _) (λ r, "p_" +:+ fmt_d (p_seq r)) np) by done.
  rewrite (list_fmap_compose p_seq (λ x, "p_" +:+ fmt_d x)), Hseq.
  apply NoDup_fmap_2; [apply post_id_inj|apply seqs_from_nodup].
Qed.

Lemma seed_posts_likes count user_ids board_ids likes_per_post liked_every s ps n s' :
  seed_posts count user_ids board_ids likes_per_post liked_every s = (Ok (ps, n), s') →
  let k := Z.min likes_per_post (len user_ids) in
  let votes := inserted (post_votes (cur (conn s))) (post_votes (cur (conn s'))) in
  length ps = Z.to_nat count ∧
  votes = concat (likes_for user_ids k liked_every <$> enumerate ps) ∧
  (∀ idx p, (idx, p) ∈ enumerate ps →
     likes_received p.1 votes = likes_for user_ids k liked_every (idx, p)) ∧
  n = if 0 <? k then liked_count liked_every (len ps) else 0.
Proof.
  intros Hrun. apply seed_posts_ok in Hrun as (np & Hcur & Hlen & Hseq & Hps & Hall & Hn).
  cbv zeta. rewrite Hcur. simpl. rewrite inserted_app.
  split; [by rewrite Hps, length_fmap|]. split; [done|]. split.
  - intros idx p Hin.
    apply (likes_received_concat _ _ _ _ (idx, p)); [|done].
    rewrite enumerate_ids, Hps. eapply post_ids_nodup; [exact Hseq|].
    eapply Forall_impl; [exact Hall|]. by intros r (_ & _ & ?).
  - rewrite Hn. apply liked_posts_count.
Qed.

Lemma likes_for_liked user_ids k liked_every idx p :
  k ≤ len user_ids →
  likes_for user_ids k liked_every (idx, p) =
  if liked liked_every idx then like_rows p.1 p.2 (take (Z.to_nat k) user_ids) else [].
Proof.
  intros Hk. unfold likes_for. simpl. destruct (liked liked_every idx); [|done]. simpl.
  destruct (Z.ltb_spec 0 k); [done|].
  by replace (Z.to_nat k) with 0%nat by lia.
Qed.

Lemma len_like_rows post_id created_at user_ids k :
  k ≤ len user_ids →
  len (like_rows post_id created_at (take (Z.to_nat k) user_ids)) = Z.max 0 k.
Proof.
  intros Hk. unfold like_rows, len in *. rewrite length_fmap, length_take. lia.
Qed.

(** ** Two runs side by side *)

Lemma grown_refl {A} (R : A → A → Prop) base : grown R base base base.
Proof. exists [], []. by rewrite app_nil_r. Qed.

Lemma grown_app {A} (R : A → A → Prop) base l1 l2 m1 m2 :
  grown R base l1 l2 → Forall2 R m1 m2 → grown R base (l1 ++ m1) (l2 ++ m2).
Proof.
  intros (n1 & n2 & -> & -> & Hn) Hm. exists (n1 ++ m1), (n2 ++ m2).
  rewrite <- !app_assoc. repeat split. by apply Forall2_app.
Qed.

Lemma grown_snoc {A} (R : A → A → Prop) base l1 l2 r1 r2 :
  grown R base l1 l2 → R r1 r2 → grown R base (l1 ++ [r1]) (l2 ++ [r2]).
Proof. intros Hg Hr. apply grown_app; [done|]. by repeat constructor. Qed.

Lemma grown_inserted {A} (R : A → A → Prop) base l1 l2 :
  grown R base l1 l2 → Forall2 R (inserted base l1) (inserted base l2).
Proof. intros (n1 & n2 & -> & -> & Hn). by rewrite !inserted_app. Qed.

Lemma for_in_ok2 {A B} (I : list B → list B → State → State → Prop)
    (body1 body2 : A → M B) l s1 s2 bs1 bs2 s1' s2' :
  I [] [] s1 s2 →
  (∀ x acc1 acc2 t1 t2 b1 b2 t1' t2',
     I acc1 acc2 t1 t2 →
     body1 x t1 = (Ok b1, t1') → body2 x t2 = (Ok b2, t2') →
     I (acc1 ++ [b1]) (acc2 ++ [b2]) t1' t2') →
  for_in l body1 s1 = (Ok bs1, s1') →
  for_in l body2 s2 = (Ok bs2, s2') →
  I bs1 bs2 s1' s2'.
Proof.
  intros H0' Hstep.
  cut (∀ acc1 acc2 t1 t2, I acc1 acc2 t1 t2 →
         for_in l body1 t1 = (Ok bs1, s1') → for_in l body2 t2 = (Ok bs2, s2') →
         I (acc1 ++ bs1) (acc2 ++ bs2) s1' s2').
  { intros Hc Hr1 Hr2. by apply (Hc [] [] s1 s2). }
  clear s1 s2 H0'. revert bs1 bs2.
  induction l as [|x l IH]; intros bs1 bs2 acc1 acc2 t1 t2 HI; simpl.
  - intros [= <- <-] [= <- <-]. by rewrite !app_nil_r.
  - intros Hr1 Hr2.
    apply bind_ok in Hr1 as (b1 & u1 & Hb1 & Hr1).
    apply bind_ok in Hr1 as (bs1' & v1 & Hl1 & [= <- <-]).
    apply bind_ok in Hr2 as (b2 & u2 & Hb2 & Hr2).
    apply bind_ok in Hr2 as (bs2' & v2 & Hl2 & [= <- <-]).
    rewrite (cons_middle b1), (cons_middle b2), !app_assoc. eauto.
Qed.

Section Determinism.
Variable d : DB.
Variables bu1 bu2 bp1 bp2 : Z.
Variables run_id1 run_id2 : string.

Local Abbreviation simd := (sim d bu1 bu2 bp1 bp2 run_id1 run_id2).
Local Abbreviation stamped := (same_stamped bp1 bp2).

Lemma sim_start (t1 t2 : State) :
  rng (world t1) = rng (world t2) →
  cur (conn t1) = cur (conn t2) →
  users (cur (conn t1)) = users d → accounts (cur (conn t1)) = accounts d →
  posts (cur (conn t1)) = posts d → post_votes (cur (conn t1)) = post_votes d →
  simd t1 t2.
Proof.
  intros Hr Hc Hu Ha Hp Hv. unfold sim. rewrite <- Hc, Hu, Ha, Hp, Hv.
  repeat split; try done; apply grown_refl.
Qed.

Lemma seed_users_sim count s1 s2 ids1 ids2 s1' s2' :
  clock (world s1) (ticks (world s1)) = bu1 →
  clock (world s2) (ticks (world s2)) = bu2 →
  simd s1 s2 →
  seed_users count run_id1 s1 = (Ok ids1, s1') →
  seed_users count run_id2 s2 = (Ok ids2, s2') →
  simd s1' s2' ∧ ids1 = ids2.
Proof.
  intros Hb1 Hb2 Hsim. unfold seed_users. rewrite !bind_run.
  unfold datetime_now. cbv beta iota. rewrite Hb1, Hb2.
  apply (for_in_ok2 (λ acc1 acc2 t1 t2, simd t1 t2 ∧ acc1 = acc2)); [done|].
  clear. intros x acc1 acc2 t1 t2 b1 b2 t1' t2' [Hsim ->] H1 H2.
  destruct Hsim as (Hr & Hc & Hb & Hu & Ha & Hp & Hv).
  apply seed_user_ok in H1 as [-> ->]. apply seed_user_ok in H2 as [-> ->].
  unfold counter_value. rewrite Hr, Hc. split; [|done].
  unfold sim. simpl. rewrite Hc. repeat split; try done.
  - apply grown_snoc; [done|]. unfold same_user, user_row. simpl.
    repeat split; try done. eexists. by split.
  - apply grown_snoc; [done|]. unfold same_account, account_row. simpl.
    repeat split; try done. eexists. by split.
Qed.

Lemma seed_post_loop_sim count user_ids board_ids s1 s2 ps1 ps2 s1' s2' :
  simd s1 s2 →
  for_in (py_range count) (seed_post bp1 user_ids board_ids) s1 = (Ok ps1, s1') →
  for_in (py_range count) (seed_post bp2 user_ids board_ids) s2 = (Ok ps2, s2') →
  simd s1' s2' ∧ Forall2 stamped ps1 ps2.
Proof.
  intros Hsim.
  apply (for_in_ok2 (λ acc1 acc2 t1 t2, simd t1 t2 ∧ Forall2 stamped acc1 acc2));
    [by split|].
  clear. intros x acc1 acc2 t1 t2 b1 b2 t1' t2' [Hsim Hacc] H1 H2.
  destruct Hsim as (Hr & Hc & Hb & Hu & Ha & Hp & Hv).
  apply seed_post_ok in H1 as (bid1 & aid1 & Hb1 & _ & Ha1 & _ & -> & ->).
  apply seed_post_ok in H2 as (bid2 & aid2 & Hb2 & _ & Ha2 & _ & -> & ->).
  rewrite Hr in Hb1, Ha1. rewrite Hb1 in Hb2. rewrite Ha1 in Ha2.
  injection Hb2 as <-. injection Ha2 as <-.
  unfold counter_value. rewrite Hr, Hc. split.
  - unfold sim. simpl. rewrite Hc. repeat split; try done.
    apply grown_snoc; [done|]. unfold same_post, post_row. simpl.
    repeat split; try done. do 2 eexists. by split.
  - apply Forall2_app; [done|]. repeat constructor. simpl.
    do 2 eexists. by split.
Qed.

Lemma likes_for_sim user_ids k liked_every idx p1 p2 :
  stamped p1 p2 →
  Forall2 (same_vote bp1 bp2) (likes_for user_ids k liked_every (idx, p1))
                              (likes_for user_ids k liked_every (idx, p2)).
Proof.
  intros [Hid (days & seconds & Hback)]. unfold likes_for. simpl.
  destruct (_ && _); [|constructor].
  unfold like_rows. apply Forall2_fmap, Forall_Forall2_diag, Forall_forall.
  intros u _. unfold same_vote. simpl. repeat split; try done. eauto.
Qed.

Lemma likes_zip_sim user_ids k liked_every ps1 ps2 (a : nat) :
  Forall2 stamped ps1 ps2 →
  Forall2 (same_vote bp1 bp2)
    (concat (likes_for user_ids k liked_every <$> zip (Z.of_nat <$> seq a (length ps1)) ps1))
    (concat (likes_for user_ids k liked_every <$> zip (Z.of_nat <$> seq a (length ps2)) ps2)).
Proof.
  intros Hps. revert a. induction Hps as [|p1 p2 l1 l2 Hp Hl IH]; intros a; simpl.
  - constructor.
  - apply Forall2_app; [by apply likes_for_sim|]. apply IH.
Qed.

Lemma likes_enumerate_sim user_ids k liked_every ps1 ps2 :
  Forall2 stamped ps1 ps2 →
  Forall2 (same_vote bp1 bp2)
    (concat (likes_for user_ids k liked_every <$> enumerate ps1))
    (concat (likes_for user_ids k liked_every <$> enumerate ps2)).
Proof.
  intros Hps. unfold enumerate, py_range, len. rewrite !Nat2Z.id.
  by apply likes_zip_sim.
Qed.

End Determinism.

Lemma like_loop_rng user_ids liked_indices k ps s n s' :
  fold_in (enumerate ps) 0 (like_post user_ids liked_indices k) s = (Ok n, s') →
  rng (world s') = rng (world s).
Proof.
  apply (fold_in_ok (λ _ _ s1, rng (world s1) = rng (world s))); [done|].
  intros _ [idx [post_id created_at]] a s1 a' s2 <-. unfold like_post.
  destruct (_ || _); [by intros [= _ <-]|].
  intros Hrun. apply bind_ok in Hrun as (r & s3 & Hl & [= _ <-]). revert Hl.
  apply (for_in_ok (λ _ _ s4, rng (world s4) = rng (world s1))); [done|].
  intros _ u _ s4 [] s5 <- Hins. by apply insert_ok in Hins as [_ ->].
Qed.

Lemma seed_posts_sim d bu1 bu2 bp1 bp2 run_id1 run_id2
    count user_ids board_ids likes_per_post liked_every s1 s2 ps1 n1 ps2 n2 s1' s2' :
  clock (world s1) (ticks (world s1)) = bp1 →
  clock (world s2) (ticks (world s2)) = bp2 →
  sim d bu1 bu2 bp1 bp2 run_id1 run_id2 s1 s2 →
  seed_posts count user_ids board_ids likes_per_post liked_every s1 = (Ok (ps1, n1), s1') →
  seed_posts count user_ids board_ids likes_per_post liked_every s2 = (Ok (ps2, n2), s2') →
  sim d bu1 bu2 bp1 bp2 run_id1 run_id2 s1' s2' ∧
  Forall2 (same_stamped bp1 bp2) ps1 ps2 ∧ n1 = n2.
Proof.
  intros Hb1 Hb2 Hsim. unfold seed_posts. intros Hr1 Hr2.
  rewrite bind_run in Hr1. unfold datetime_now at 1 in Hr1. cbv beta iota in Hr1.
  rewrite bind_run in Hr2. unfold datetime_now at 1 in Hr2. cbv beta iota in Hr2.
  rewrite Hb1 in Hr1. rewrite Hb2 in Hr2.
  apply bind_ok in Hr1 as (qs1 & t1 & Hp1 & Hr1).
  apply bind_ok in Hr1 as (m1 & u1 & Hl1 & [= <- <- <-]).
  apply bind_ok in Hr2 as (qs2 & t2 & Hp2 & Hr2).
  apply bind_ok in Hr2 as (m2 & u2 & Hl2 & [= <- <- <-]).
  assert (Hlen1 : length qs1 = Z.to_nat count).
  { apply seed_post_loop_ok in Hp1 as (np & _ & Hn & _ & -> & _). by rewrite length_fmap. }
  assert (Hlen2 : length qs2 = Z.to_nat count).
  { apply seed_post_loop_ok in Hp2 as (np & _ & Hn & _ & -> & _). by rewrite length_fmap. }
  assert (Hsim0 : sim d bu1 bu2 bp1 bp2 run_id1 run_id2
                    (with_world tick s1) (with_world tick s2)) by exact Hsim.
  destruct (seed_post_loop_sim d bu1 bu2 bp1 bp2 run_id1 run_id2 _ _ _ _ _ _ _ _ _
              Hsim0 Hp1 Hp2) as [Hsim' Hps].
  pose proof (like_loop_rng _ _ _ _ _ _ _ Hl1) as Hg1.
  pose proof (like_loop_rng _ _ _ _ _ _ _ Hl2) as Hg2.
  apply like_loop_ok in Hl1 as [Hc1 ->]; [|done].
  apply like_loop_ok in Hl2 as [Hc2 ->]; [|done].
  destruct Hsim' as (Hr & Hc & Hb & Hu & Ha & Hp & Hv).
  split; [|split; [done|]].
  - unfold sim. rewrite Hg1, Hg2, Hc1, Hc2. simpl.
    repeat split; try done. apply grown_app; [done|].
    by apply likes_enumerate_sim.
  - rewrite !liked_posts_count. unfold len.
    by rewrite (Forall2_length _ _ _ Hps).
Qed.

Lemma seed_users_ticks count run_id s ids s' :
  seed_users count run_id s = (Ok ids, s') →
  ticks (world s') = S (ticks (world s)).
Proof.
  unfold seed_users. rewrite bind_run. unfold datetime_now. cbv beta iota.
  apply (for_in_ok (λ _ _ s1, ticks (world s1) = S (ticks (world s)))); [done|].
  intros _ x _ s1 b s2 <- Hb. by apply seed_user_ok in Hb as [_ ->].
Qed.


Lemma seed_all_sim args s1 s2 ids1 ps1 n1 s1' ids2 ps2 n2 s2' :
  rng (world s1) = rng (world s2) →
  cur (conn s1) = cur (conn s2) →
  seed_all args s1 = (Ok (ids1, ps1, n1), s1') →
  seed_all args s2 = (Ok (ids2, ps2, n2), s2') →
  sim (cur (conn s1))
      (reading (world s1) 1) (reading (world s2) 1)
      (reading (world s1) 2) (reading (world s2) 2)
      (strftime_compact (reading (world s1) 0)) (strftime_compact (reading (world s2) 0))
      s1' s2' ∧
  ids1 = ids2 ∧ length ps1 = length ps2 ∧ n1 = n2.
Proof.
  intros Hg Hc Hr1 Hr2. unfold seed_all in Hr1, Hr2.
  rewrite bind_run, (max_seq_run "users" (u_seq <$> users (cur (conn s1)))) in Hr1 by done.
  rewrite bind_run, ensure_counter_at_least_run in Hr1.
  rewrite bind_run in Hr1.
  erewrite (max_seq_run "posts") in Hr1 by reflexivity.
  rewrite bind_run, ensure_counter_at_least_run in Hr1.
  rewrite bind_run in Hr1. unfold datetime_now at 1 in Hr1. cbv beta iota in Hr1.
  rewrite bind_run, (max_seq_run "users" (u_seq <$> users (cur (conn s2)))) in Hr2 by done.
  rewrite bind_run, ensure_counter_at_least_run in Hr2.
  rewrite bind_run in Hr2.
  erewrite (max_seq_run "posts") in Hr2 by reflexivity.
  rewrite bind_run, ensure_counter_at_least_run in Hr2.
  rewrite bind_run in Hr2. unfold datetime_now at 1 in Hr2. cbv beta iota in Hr2.
  apply bind_ok in Hr1 as (i1 & t1 & Hu1 & Hr1).
  apply bind_ok in Hr2 as (i2 & t2 & Hu2 & Hr2).
  rewrite bind_run, fetch_board_ids_run in Hr1.
  rewrite bind_run, fetch_board_ids_run in Hr2.
  apply bind_ok in Hr1 as ([q1 m1] & u1 & Hp1 & [= <- <- <- <-]).
  apply bind_ok in Hr2 as ([q2 m2] & u2 & Hp2 & [= <- <- <- <-]).
  pose proof (seed_users_ticks _ _ _ _ _ Hu1) as Ht1.
  pose proof (seed_users_ticks _ _ _ _ _ Hu2) as Ht2.
  pose proof (keeps_seed_users _ _ _ _ _ Hu1) as (_ & _ & Hk1 & _).
  pose proof (keeps_seed_users _ _ _ _ _ Hu2) as (_ & _ & Hk2 & _).
  simpl in Ht1, Ht2, Hk1, Hk2.
  match type of Hu1 with seed_users _ _ ?S1 = _ => set (a1 := S1) in * end.
  match type of Hu2 with seed_users _ _ ?S2 = _ => set (a2 := S2) in * end.
  assert (Hsim : sim (cur (conn s1))
                   (reading (world s1) 1) (reading (world s2) 1)
                   (reading (world s1) 2) (reading (world s2) 2)
                   (strftime_compact (reading (world s1) 0))
                   (strftime_compact (reading (world s2) 0)) a1 a2).
  { apply sim_start; unfold a1, a2; simpl; try done. by rewrite Hc. }
  destruct (seed_users_sim _ _ _ _ _ _ _ _ a1 a2 _ _ _ _ eq_refl eq_refl Hsim Hu1 Hu2)
    as [Hsim1 ->].
  clear Hsim. rename Hsim1 into Hsim.
  assert (Hb : board_pool (cur (conn t1)) = board_pool (cur (conn t2))).
  { destruct Hsim as (_ & _ & Hb & _). unfold board_pool. by rewrite Hb. }
  rewrite <- Hb in Hp2.
  assert (Hc1 : clock (world t1) (ticks (world t1)) = reading (world s1) 2)
    by (by rewrite Hk1, Ht1).
  assert (Hc2 : clock (world t2) (ticks (world t2)) = reading (world s2) 2)
    by (by rewrite Hk2, Ht2).
  destruct (seed_posts_sim (cur (conn s1))
              (reading (world s1) 1) (reading (world s2) 1)
              (reading (world s1) 2) (reading (world s2) 2)
              (strftime_compact (reading (world s1) 0))
              (strftime_compact (reading (world s2) 0))
              _ _ _ _ _ t1 t2 _ _ _ _ _ _ Hc1 Hc2 Hsim Hp1 Hp2) as (Hsim' & Hps & ->).
  split; [exact Hsim'|]. split; [done|]. split; [|done]. by eapply Forall2_length.
Qed.

Section WithRange.
Context `{!PRNGRange}.

Lemma random_choice_run {A} (l : list A) s :
  l ≠ [] →
  ∃ x, x ∈ l ∧
    random_choice l s =
    (Ok x, with_world (set_rng (randbelow (rng (world s)) (len l)).2) s).
Proof.
  intros Hl. unfold random_choice. destruct l as [|y l']; [done|].
  set (l := y :: l') in *.
  assert (Hlen : 0 < len l) by (unfold len; simpl; lia).
  pose proof (randbelow_range (rng (world s)) (len l) Hlen) as Hr.
  rewrite bind_run. unfold random_randbelow.
  destruct (randbelow (rng (world s)) (len l)) as [i g] eqn:E. simpl in Hr. simpl snd.
  unfold py_index, py_lookup.
  destruct (Z.ltb_spec i 0) as [?|_]; [lia|].
  destruct (Z.ltb_spec i 0) as [?|_]; [lia|].
  destruct (l !! Z.to_nat i) as [x|] eqn:Ex.
  - exists x. split; [|done]. by eapply list_elem_of_lookup_2.
  - apply lookup_ge_None in Ex. unfold len in Hr. lia.
Qed.

Lemma seed_posts_no_users count board_ids likes_per_post liked_every s :
  1 ≤ count → board_ids ≠ [] →
  ∃ s', seed_posts count [] board_ids likes_per_post liked_every s = (Raise IndexError, s') ∧
    posts (cur (conn s')) = posts (cur (conn s)) ∧
    post_votes (cur (conn s')) = post_votes (cur (conn s)) ∧
    counters (cur (conn s')) !! "post" = Some (counter_value (cur (conn s)) "post" + 1) ∧
    rng (world s') = (randbelow (rng (world s)) (len board_ids)).2.
Proof.
  intros Hc Hb. unfold seed_posts.
  destruct (py_range_pos count Hc) as [l ->].
  rewrite bind_run. unfold datetime_now at 1. cbv beta iota.
  rewrite bind_run. cbn [for_in].
  rewrite bind_run. unfold seed_post at 1.
  rewrite bind_run, next_counter_run.
  rewrite bind_run.
  match goal with |- context [random_choice board_ids ?s0] =>
    destruct (random_choice_run board_ids s0 Hb) as (b & _ & ->) end.
  rewrite bind_run. unfold random_choice at 1. rewrite raise_run.
  eexists. split; [reflexivity|]. simpl. rewrite lookup_insert_eq. done.
Qed.

Lemma seed_all_no_users args s :
  args_users args ≤ 0 → 1 ≤ args_posts args →
  ∃ s', seed_all args s = (Raise IndexError, s').
Proof.
  intros Hu Hp. unfold seed_all.
  rewrite bind_run, (max_seq_run "users" (u_seq <$> users (cur (conn s)))) by done.
  rewrite bind_run, ensure_counter_at_least_run.
  rewrite bind_run.
  erewrite (max_seq_run "posts") by reflexivity.
  rewrite bind_run, ensure_counter_at_least_run.
  rewrite bind_run. unfold datetime_now at 1. cbv beta iota.
  rewrite bind_run, seed_users_none by done.
  rewrite bind_run, fetch_board_ids_run.
  rewrite bind_run.
  match goal with |- context [seed_posts ?c ?u ?b ?l ?e ?s0] =>
    destruct (seed_posts_no_users c b l e s0 Hp (board_pool_nonempty _)) as (s' & -> & _) end.
  eauto.
Qed.

End WithRange.

(** ** The claims *)

(** C1: every run that an exception ends (a rejected insert at any point
    of the batch, or any other error) is rolled back: what is on disk
    afterwards is what was on disk before, so the [counters], [users],
    [accounts], [posts] and [post_votes] tables of the database file are
    exactly as before the run and no new row is committed. *)
Theorem failed_run_is_rolled_back args w e w' :
  main args w = (Uncaught e, w') →
  fs w' = fs w ∧
  ∀ d, fs w !! args_db args = Some (File d) → fs w' !! args_db args = Some (File d).
Proof.
  intros Hm. apply main_uncaught_fs in Hm. rewrite Hm. done.
Qed.

(** C3: [ensure_counter_at_least] always succeeds; it inserts the counter
    with [min_value] when it is absent, raises a lower value to
    [min_value], leaves a value that is not lower (and every other
    counter) as it is, and a second call with the same arguments changes
    nothing. *)
Theorem ensure_counter_at_least_spec name min_value s :
  ∃ s1, ensure_counter_at_least name min_value s = (Ok (), s1) ∧
    (counters (cur (conn s)) !! name = None →
       counters (cur (conn s1)) !! name = Some min_value) ∧
    (∀ v, counters (cur (conn s)) !! name = Some v → v < min_value →
       counters (cur (conn s1)) !! name = Some min_value) ∧
    (∀ v, counters (cur (conn s)) !! name = Some v → min_value ≤ v →
       counters (cur (conn s1)) !! name = Some v) ∧
    (∀ other, other ≠ name →
       counters (cur (conn s1)) !! other = counters (cur (conn s)) !! other) ∧
    ensure_counter_at_least name min_value s1 = (Ok (), s1).
Proof.
  eexists. split; [apply ensure_counter_at_least_run|]. simpl.
  unfold floor_counter at 1 2 3 4.
  split; [|split; [|split; [|split]]].
  - intros ->. by rewrite lookup_insert_eq.
  - intros v -> Hv. rewrite lookup_insert_eq. f_equal. lia.
  - intros v -> Hv. rewrite lookup_insert_eq. f_equal. lia.
  - intros other Hne. by rewrite lookup_insert_ne.
  - rewrite ensure_counter_at_least_run, txn_write_twice. f_equal.
    apply txn_write_ext. unfold compose, set_counters. simpl. f_equal.
    apply floor_counter_twice.
Qed.

(** C2: after a run that completes, the "user" counter equals the larger
    of its stored value and the largest [seq] of [users] before the run,
    plus the number of user rows the run inserted, and likewise the "post"
    counter for [posts]; the sequence numbers the run issued are the ones
    above that floor.  A later run on the resulting database, however it
    ends, leaves neither counter lower, and every sequence number it issues
    is above the counter, hence different from each one issued before and
    from each one in the table. *)
Theorem counters_after_seeding args w d w' :
  fs w !! args_db args = Some (File d) →
  main args w = (Returned 0, w') →
  ∃ d',
    fs w' !! args_db args = Some (File d') ∧
    let nu := inserted (users d) (users d') in
    let np := inserted (posts d) (posts d') in
    users d' = users d ++ nu ∧
    posts d' = posts d ++ np ∧
    counters d' !! "user" = Some (user_floor d + len nu) ∧
    counters d' !! "post" = Some (post_floor d + len np) ∧
    u_seq <$> nu = seqs_from (user_floor d) (length nu) ∧
    p_seq <$> np = seqs_from (post_floor d) (length np) ∧
    ∀ args2 w2 o w2',
      fs w2 !! args_db args2 = Some (File d') →
      main args2 w2 = (o, w2') →
      ∃ d'' cu cp,
        fs w2' !! args_db args2 = Some (File d'') ∧
        counters d'' !! "user" = Some cu ∧ user_floor d + len nu ≤ cu ∧
        counters d'' !! "post" = Some cp ∧ post_floor d + len np ≤ cp ∧
        (∀ x, x ∈ u_seq <$> inserted (users d') (users d'') →
              user_floor d + len nu < x ∧ x ∉ u_seq <$> users d') ∧
        (∀ x, x ∈ p_seq <$> inserted (posts d') (posts d'') →
              post_floor d + len np < x ∧ x ∉ p_seq <$> posts d').
Proof.
  intros Hd Hm.
  destruct (main_ok _ _ _ _ Hd Hm) as (ids & ps & n & s1 & Hrun & Hfs & _).
  apply seed_all_ok in Hrun. simpl in Hrun.
  destruct Hrun as (nu & na & np & Hu & _ & _ & Hp & _ & Hcu & Hcp & _ & Hlu & _ & Hlp &
                    Hsu & Hsp & _).
  exists (cur (conn s1)). rewrite Hfs, lookup_insert_eq. split; [done|].
  assert (Hnu : inserted (users d) (users (cur (conn s1))) = nu)
    by (rewrite Hu; apply inserted_app).
  assert (Hnp : inserted (posts d) (posts (cur (conn s1))) = np)
    by (rewrite Hp; apply inserted_app).
  cbv zeta. rewrite Hnu, Hnp, Hlu, Hlp.
  do 6 (split; [done|]).
  intros args2 w2 o w2' Hd2 Hm2.
  destruct (main_outcome _ _ _ _ _ Hd2 Hm2) as [->|[e ->]].
  - destruct (main_ok _ _ _ _ Hd2 Hm2) as (ids2 & ps2 & n2 & s2 & Hrun2 & Hfs2 & _).
    apply seed_all_ok in Hrun2. simpl in Hrun2.
    destruct Hrun2 as (nu2 & na2 & np2 & Hu2 & _ & _ & Hp2 & _ & Hcu2 & Hcp2 & _ & _ & _ & _ &
                       Hsu2 & Hsp2 & _).
    exists (cur (conn s2)), (user_floor (cur (conn s1)) + len nu2),
           (post_floor (cur (conn s1)) + len np2).
    rewrite Hfs2, lookup_insert_eq. split; [done|].
    pose proof (counter_floor_ge_stored _ _ (u_seq <$> users (cur (conn s1))) _ Hcu) as Hfu.
    pose proof (counter_floor_ge_stored _ _ (p_seq <$> posts (cur (conn s1))) _ Hcp) as Hfp.
    fold (user_floor (cur (conn s1))) in Hfu. fold (post_floor (cur (conn s1))) in Hfp.
    rewrite Hu2, Hp2, !inserted_app, Hsu2, Hsp2.
    split; [exact Hcu2|]. split; [unfold len in *; lia|].
    split; [exact Hcp2|]. split; [unfold len in *; lia|].
    split.
    + intros x Hx. apply elem_of_seqs_from in Hx. split; [lia|].
      intros Hin. apply (counter_floor_ge_seq (cur (conn s1)) "user") in Hin.
      fold (user_floor (cur (conn s1))) in Hin. lia.
    + intros x Hx. apply elem_of_seqs_from in Hx. split; [lia|].
      intros Hin. apply (counter_floor_ge_seq (cur (conn s1)) "post") in Hin.
      fold (post_floor (cur (conn s1))) in Hin. lia.
  - apply main_uncaught_fs in Hm2.
    exists (cur (conn s1)), (user_floor d + len nu), (post_floor d + len np).
    rewrite Hm2, Hd2. unfold inserted. rewrite !drop_all.
    split; [done|]. split; [exact Hcu|]. split; [lia|].
    split; [exact Hcp|]. split; [lia|].
    split; by intros x ?%elem_of_nil.
Qed.

(** C7, as amended: after a run that completes, the number of user rows
    inserted is the requested user count when that is not negative and zero
    when it is, and likewise the number of post rows for the requested post
    count. *)
Theorem rows_inserted args w d w' :
  fs w !! args_db args = Some (File d) →
  main args w = (Returned 0, w') →
  ∃ d',
    fs w' !! args_db args = Some (File d') ∧
    len (inserted (users d) (users d')) = Z.max 0 (args_users args) ∧
    len (inserted (posts d) (posts d')) = Z.max 0 (args_posts args).
Proof.
  intros Hd Hm.
  destruct (main_ok _ _ _ _ Hd Hm) as (ids & ps & n & s1 & Hrun & Hfs & _).
  apply seed_all_ok in Hrun. simpl in Hrun.
  destruct Hrun as (nu & na & np & Hu & _ & _ & Hp & _ & _ & _ & _ & Hlu & _ & Hlp & _).
  exists (cur (conn s1)). rewrite Hfs, lookup_insert_eq. split; [done|].
  rewrite Hu, Hp, !inserted_app. unfold len. lia.
Qed.

(** C8: after a run that completes, the author of every post row the run
    inserted is one of the users the run inserted, and its board is one of
    the boards of the [boards] table, or one of [b_1], [b_2], [b_3] when
    that table is empty. *)
Theorem posts_refer_to_seeded_users_and_boards args w d w' :
  fs w !! args_db args = Some (File d) →
  main args w = (Returned 0, w') →
  ∃ d',
    fs w' !! args_db args = Some (File d') ∧
    Forall (λ r,
        p_author_id r ∈ u_id <$> inserted (users d) (users d') ∧
        if decide (boards d = []) then p_board_id r ∈ ["b_1"; "b_2"; "b_3"]
        else p_board_id r ∈ b_id <$> boards d)
      (inserted (posts d) (posts d')).
Proof.
  intros Hd Hm.
  destruct (main_ok _ _ _ _ Hd Hm) as (ids & ps & n & s1 & Hrun & Hfs & _).
  apply seed_all_ok in Hrun. simpl in Hrun.
  destruct Hrun as (nu & na & np & Hu & _ & _ & Hp & _ & _ & _ & _ & _ & _ & _ & _ & _ &
                    Hids & _ & _ & _ & Hall & _).
  exists (cur (conn s1)). rewrite Hfs, lookup_insert_eq. split; [done|].
  rewrite Hu, Hp, !inserted_app. subst ids.
  eapply Forall_impl; [exact Hall|]. simpl.
  intros r (Ha & Hb & _). split; [done|]. by apply board_pool_elem.
Qed.

(** C4, as amended: in every run of [seed_posts] that returns, with [k]
    the smaller of [likes_per_post] and the number of user ids, the like
    rows inserted are, post after post in generation order, those of the
    posts at a multiple of [max(1, liked_every)]: one row per user of the
    first [k] user ids (none when [k] is not positive), the same prefix for
    every such post, so such a post receives exactly [max(0, k)] rows and
    every other post none; the count returned is the number of such posts
    when [k] is positive and zero otherwise.  In a run of the script that
    completes with [likes_per_post] above the number of users generated,
    every such post receives one row per generated user, the warning with
    that cap is printed after the summary, and the summary reports the
    number of posts at a multiple of the period. *)
Theorem likes_of_selected_posts :
  (∀ count user_ids board_ids likes_per_post liked_every s ps n s',
     seed_posts count user_ids board_ids likes_per_post liked_every s = (Ok (ps, n), s') →
     let k := Z.min likes_per_post (len user_ids) in
     let votes := inserted (post_votes (cur (conn s))) (post_votes (cur (conn s'))) in
     votes = concat (likes_for user_ids k liked_every <$> enumerate ps) ∧
     (∀ idx p, (idx, p) ∈ enumerate ps →
        if idx `mod` Z.max 1 liked_every =? 0
        then likes_received p.1 votes = like_rows p.1 p.2 (take (Z.to_nat k) user_ids) ∧
             len (likes_received p.1 votes) = Z.max 0 k
        else likes_received p.1 votes = []) ∧
     n = if 0 <? k then liked_count liked_every (len ps) else 0) ∧
  (∀ args w d w',
     fs w !! args_db args = Some (File d) →
     main args w = (Returned 0, w') →
     ∃ d',
       fs w' !! args_db args = Some (File d') ∧
       let ids := u_id <$> inserted (users d) (users d') in
       let ps := (λ r, (p_id r, p_created_at r)) <$> inserted (posts d) (posts d') in
       len ids < args_likes_per_post args →
       inserted (post_votes d) (post_votes d') =
         concat (likes_for ids (len ids) (args_liked_every args) <$> enumerate ps) ∧
       stdout w' = stdout w ++
         [summary (len ids) (len ps) (liked_count (args_liked_every args) (len ps));
          warning (len ids)]).
Proof.
  split.
  - intros count user_ids board_ids likes_per_post liked_every s ps n s' Hrun.
    apply seed_posts_likes in Hrun as (_ & Hvotes & Hrecv & Hn). cbv zeta.
    split; [done|]. split; [|done].
    intros idx p Hin. rewrite (Hrecv idx p Hin), likes_for_liked by lia.
    unfold liked. destruct (_ =? 0); [|done].
    split; [done|]. apply len_like_rows. lia.
  - intros args w d w' Hd Hm.
    destruct (main_ok _ _ _ _ Hd Hm) as (ids & ps & n & s1 & Hrun & Hfs & Hout & _).
    apply seed_all_ok in Hrun. simpl in Hrun.
    destruct Hrun as (nu & na & np & Hu & _ & _ & Hp & Hv & _ & _ & _ & _ & _ & _ & _ & _ &
                      Hids & _ & Hps & _ & Hall & Hn & _).
    exists (cur (conn s1)). rewrite Hfs, lookup_insert_eq. split; [done|].
    cbv zeta. rewrite Hu, Hp, Hv, !inserted_app, <- Hids, <- Hps.
    intros Hgt. rewrite Z.min_r in Hv, Hn |- * by lia. split; [done|].
    rewrite Hout. destruct (Z.gtb_spec (args_likes_per_post args) (len ids)); [|lia].
    do 3 f_equal. rewrite Hn, liked_posts_count.
    destruct (Z.ltb_spec 0 (len ids)) as [|Hz]; [done|].
    assert (ids = []) as -> by (apply length_zero_iff_nil; unfold len in Hz; lia).
    destruct np as [|r np]; [by subst ps|].
    apply Forall_cons in Hall as [(Hr & _) _]. by apply elem_of_nil in Hr.
Qed.

(** C5, as amended: in a run of [seed_posts] with 20 posts and
    [liked_every = 5] that returns, when the smaller of [likes_per_post]
    and the number of user ids is at least 1, exactly the posts at the
    indices 0, 5, 10 and 15 receive like rows and the count returned is 4;
    when it is not, no post receives a like row and the count is 0. *)
Theorem likes_every_fifth_of_twenty user_ids board_ids likes_per_post s ps n s' :
  seed_posts 20 user_ids board_ids likes_per_post 5 s = (Ok (ps, n), s') →
  let k := Z.min likes_per_post (len user_ids) in
  let votes := inserted (post_votes (cur (conn s))) (post_votes (cur (conn s'))) in
  length ps = 20%nat ∧
  (∀ idx p, (idx, p) ∈ enumerate ps →
     likes_received p.1 votes ≠ [] ↔ 1 ≤ k ∧ idx ∈ [0; 5; 10; 15]) ∧
  n = if 1 <=? k then 4 else 0.
Proof.
  intros Hrun. apply seed_posts_likes in Hrun as (Hlen & Hvotes & Hrecv & Hn). cbv zeta.
  split; [done|]. split.
  - intros idx p Hin. rewrite (Hrecv idx p Hin), likes_for_liked by lia.
    apply enumerate_index in Hin. unfold len in Hin. rewrite Hlen in Hin.
    unfold liked. change (Z.max 1 5) with 5.
    rewrite !elem_of_cons, elem_of_nil.
    destruct (Z.eqb_spec (idx `mod` 5) 0) as [E|E].
    + assert (Hidx : idx = 0 ∨ idx = 5 ∨ idx = 10 ∨ idx = 15).
      { apply Z.mod_divide in E as [q ->]; lia. }
      split.
      * intros Hne. split; [|tauto].
        destruct (Z_le_gt_dec 1 (Z.min likes_per_post (len user_ids))) as [|Hk]; [done|].
        destruct Hne. by replace (Z.to_nat _) with 0%nat by lia.
      * intros [Hk _]. destruct user_ids as [|u us]; [unfold len in Hk; simpl in Hk; lia|].
        destruct (Z.to_nat (Z.min likes_per_post (len (u :: us)))) eqn:Ek; [lia|done].
    + split; [done|]. intros [_ Hidx].
      destruct E. destruct Hidx as [->|[->|[->|[->|[]]]]]; done.
  - rewrite Hn. unfold len. rewrite Hlen.
    destruct (Z.ltb_spec 0 (Z.min likes_per_post (Z.of_nat (length user_ids))));
      destruct (Z.leb_spec 1 (Z.min likes_per_post (Z.of_nat (length user_ids))));
      try lia; done.
Qed.

(** C6: when the database path names no existing file, the process exits
    with status 1, nothing on disk and nothing on standard output changes,
    and one message goes to the error stream; when the path names nothing
    at all the message is [Database not found: <path>]. *)
Theorem missing_database_exits_without_writing args w :
  (∀ d, fs w !! args_db args ≠ Some (File d)) →
  ∃ line w',
    script args w = (1, w') ∧
    fs w' = fs w ∧
    stdout w' = stdout w ∧
    stderr w' = stderr w ++ [line] ∧
    (fs w !! args_db args = None → line = "Database not found: " +:+ args_db args).
Proof.
  intros Hno. unfold script, main, os_path_exists, sqlite3_connect. simpl.
  destruct (fs w !! args_db args) as [[d|]|] eqn:E.
  - by destruct (Hno d).
  - rewrite bool_decide_true by eauto. simpl.
    exists ("Traceback: " +:+ exn_name OperationalError).
    eexists. split; [reflexivity|]. by repeat split.
  - rewrite bool_decide_false by (by intros [? ?]). simpl.
    do 2 eexists. split; [reflexivity|]. by repeat split.
Qed.

(** C9, as amended: two runs that complete with the same flags on the same
    database draw the same numbers, whatever their clocks read: the
    generator ends in the same state, the counters and what is printed are
    the same, and the rows inserted agree pairwise in every column that
    does not come from the clock: each post has the same board and author,
    and each [created_at] is backdated by the same days and seconds.  What
    differs is what the clock gives: the run discriminator in the account
    identifiers, and the base time the [created_at] values are backdated
    from (the second reading of the clock for users, the third for posts
    and their likes). *)
Theorem runs_differ_by_the_clock_only args w1 w2 d w1' w2' :
  fs w1 !! args_db args = Some (File d) →
  fs w2 !! args_db args = Some (File d) →
  main args w1 = (Returned 0, w1') →
  main args w2 = (Returned 0, w2') →
  ∃ d1 d2 out,
    fs w1' !! args_db args = Some (File d1) ∧
    fs w2' !! args_db args = Some (File d2) ∧
    rng w1' = rng w2' ∧
    stdout w1' = stdout w1 ++ out ∧
    stdout w2' = stdout w2 ++ out ∧
    counters d1 = counters d2 ∧
    boards d1 = boards d2 ∧
    Forall2 (same_user (reading w1 1) (reading w2 1))
            (inserted (users d) (users d1)) (inserted (users d) (users d2)) ∧
    Forall2 (same_account (strftime_compact (reading w1 0)) (strftime_compact (reading w2 0)))
            (inserted (accounts d) (accounts d1)) (inserted (accounts d) (accounts d2)) ∧
    Forall2 (same_post (reading w1 2) (reading w2 2))
            (inserted (posts d) (posts d1)) (inserted (posts d) (posts d2)) ∧
    Forall2 (same_vote (reading w1 2) (reading w2 2))
            (inserted (post_votes d) (post_votes d1)) (inserted (post_votes d) (post_votes d2)).
Proof.
  intros Hd1 Hd2 Hm1 Hm2.
  destruct (main_ok _ _ _ _ Hd1 Hm1) as (ids1 & ps1 & n1 & s1 & Hr1 & Hfs1 & Hout1 & _ & Hg1).
  destruct (main_ok _ _ _ _ Hd2 Hm2) as (ids2 & ps2 & n2 & s2 & Hr2 & Hfs2 & Hout2 & _ & Hg2).
  pose proof (λ Hg Hc, seed_all_sim _ _ _ _ _ _ _ _ _ _ _ Hg Hc Hr1 Hr2) as Hs.
  destruct (Hs eq_refl eq_refl) as (Hsim & <- & Hlen & <-). clear Hs.
  destruct Hsim as (Hg & Hc & Hb & Hu & Ha & Hp & Hv). simpl in *.
  exists (cur (conn s1)), (cur (conn s2)). eexists.
  rewrite Hfs1, Hfs2, !lookup_insert_eq, Hg1, Hg2, Hout1, Hout2.
  unfold len. rewrite Hlen.
  repeat split; try done; by apply grown_inserted.
Qed.

(** C10: with an empty user pool and at least one post requested, the
    first iteration of [seed_posts] allocates a sequence number, chooses a
    board, and raises [IndexError] at the choice of an author: no post row
    and no like row has been inserted, and one number has been drawn.  A
    run of the script with no user requested and at least one post ends
    with that exception, the process exits with status 1, and what is on
    disk is unchanged. *)
Theorem posts_need_users `{!PRNGRange} :
  (∀ count board_ids likes_per_post liked_every s,
     1 ≤ count → board_ids ≠ [] →
     ∃ s',
       seed_posts count [] board_ids likes_per_post liked_every s = (Raise IndexError, s') ∧
       posts (cur (conn s')) = posts (cur (conn s)) ∧
       post_votes (cur (conn s')) = post_votes (cur (conn s)) ∧
       counters (cur (conn s')) !! "post" = Some (counter_value (cur (conn s)) "post" + 1) ∧
       rng (world s') = (randbelow (rng (world s)) (len board_ids)).2) ∧
  (∀ args w d,
     fs w !! args_db args = Some (File d) →
     args_users args ≤ 0 → 1 ≤ args_posts args →
     ∃ w',
       main args w = (Uncaught IndexError, w') ∧
       fs w' = fs w ∧
       (script args w).1 = 1).
Proof.
  split.
  - intros. by apply seed_posts_no_users.
  - intros args w d Hd Hu Hp.
    assert (Hm : ∃ w', main args w = (Uncaught IndexError, w')).
    { unfold main, os_path_exists, sqlite3_connect. simpl. rewrite Hd.
      rewrite bool_decide_true by eauto. simpl. unfold with_connection.
      match goal with |- context [seed_all args ?s0] =>
        destruct (seed_all_no_users args s0 Hu Hp) as [s' ->] end.
      eauto. }
    destruct Hm as [w' Hm]. exists w'. split; [done|].
    split; [by eapply main_uncaught_fs|].
    unfold script. by rewrite Hm.
Qed.

(** * The functions one by one *)

Lemma coalesce_max_elem l : l ≠ [] → coalesce_max l ∈ l.
Proof.
  destruct l as [|y l]; [done|]. intros _. simpl.
  induction l as [|z l IH]; simpl; [left|].
  destruct (Z.max_spec z (foldr Z.max y l)) as [[_ ->]|[_ ->]].
  - apply elem_of_cons in IH as [->|IH]; [left|by do 2 right].
  - right. left.
Qed.


(** X2: [max_seq] reads and changes nothing.  On [users] and on [posts]
    it returns 0 for an empty table, and otherwise the [seq] of one of the
    rows, which no row of the table exceeds. *)
Theorem max_seq_is_the_largest_seq s :
  (∃ m, max_seq "users" s = (Ok m, s) ∧
        Forall (λ r, u_seq r ≤ m) (users (cur (conn s))) ∧
        if decide (users (cur (conn s)) = []) then m = 0
        else m ∈ u_seq <$> users (cur (conn s))) ∧
  (∃ m, max_seq "posts" s = (Ok m, s) ∧
        Forall (λ r, p_seq r ≤ m) (posts (cur (conn s))) ∧
        if decide (posts (cur (conn s)) = []) then m = 0
        else m ∈ p_seq <$> posts (cur (conn s))).
Proof.
  split.
  - exists (coalesce_max (u_seq <$> users (cur (conn s)))).
    split; [by apply max_seq_run|]. split.
    + apply Forall_forall. intros r Hr. apply coalesce_max_ge.
      by apply list_elem_of_fmap_2.
    + case_decide as E; [by rewrite E|].
      apply coalesce_max_elem. by intros ?%fmap_nil_inv.
  - exists (coalesce_max (p_seq <$> posts (cur (conn s)))).
    split; [by apply max_seq_run|]. split.
    + apply Forall_forall. intros r Hr. apply coalesce_max_ge.
      by apply list_elem_of_fmap_2.
    + case_decide as E; [by rewrite E|].
      apply coalesce_max_elem. by intros ?%fmap_nil_inv.
Qed.

Lemma board_le_total : Total board_le.
Proof. intros a b. unfold board_le. lia. Qed.

Lemma board_le_trans : Transitive board_le.
Proof. intros a b c. unfold board_le. lia. Qed.

(** X3: [fetch_board_ids] reads and changes nothing, and the list it
    returns is never empty: the three placeholder ids when [boards] is
    empty, and otherwise the ids of all the boards, each once, in an order
    in which [seq] never decreases. *)
Theorem fetch_board_ids_returns_the_boards_by_seq s :
  ∃ ids,
    fetch_board_ids s = (Ok ids, s) ∧
    ids ≠ [] ∧
    if decide (boards (cur (conn s)) = []) then ids = ["b_1"; "b_2"; "b_3"]
    else ∃ rows, rows ≡ₚ boards (cur (conn s)) ∧
                 StronglySorted board_le rows ∧
                 ids = b_id <$> rows.
Proof.
  exists (board_pool (cur (conn s))).
  split; [apply fetch_board_ids_run|]. split; [apply board_pool_nonempty|].
  unfold board_pool.
  pose proof (merge_sort_Permutation board_le (boards (cur (conn s)))) as Hp.
  case_decide as E.
  - rewrite E in Hp |- *. apply Permutation_nil_r in Hp. by rewrite Hp.
  - exists (merge_sort board_le (boards (cur (conn s)))).
    split; [done|]. split.
    + exact (@StronglySorted_merge_sort _ board_le _ board_le_trans board_le_total _).
    + destruct (merge_sort board_le (boards (cur (conn s)))) as [|r rows] eqn:Es; [|done].
      symmetry in Hp. by apply Permutation_nil_r in Hp.
Qed.

Lemma for_in_range_ok {B} (I : nat → list B → State → Prop) (body : Z → M B) n s bs s' :
  I 0%nat [] s →
  (∀ k acc s1 b s2,
     (k < Z.to_nat n)%nat → I k acc s1 → body (Z.of_nat k) s1 = (Ok b, s2) →
     I (S k) (acc ++ [b]) s2) →
  for_in (py_range n) body s = (Ok bs, s') → I (Z.to_nat n) bs s'.
Proof.
  intros H0' Hstep. unfold py_range.
  cut (∀ m a acc s0 bs0,
         (a + m = Z.to_nat n)%nat → I a acc s0 →
         for_in (Z.of_nat <$> seq a m) body s0 = (Ok bs0, s') →
         I (Z.to_nat n) (acc ++ bs0) s').
  { intros Hc Hrun. by apply (Hc (Z.to_nat n) 0%nat [] s bs). }
  clear s bs H0'. induction m as [|m IH]; intros a acc s0 bs0 Ham HI; simpl.
  - intros [= <- <-]. rewrite app_nil_r. by replace (Z.to_nat n) with a by lia.
  - intros Hrun. apply bind_ok in Hrun as (b & s1 & Hb & Hrun).
    apply bind_ok in Hrun as (bs1 & s2 & Hl & [= <- <-]).
    rewrite (cons_middle b), app_assoc.
    apply (IH (S a) (acc ++ [b]) s1 bs1); [lia| |done].
    apply (Hstep a acc s0 b s1); [lia|done|done].
Qed.

Lemma counter_value_bump name n m :
  0 ≤ n → default 0 (bump name n m !! name) = default 0 (m !! name) + n.
Proof.
  intros Hn. unfold bump. case_decide as E; [rewrite E; lia|].
  by rewrite lookup_insert_eq.
Qed.

Lemma seed_users_table count run_id s ids s' :
  seed_users count run_id s = (Ok ids, s') →
  ∃ nu na,
    users (cur (conn s')) = users (cur (conn s)) ++ nu ∧
    accounts (cur (conn s')) = accounts (cur (conn s)) ++ na ∧
    boards (cur (conn s')) = boards (cur (conn s)) ∧
    posts (cur (conn s')) = posts (cur (conn s)) ∧
    post_votes (cur (conn s')) = post_votes (cur (conn s)) ∧
    length nu = Z.to_nat count ∧
    length na = Z.to_nat count ∧
    ids = u_id <$> nu ∧
    (∀ j r, nu !! j = Some r →
       ∃ days, drawn_below 91 days ∧
         r = user_row (counter_value (cur (conn s)) "user" + Z.of_nat j)
                      (clock (world s) (ticks (world s))) (Z.of_nat j) days) ∧
    (∀ j a, na !! j = Some a →
       a = account_row (counter_value (cur (conn s)) "user" + Z.of_nat j)
                       run_id (Z.of_nat j)) ∧
    ticks (world s') = S (ticks (world s)).
Proof.
  intros Hrun. pose proof (seed_users_ticks _ _ _ _ _ Hrun) as Hticks.
  revert Hrun. unfold seed_users. rewrite bind_run. unfold datetime_now. cbv beta iota.
  set (base := clock (world s) (ticks (world s))).
  set (d := cur (conn s)). set (c0 := counter_value d "user").
  intros Hrun.
  pose (I := λ (k : nat) (acc : list string) (s1 : State),
    ∃ nu na,
      cur (conn s1) =
        mkDB (bump "user" (Z.of_nat k) (counters d)) (users d ++ nu) (accounts d ++ na)
             (boards d) (posts d) (post_votes d) ∧
      length nu = k ∧ length na = k ∧ acc = u_id <$> nu ∧
      (∀ j r, nu !! j = Some r →
         ∃ days, drawn_below 91 days ∧ r = user_row (c0 + Z.of_nat j) base (Z.of_nat j) days) ∧
      (∀ j a, na !! j = Some a → a = account_row (c0 + Z.of_nat j) run_id (Z.of_nat j))).
  assert (HI : I (Z.to_nat count) ids s').
  { eapply (for_in_range_ok I); [| |exact Hrun].
    - exists [], []. simpl. rewrite !app_nil_r.
      split; [by destruct (cur (conn s))|]. by repeat split.
    - clear. intros k acc s1 b s2 _ (nu & na & Hcur & Hnu & Hna & -> & Hrows & Haccs) Hb.
      apply seed_user_ok in Hb as [-> ->].
      assert (Hc : counter_value (cur (conn s1)) "user" = c0 + Z.of_nat k).
      { unfold counter_value. rewrite Hcur. simpl. apply counter_value_bump. lia. }
      rewrite Hc, Z.add_0_l.
      eexists (nu ++ [_]), (na ++ [_]). simpl. rewrite Hcur.
      unfold add_account, add_user, set_counters. simpl.
      split.
      { f_equal; [|by rewrite <- app_assoc..].
        rewrite <- Hc at 1. unfold counter_value. rewrite Hcur. simpl.
        rewrite Nat2Z.inj_succ. apply bump_step. lia. }
      rewrite !length_app, Hnu, Hna, fmap_app. simpl.
      split; [lia|]. split; [lia|]. split; [done|]. split.
      + intros j r [[Hj Hr]|[-> <-]]%lookup_snoc_Some; [by apply Hrows|].
        rewrite Hnu. eexists. split; [by eexists|done].
      + intros j a [[Hj Ha]|[-> <-]]%lookup_snoc_Some; [by apply Haccs|].
        by rewrite Hna. }
  destruct HI as (nu & na & Hcur & Hnu & Hna & Hids & Hrows & Haccs).
  exists nu, na. rewrite Hcur. simpl. by repeat split.
Qed.

(** X4: when [seed_users] returns, it has read the clock once and appended
    [max(0, count)] rows to [users] and as many to [accounts], and nothing
    to another table.  The user at position [j] (from 0) has the sequence
    number the counter gave, [c0 + j + 1], the id [u_<seq>], the nickname
    with the number [j + 1] on three digits, empty avatar, cover and bio,
    and a [created_at] that is the base time less a drawn number of days;
    the account at position [j] has the identifier
    [seed_<run_id>_<j + 1 on three digits>], that user's id and an empty
    password hash.  The list returned is the ids of the users, in order. *)
Theorem seed_users_rows count run_id s ids s' :
  seed_users count run_id s = (Ok ids, s') →
  ∃ nu na,
    users (cur (conn s')) = users (cur (conn s)) ++ nu ∧
    accounts (cur (conn s')) = accounts (cur (conn s)) ++ na ∧
    boards (cur (conn s')) = boards (cur (conn s)) ∧
    posts (cur (conn s')) = posts (cur (conn s)) ∧
    post_votes (cur (conn s')) = post_votes (cur (conn s)) ∧
    length nu = Z.to_nat count ∧
    length na = Z.to_nat count ∧
    ids = u_id <$> nu ∧
    (∀ j r, nu !! j = Some r →
       ∃ days, drawn_below 91 days ∧
         r = user_row (counter_value (cur (conn s)) "user" + Z.of_nat j)
                      (clock (world s) (ticks (world s))) (Z.of_nat j) days) ∧
    (∀ j a, na !! j = Some a →
       a = account_row (counter_value (cur (conn s)) "user" + Z.of_nat j)
                       run_id (Z.of_nat j)) ∧
    ticks (world s') = S (ticks (world s)).
Proof. exact (seed_users_table count run_id s ids s'). Qed.

Lemma drawn_below_range `{!PRNGRange} n x : 0 < n → drawn_below n x → 0 ≤ x < n.
Proof. intros Hn [g ->]. by apply randbelow_range. Qed.

(** X5: every user row [seed_users] inserts has a [created_at] that is the
    time read at the start of [seed_users] less a whole number of days
    between 0 and 90. *)
Theorem seed_users_backdates_by_days `{!PRNGRange} count run_id s ids s' :
  seed_users count run_id s = (Ok ids, s') →
  Forall (λ r, ∃ days, 0 ≤ days ≤ 90 ∧
                 u_created_at r =
                   rfc3339 (clock (world s) (ticks (world s)) - timedelta days 0))
         (inserted (users (cur (conn s))) (users (cur (conn s')))).
Proof.
  intros Hrun.
  apply seed_users_table in Hrun as (nu & na & -> & _ & _ & _ & _ & _ & _ & _ & Hrows & _).
  rewrite inserted_app. apply Forall_lookup. intros j r Hr.
  destruct (Hrows j r Hr) as (days & Hd & ->).
  apply drawn_below_range in Hd; [|lia]. exists days. split; [lia|done].
Qed.

Lemma seed_post_loop_rows base user_ids board_ids count s ps s' :
  for_in (py_range count) (seed_post base user_ids board_ids) s = (Ok ps, s') →
  ∃ np,
    cur (conn s') =
      mkDB (bump "post" (Z.of_nat (Z.to_nat count)) (counters (cur (conn s))))
           (users (cur (conn s))) (accounts (cur (conn s))) (boards (cur (conn s)))
           (posts (cur (conn s)) ++ np) (post_votes (cur (conn s))) ∧
    length np = Z.to_nat count ∧
    ps = (λ r, (p_id r, p_created_at r)) <$> np ∧
    ∀ j r, np !! j = Some r →
      ∃ board author days seconds,
        board ∈ board_ids ∧ author ∈ user_ids ∧
        drawn_below 31 days ∧ drawn_below 86401 seconds ∧
        r = post_row (counter_value (cur (conn s)) "post" + Z.of_nat j) base (Z.of_nat j)
                     board author days seconds.
Proof.
  intros Hrun. set (d := cur (conn s)). set (c0 := counter_value d "post").
  pose (I := λ (k : nat) (acc : list (string * string)) (s1 : State),
    ∃ np,
      cur (conn s1) =
        mkDB (bump "post" (Z.of_nat k) (counters d)) (users d) (accounts d) (boards d)
             (posts d ++ np) (post_votes d) ∧
      length np = k ∧ acc = (λ r, (p_id r, p_created_at r)) <$> np ∧
      ∀ j r, np !! j = Some r →
        ∃ board author days seconds,
          board ∈ board_ids ∧ author ∈ user_ids ∧
          drawn_below 31 days ∧ drawn_below 86401 seconds ∧
          r = post_row (c0 + Z.of_nat j) base (Z.of_nat j) board author days seconds).
  assert (HI : I (Z.to_nat count) ps s').
  { eapply (for_in_range_ok I); [| |exact Hrun].
    - exists []. simpl. rewrite !app_nil_r.
      split; [by destruct (cur (conn s))|]. by repeat split.
    - clear. intros k acc s1 b s2 _ (np & Hcur & Hnp & -> & Hrows) Hb.
      apply seed_post_ok in Hb as (bid & aid & _ & Hbin & _ & Hain & -> & ->).
      assert (Hc : counter_value (cur (conn s1)) "post" = c0 + Z.of_nat k).
      { unfold counter_value. rewrite Hcur. simpl. apply counter_value_bump. lia. }
      rewrite Hc, !Z.add_0_l.
      eexists (np ++ [_]). simpl. rewrite Hcur.
      unfold add_post, set_counters. simpl.
      split.
      { f_equal; [|by rewrite <- app_assoc].
        rewrite <- Hc at 1. unfold counter_value. rewrite Hcur. simpl.
        rewrite Nat2Z.inj_succ. apply bump_step. lia. }
      rewrite !length_app, Hnp, fmap_app. simpl.
      split; [lia|]. split; [done|].
      intros j r [[Hj Hr]|[-> <-]]%lookup_snoc_Some; [by apply Hrows|].
      rewrite Hnp. exists bid, aid. do 2 eexists.
      split; [done|]. split; [done|]. split; [by eexists|]. split; [by eexists|done]. }
  destruct HI as (np & Hcur & Hnp & Hps & Hrows). exists np. by repeat split.
Qed.

Lemma seed_posts_table count user_ids board_ids likes_per_post liked_every s ps n s' :
  seed_posts count user_ids board_ids likes_per_post liked_every s = (Ok (ps, n), s') →
  ∃ np,
    posts (cur (conn s')) = posts (cur (conn s)) ++ np ∧
    users (cur (conn s')) = users (cur (conn s)) ∧
    accounts (cur (conn s')) = accounts (cur (conn s)) ∧
    boards (cur (conn s')) = boards (cur (conn s)) ∧
    length np = Z.to_nat count ∧
    ps = (λ r, (p_id r, p_created_at r)) <$> np ∧
    ∀ j r, np !! j = Some r →
      ∃ board author days seconds,
        board ∈ board_ids ∧ author ∈ user_ids ∧
        drawn_below 31 days ∧ drawn_below 86401 seconds ∧
        r = post_row (counter_value (cur (conn s)) "post" + Z.of_nat j)
                     (clock (world s) (ticks (world s))) (Z.of_nat j)
                     board author days seconds.
Proof.
  unfold seed_posts. rewrite bind_run. unfold datetime_now at 1. cbv beta iota.
  intros Hrun.
  apply bind_ok in Hrun as (ps0 & s1 & Hposts & Hrun).
  apply bind_ok in Hrun as (n0 & s2 & Hlikes & [= <- <- <-]).
  apply seed_post_loop_rows in Hposts as (np & Hcur1 & Hlen & -> & Hrows).
  apply like_loop_ok in Hlikes as [Hcur2 _]; [|by rewrite length_fmap].
  exists np. rewrite Hcur2, Hcur1. simpl. by repeat split.
Qed.

(** X6: when [seed_posts] returns, it has appended [max(0, count)] rows to
    [posts] and none to [users], [accounts] or [boards].  The post at
    position [j] (from 0) has the sequence number the counter gave,
    [c0 + j + 1], the id [p_<seq>], a board of [board_ids], an author of
    [user_ids], the title and content of the sample at [j mod 10] with the
    number [j + 1] appended to the content, empty [content_json], [tags]
    and [attachments], no [deleted_at], and a [created_at] that is the base
    time less a drawn number of days and of seconds.  The list returned
    pairs the id of each post with its [created_at], in order. *)
Theorem seed_posts_rows count user_ids board_ids likes_per_post liked_every s ps n s' :
  seed_posts count user_ids board_ids likes_per_post liked_every s = (Ok (ps, n), s') →
  ∃ np,
    posts (cur (conn s')) = posts (cur (conn s)) ++ np ∧
    users (cur (conn s')) = users (cur (conn s)) ∧
    accounts (cur (conn s')) = accounts (cur (conn s)) ∧
    boards (cur (conn s')) = boards (cur (conn s)) ∧
    length np = Z.to_nat count ∧
    ps = (λ r, (p_id r, p_created_at r)) <$> np ∧
    ∀ j r, np !! j = Some r →
      ∃ board author days seconds,
        board ∈ board_ids ∧ author ∈ user_ids ∧
        drawn_below 31 days ∧ drawn_below 86401 seconds ∧
        r = post_row (counter_value (cur (conn s)) "post" + Z.of_nat j)
                     (clock (world s) (ticks (world s))) (Z.of_nat j)
                     board author days seconds.
Proof. exact (seed_posts_table count user_ids board_ids likes_per_post liked_every s ps n s'). Qed.

(** X7: every post row [seed_posts] inserts has a [created_at] that is the
    time read at the start of [seed_posts] less between 0 and 30 days and
    between 0 and 86400 seconds. *)
Theorem seed_posts_backdates `{!PRNGRange}
    count user_ids board_ids likes_per_post liked_every s ps n s' :
  seed_posts count user_ids board_ids likes_per_post liked_every s = (Ok (ps, n), s') →
  Forall (λ r, ∃ days seconds,
                 0 ≤ days ≤ 30 ∧ 0 ≤ seconds ≤ 86400 ∧
                 p_created_at r =
                   rfc3339 (clock (world s) (ticks (world s)) - timedelta days seconds))
         (inserted (posts (cur (conn s))) (posts (cur (conn s')))).
Proof.
  intros Hrun.
  apply seed_posts_table in Hrun as (np & -> & _ & _ & _ & _ & _ & Hrows).
  rewrite inserted_app. apply Forall_lookup. intros j r Hr.
  destruct (Hrows j r Hr) as (b & a & days & seconds & _ & _ & Hd & Hs & ->).
  apply drawn_below_range in Hd; [|lia]. apply drawn_below_range in Hs; [|lia].
  exists days, seconds. split; [lia|]. split; [lia|done].
Qed.

Lemma sample_lookup i :
  SAMPLE_POSTS !! Z.to_nat (i `mod` 10) = Some (sample i).
Proof.
  pose proof (sample_run i) as Hs. unfold sample.
  assert (Hi : 0 ≤ i `mod` 10 < 10) by (by apply Z.mod_pos_bound).
  change (len SAMPLE_POSTS) with 10. unfold py_lookup.
  destruct (Z.ltb_spec (i `mod` 10) 0) as [?|_]; [lia|].
  destruct (Z.ltb_spec (i `mod` 10) 0) as [?|_]; [lia|].
  destruct (SAMPLE_POSTS !! Z.to_nat (i `mod` 10)) eqn:E; [done|].
  apply lookup_ge_None in E. simpl in E. lia.
Qed.

(** X8: the posts of one call of [seed_posts] go through the ten samples in
    order and start again: the post at position [j] has the title of the
    sample at [j mod 10], and its content is that sample's content
    followed by [（帖子 j+1）]; so two posts ten positions apart have the
    same title. *)
Theorem seed_posts_cycles_the_samples
    count user_ids board_ids likes_per_post liked_every s ps n s' :
  seed_posts count user_ids board_ids likes_per_post liked_every s = (Ok (ps, n), s') →
  let np := inserted (posts (cur (conn s))) (posts (cur (conn s'))) in
  (∀ j r, np !! j = Some r →
     ∃ title content,
       SAMPLE_POSTS !! (j `mod` 10)%nat = Some (title, content) ∧
       p_title r = title ∧
       p_content r = content +:+ "（帖子 " +:+ fmt_d (Z.of_nat j + 1) +:+ "）") ∧
  (∀ j r1 r2, np !! j = Some r1 → np !! (j + 10)%nat = Some r2 → p_title r1 = p_title r2).
Proof.
  intros Hrun.
  apply seed_posts_table in Hrun as (np & -> & _ & _ & _ & _ & _ & Hrows).
  cbv zeta. rewrite inserted_app.
  assert (Hone : ∀ j r, np !! j = Some r →
            SAMPLE_POSTS !! (j `mod` 10)%nat = Some (sample (Z.of_nat j)) ∧
            p_title r = (sample (Z.of_nat j)).1 ∧
            p_content r = (sample (Z.of_nat j)).2 +:+ "（帖子 " +:+
                          fmt_d (Z.of_nat j + 1) +:+ "）").
  { intros j r Hr. destruct (Hrows j r Hr) as (b & a & days & seconds & _ & _ & _ & _ & ->).
    split; [|done]. rewrite <- sample_lookup. f_equal.
    rewrite <- (Nat2Z.id (j `mod` 10)). f_equal.
    rewrite Nat2Z.inj_mod. done. }
  split.
  - intros j r Hr. destruct (Hone j r Hr) as (Hs & Ht & Hc).
    destruct (sample (Z.of_nat j)) as [title content]. eauto.
  - intros j r1 r2 H1 H2.
    destruct (Hone j r1 H1) as (Hs1 & -> & _).
    destruct (Hone _ r2 H2) as (Hs2 & -> & _).
    replace ((j + 10) `mod` 10)%nat with (j `mod` 10)%nat in Hs2.
    + rewrite Hs1 in Hs2. by injection Hs2 as ->.
    + rewrite <- (Nat.Div0.add_mod_idemp_r j 10 10).
      by rewrite Nat.Div0.mod_same, Nat.add_0_r.
Qed.

Lemma elem_of_concat {A} (x : A) (ls : list (list A)) :
  x ∈ concat ls → ∃ l, x ∈ l ∧ l ∈ ls.
Proof.
  induction ls as [|l ls IH]; simpl; [by intros ?%elem_of_nil|].
  intros [Hx|Hx]%elem_of_app.
  - exists l. split; [done|left].
  - destruct (IH Hx) as (l' & ? & ?). exists l'. split; [done|by right].
Qed.

(** X9: every like row [seed_posts] inserts has the value +1, the id and
    the [created_at] of a post row the same call inserted, and a user of
    [user_ids]. *)
Theorem likes_refer_to_the_posts_seeded
    count user_ids board_ids likes_per_post liked_every s ps n s' :
  seed_posts count user_ids board_ids likes_per_post liked_every s = (Ok (ps, n), s') →
  Forall (λ v,
      v_value v = 1 ∧ v_user_id v ∈ user_ids ∧
      ∃ r, r ∈ inserted (posts (cur (conn s))) (posts (cur (conn s'))) ∧
           v_post_id v = p_id r ∧ v_created_at v = p_created_at r)
    (inserted (post_votes (cur (conn s))) (post_votes (cur (conn s')))).
Proof.
  intros Hrun.
  pose proof (seed_posts_table _ _ _ _ _ _ _ _ _ Hrun) as (np & -> & _ & _ & _ & _ & Hps & _).
  apply seed_posts_likes in Hrun as (_ & Hvotes & _). cbv zeta in Hvotes.
  rewrite Hvotes, inserted_app. apply Forall_forall. intros v Hv.
  apply elem_of_concat in Hv as (rows & Hv & Hrows).
  apply list_elem_of_fmap in Hrows as ([idx [pid cat]] & -> & Hin).
  unfold likes_for in Hv. simpl in Hv.
  destruct (_ && _); [|by apply elem_of_nil in Hv].
  unfold like_rows in Hv. apply list_elem_of_fmap in Hv as (u & -> & Hu). simpl.
  split; [done|]. split; [by eapply subseteq_take|].
  unfold enumerate in Hin. apply elem_of_zip_r in Hin.
  rewrite Hps in Hin. apply list_elem_of_fmap in Hin as (r & [= -> ->] & Hr).
  by exists r.
Qed.

(** * Whole runs *)

Lemma user_id_inj : Inj (=) (=) (λ x : Z, "u_" +:+ fmt_d x).
Proof.
  intros x y Hxy. unfold fmt_d in Hxy. cbn [String.append] in Hxy.
  injection Hxy as Hxy. exact (inj pretty x y Hxy).
Qed.

Lemma main_rows_fresh args w d w' :
  fs w !! args_db args = Some (File d) →
  main args w = (Returned 0, w') →
  ∃ d',
    fs w' !! args_db args = Some (File d') ∧
    let nu := inserted (users d) (users d') in
    let np := inserted (posts d) (posts d') in
    NoDup (u_seq <$> nu) ∧
    Forall (λ r, u_seq r ∉ u_seq <$> users d) nu ∧
    Forall (λ r, u_id r = "u_" +:+ fmt_d (u_seq r)) nu ∧
    NoDup (u_id <$> nu) ∧
    NoDup (p_seq <$> np) ∧
    Forall (λ r, p_seq r ∉ p_seq <$> posts d) np ∧
    Forall (λ r, p_id r = "p_" +:+ fmt_d (p_seq r)) np ∧
    NoDup (p_id <$> np).
Proof.
  intros Hd Hm.
  destruct (main_ok _ _ _ _ Hd Hm) as (ids & ps & n & s1 & Hrun & Hfs & _).
  apply seed_all_ok in Hrun. simpl in Hrun.
  destruct Hrun as (nu & na & np & Hu & _ & _ & Hp & _ & _ & _ & _ & _ & _ & _ &
                    Hsu & Hsp & _ & _ & _ & Hfu & Hfp & _).
  exists (cur (conn s1)). rewrite Hfs, lookup_insert_eq. split; [done|].
  cbv zeta. rewrite Hu, Hp, !inserted_app.
  assert (Hfp' : Forall (λ r, p_id r = "p_" +:+ fmt_d (p_seq r)) np).
  { eapply Forall_impl; [exact Hfp|]. by intros r (_ & _ & ?). }
  split; [rewrite Hsu; apply seqs_from_nodup|]. split.
  { apply Forall_forall. intros r Hr Hin.
    assert (Hs : u_seq r ∈ seqs_from (user_floor d) (Z.to_nat (args_users args)))
      by (rewrite <- Hsu; by apply list_elem_of_fmap_2).
    apply elem_of_seqs_from in Hs.
    apply (counter_floor_ge_seq d "user") in Hin. fold (user_floor d) in Hin. lia. }
  split; [done|]. split.
  { rewrite (Forall_fmap_ext_1 u_id (λ r, "u_" +:+ fmt_d (u_seq r)) nu) by done.
    rewrite (list_fmap_compose u_seq (λ x, "u_" +:+ fmt_d x)), Hsu.
    apply NoDup_fmap_2; [apply user_id_inj|apply seqs_from_nodup]. }
  split; [rewrite Hsp; apply seqs_from_nodup|]. split.
  { apply Forall_forall. intros r Hr Hin.
    assert (Hs : p_seq r ∈ seqs_from (post_floor d) (Z.to_nat (args_posts args)))
      by (rewrite <- Hsp; by apply list_elem_of_fmap_2).
    apply elem_of_seqs_from in Hs.
    apply (counter_floor_ge_seq d "post") in Hin. fold (post_floor d) in Hin. lia. }
  split; [done|].
  rewrite (Forall_fmap_ext_1 p_id (λ r, "p_" +:+ fmt_d (p_seq r)) np) by done.
  rewrite (list_fmap_compose p_seq (λ x, "p_" +:+ fmt_d x)), Hsp.
  apply NoDup_fmap_2; [apply post_id_inj|apply seqs_from_nodup].
Qed.

(** X10: the sequence numbers a completed run gives to the users it
    inserts are pairwise different and none is the [seq] of a row that was
    in [users] before; the ids of the inserted users are [u_<seq>] and
    pairwise different.  The same holds for the posts, with [p_<seq>]. *)
Theorem seeded_rows_are_fresh args w d w' :
  fs w !! args_db args = Some (File d) →
  main args w = (Returned 0, w') →
  ∃ d',
    fs w' !! args_db args = Some (File d') ∧
    let nu := inserted (users d) (users d') in
    let np := inserted (posts d) (posts d') in
    NoDup (u_seq <$> nu) ∧
    Forall (λ r, u_seq r ∉ u_seq <$> users d) nu ∧
    Forall (λ r, u_id r = "u_" +:+ fmt_d (u_seq r)) nu ∧
    NoDup (u_id <$> nu) ∧
    NoDup (p_seq <$> np) ∧
    Forall (λ r, p_seq r ∉ p_seq <$> posts d) np ∧
    Forall (λ r, p_id r = "p_" +:+ fmt_d (p_seq r)) np ∧
    NoDup (p_id <$> np).
Proof. exact (main_rows_fresh args w d w'). Qed.

Lemma likes_for_keys user_ids k liked_every p key :
  key ∈ vote_key <$> likes_for user_ids k liked_every p → key.1 = p.2.1.
Proof.
  unfold likes_for. destruct (_ && _); [|by intros ?%elem_of_nil].
  unfold like_rows. rewrite <- list_fmap_compose.
  by intros (u & -> & _)%list_elem_of_fmap.
Qed.

Lemma likes_keys_nodup user_ids k liked_every (l : list (Z * (string * string))) :
  NoDup user_ids →
  NoDup ((λ p, p.2.1) <$> l) →
  NoDup (vote_key <$> concat (likes_for user_ids k liked_every <$> l)).
Proof.
  intros Hu. induction l as [|p l IH]; [constructor|].
  rewrite !fmap_cons, NoDup_cons. intros [Hp Hl]. cbn [concat].
  rewrite fmap_app. apply NoDup_app. split; [|split; [|by apply IH]].
  - unfold likes_for. destruct (_ && _); [|constructor].
    unfold like_rows. rewrite <- list_fmap_compose.
    apply NoDup_fmap_2_strong; [by intros u1 u2 _ _ [= ->]|].
    eapply sublist_NoDup; [exact Hu|apply sublist_take].
  - intros key Hk1 Hk2. apply likes_for_keys in Hk1.
    apply list_elem_of_fmap in Hk2 as (v & -> & Hv).
    apply elem_of_concat in Hv as (rows & Hv & Hrows).
    apply list_elem_of_fmap in Hrows as (q & -> & Hq).
    assert (Hkey : vote_key v ∈ vote_key <$> likes_for user_ids k liked_every q)
      by (by apply list_elem_of_fmap_2).
    apply likes_for_keys in Hkey. apply Hp. rewrite <- Hk1, Hkey.
    by apply (list_elem_of_fmap_2 (λ p, p.2.1)).
Qed.

(** X11: a completed run inserts no two likes with the same post and user:
    the rows it adds to [post_votes] have pairwise different keys. *)
Theorem no_like_is_inserted_twice args w d w' :
  fs w !! args_db args = Some (File d) →
  main args w = (Returned 0, w') →
  ∃ d',
    fs w' !! args_db args = Some (File d') ∧
    NoDup (vote_key <$> inserted (post_votes d) (post_votes d')).
Proof.
  intros Hd Hm.
  destruct (main_rows_fresh _ _ _ _ Hd Hm) as (d0 & Hfs0 & Hfresh).
  cbv zeta in Hfresh. destruct Hfresh as (_ & _ & _ & Hnu & _ & _ & _ & Hnp).
  destruct (main_ok _ _ _ _ Hd Hm) as (ids & ps & n & s1 & Hrun & Hfs & _).
  rewrite Hfs, lookup_insert_eq in Hfs0. injection Hfs0 as <-.
  apply seed_all_ok in Hrun. simpl in Hrun.
  destruct Hrun as (nu & na & np & Hu & _ & _ & Hp & Hv & _ & _ & _ & _ & _ & _ & _ & _ &
                    Hids & _ & Hps & _).
  exists (cur (conn s1)). rewrite Hfs, lookup_insert_eq. split; [done|].
  rewrite Hu, Hp, !inserted_app in *. rewrite Hv, inserted_app.
  apply likes_keys_nodup; [by rewrite Hids|].
  rewrite enumerate_ids, Hps, <- list_fmap_compose. exact Hnp.
Qed.

Lemma elem_of_py_range n x : x ∈ py_range n ↔ 0 ≤ x < n.
Proof.
  unfold py_range. rewrite list_elem_of_fmap. split.
  - intros (k & -> & Hk). apply elem_of_seq in Hk. lia.
  - intros Hx. exists (Z.to_nat x). split; [lia|]. apply elem_of_seq. lia.
Qed.

Lemma py_range_nodup n : NoDup (py_range n).
Proof.
  unfold py_range. apply NoDup_fmap_2_strong; [|apply NoDup_seq].
  intros x y _ _ ?. lia.
Qed.

Lemma py_range3_nodup stop step : 0 < step → NoDup (py_range3 0 stop step).
Proof.
  intros Hs. unfold py_range3. apply NoDup_fmap_2_strong; [|apply NoDup_seq].
  intros x y _ _ ?. nia.
Qed.

Lemma liked_count_ceil liked_every count :
  0 ≤ count →
  liked_count liked_every count =
  (count + Z.max 1 liked_every - 1) `div` Z.max 1 liked_every.
Proof.
  intros Hc. unfold liked_count, len.
  assert (Hp : filter (λ idx, liked liked_every idx = true) (py_range count)
               ≡ₚ py_range3 0 count (Z.max 1 liked_every)).
  { apply NoDup_Permutation.
    - apply NoDup_filter, py_range_nodup.
    - apply py_range3_nodup. lia.
    - intros x. rewrite list_elem_of_filter, elem_of_py_range, elem_of_py_range3 by lia.
      unfold liked. rewrite Z.eqb_eq. tauto. }
  rewrite (Permutation_length Hp). unfold py_range3.
  rewrite length_fmap, length_seq, Z.sub_0_r.
  apply Z2Nat.id. apply Z.div_pos; lia.
Qed.

(** X12: a completed run prints one summary line, with the number of users
    and of posts it inserted, [max(0, count)] of each, and the number of
    posts given likes: the posts divided by [max(1, liked_every)], rounded
    up, when the smaller of [likes_per_post] and the users is at least 1,
    and 0 otherwise.  The warning follows exactly when [likes_per_post]
    exceeds the users.  Nothing goes to the error stream and the exit
    status is 0. *)
Theorem summary_reports_what_was_inserted args w d w' :
  fs w !! args_db args = Some (File d) →
  main args w = (Returned 0, w') →
  let users := Z.max 0 (args_users args) in
  let posts := Z.max 0 (args_posts args) in
  let period := Z.max 1 (args_liked_every args) in
  let liked := if 1 <=? Z.min (args_likes_per_post args) users
               then (posts + period - 1) `div` period else 0 in
  stdout w' = stdout w ++ summary users posts liked ::
                (if users <? args_likes_per_post args then [warning users] else []) ∧
  stderr w' = stderr w ∧
  script args w = (0, w').
Proof.
  intros Hd Hm. cbv zeta.
  destruct (main_ok _ _ _ _ Hd Hm) as (ids & ps & n & s1 & Hrun & _ & Hout & Herr & _).
  apply seed_all_ok in Hrun. simpl in Hrun.
  destruct Hrun as (nu & na & np & _ & _ & _ & _ & _ & _ & _ & _ & Hlu & _ & Hlp & _ & _ &
                    Hids & _ & Hps & _ & _ & Hn & _).
  assert (Hli : len ids = Z.max 0 (args_users args))
    by (rewrite Hids; unfold len; rewrite length_fmap; lia).
  assert (Hlps : len ps = Z.max 0 (args_posts args))
    by (rewrite Hps; unfold len; rewrite length_fmap; lia).
  rewrite liked_posts_count, liked_count_ceil in Hn by (unfold len; lia).
  rewrite Hli, Hlps in *. rewrite Z.gtb_ltb in Hout.
  split; [|split; [done|by unfold script; rewrite Hm]].
  rewrite Hout, Hn. do 3 f_equal.
  destruct (Z.ltb_spec 0 (Z.min (args_likes_per_post args) (Z.max 0 (args_users args))));
    destruct (Z.leb_spec 1 (Z.min (args_likes_per_post args) (Z.max 0 (args_users args))));
    try lia; done.
Qed.

Lemma rollback_world s : world (rollback s) = world s.
Proof.
  unfold rollback. destruct (in_transaction _); [|done].
  by destruct (fs (world s) !! _) as [[]|].
Qed.

Lemma main_uncaught_streams args w e w' :
  main args w = (Uncaught e, w') →
  stdout w' = stdout w ∧ stderr w' = stderr w.
Proof.
  unfold main. destruct (negb _); [done|].
  destruct (sqlite3_connect _ _) as [c|e0]; [|by intros [= _ <-]].
  unfold with_connection.
  destruct (seed_all args _) as [[[[ids ps] liked]|e1] s1] eqn:E; [done|].
  intros [= _ <-]. rewrite rollback_world.
  by apply keeps_seed_all in E as (_ & _ & _ & -> & -> & _).
Qed.

(** X13: a run on an existing database file, however it ends, changes no
    other file, and in that file it only appends: the rows that were in
    [users], [accounts], [posts] and [post_votes] are still there, first
    and in the same order, [boards] is the same, and so is every counter
    other than "user" and "post". *)
Theorem run_only_appends args w d o w' :
  fs w !! args_db args = Some (File d) →
  main args w = (o, w') →
  ∃ d',
    fs w' = <[args_db args := File d']> (fs w) ∧
    users d `prefix_of` users d' ∧
    accounts d `prefix_of` accounts d' ∧
    posts d `prefix_of` posts d' ∧
    post_votes d `prefix_of` post_votes d' ∧
    boards d' = boards d ∧
    ∀ name, name ≠ "user" → name ≠ "post" → counters d' !! name = counters d !! name.
Proof.
  intros Hd Hm. destruct (main_outcome _ _ _ _ _ Hd Hm) as [->|[e ->]].
  - destruct (main_ok _ _ _ _ Hd Hm) as (ids & ps & n & s1 & Hrun & Hfs & _).
    apply seed_all_ok in Hrun. simpl in Hrun.
    destruct Hrun as (nu & na & np & Hu & Ha & Hb & Hp & Hv & _ & _ & Hc & _).
    exists (cur (conn s1)). rewrite Hu, Ha, Hp, Hv.
    split; [done|]. repeat split; try done; by eexists.
  - apply main_uncaught_fs in Hm. exists d. rewrite Hm.
    split; [by rewrite insert_id|]. by repeat split.
Qed.

Lemma snoc_ne {A} (l : list A) x k : l ++ x :: k ≠ l.
Proof. intros E. apply (f_equal length) in E. rewrite length_app in E. simpl in E. lia. Qed.


(** ** What can go wrong *)

Lemma raises_only_ret {A} P (a : A) : raises_only P (mret a : M A).
Proof. by intros s e s'. Qed.

Lemma raises_only_bind_post {A B} P (Q : A → Prop) (m : M A) (k : A → M B) :
  raises_only P m →
  (∀ s a s', m s = (Ok a, s') → Q a) →
  (∀ a, Q a → raises_only P (k a)) →
  raises_only P (m ≫= k).
Proof.
  intros Hm HQ Hk s e s' [Hr|(a & s1 & Ha & Hr)]%bind_raise.
  - by eapply Hm.
  - eapply Hk; [by eapply HQ|done].
Qed.

Lemma raises_only_bind {A B} P (m : M A) (k : A → M B) :
  raises_only P m → (∀ a, raises_only P (k a)) → raises_only P (m ≫= k).
Proof.
  intros Hm Hk. apply (raises_only_bind_post P (λ _, True)); [done|done|auto].
Qed.

Lemma raises_only_for_in {A B} P (l : list A) (body : A → M B) :
  (∀ x, x ∈ l → raises_only P (body x)) → raises_only P (for_in l body).
Proof.
  induction l as [|x l IH]; intros Hb; simpl; [apply raises_only_ret|].
  apply raises_only_bind; [apply Hb; left|]. intros b.
  apply raises_only_bind; [|intros bs; apply raises_only_ret].
  apply IH. intros y Hy. apply Hb. by right.
Qed.

Lemma raises_only_fold_in {A S} P (l : list A) (acc : S) (body : S → A → M S) :
  (∀ a x, raises_only P (body a x)) → raises_only P (fold_in l acc body).
Proof.
  intros Hb. revert acc. induction l as [|x l IH]; intros acc; simpl;
    [apply raises_only_ret|].
  apply raises_only_bind; [apply Hb|]. intros a. apply IH.
Qed.

Lemma raises_only_next_counter P name : raises_only P (next_counter name).
Proof. intros s e s'. by rewrite next_counter_run. Qed.

Lemma raises_only_randint P a b : raises_only P (random_randint a b).
Proof. intros s e s'. by rewrite random_randint_run. Qed.

Lemma raises_only_sample P i :
  raises_only P (py_index SAMPLE_POSTS (i `mod` len SAMPLE_POSTS)).
Proof. intros s e s'. by rewrite sample_run. Qed.

Lemma raises_only_now P : raises_only P datetime_now.
Proof. by intros s e s'. Qed.

Lemma raises_only_choice `{!PRNGRange} {A} (l : list A) :
  raises_only (λ e, e = IndexError ∧ l = []) (random_choice l).
Proof.
  intros s e s'. destruct (decide (l = [])) as [->|Hl].
  - by intros [= <- _].
  - by destruct (random_choice_run l s Hl) as (x & _ & ->).
Qed.

Lemma insert_raise {R} acc add (r : R) s e s' :
  insert acc add r s = (Raise e, s') →
  e = IntegrityError ∧ acc (cur (conn s)) r = false.
Proof.
  unfold insert. destruct (acc _ _) eqn:E; [done|]. by intros [= <- _].
Qed.

Lemma raises_only_insert_user r :
  raises_only (λ e, e = IntegrityError ∧ refused) (sql_insert_user r).
Proof.
  intros s e s' [-> Hr]%insert_raise. split; [done|].
  exists (cur (conn s)). left. by exists r.
Qed.

Lemma raises_only_insert_account r :
  raises_only (λ e, e = IntegrityError ∧ refused) (sql_insert_account r).
Proof.
  intros s e s' [-> Hr]%insert_raise. split; [done|].
  exists (cur (conn s)). right; left. by exists r.
Qed.

Lemma raises_only_insert_post r :
  raises_only (λ e, e = IntegrityError ∧ refused) (sql_insert_post r).
Proof.
  intros s e s' [-> Hr]%insert_raise. split; [done|].
  exists (cur (conn s)). right; right; left. by exists r.
Qed.

Lemma raises_only_insert_post_vote r :
  raises_only (λ e, e = IntegrityError ∧ refused) (sql_insert_post_vote r).
Proof.
  intros s e s' [-> Hr]%insert_raise. split; [done|].
  exists (cur (conn s)). right; right; right. by exists r.
Qed.

Lemma raises_only_weaken {A} (P Q : exn → Prop) (m : M A) :
  (∀ e, P e → Q e) → raises_only P m → raises_only Q m.
Proof. intros HPQ Hm s e s' Hr. apply HPQ. by eapply Hm. Qed.

Lemma seed_user_raises base run_id i :
  raises_only (λ e, e = IntegrityError ∧ refused) (seed_user base run_id i).
Proof.
  unfold seed_user.
  apply raises_only_bind; [apply raises_only_next_counter|]. intros seq.
  apply raises_only_bind; [apply raises_only_randint|]. intros days.
  apply raises_only_bind; [apply raises_only_insert_user|]. intros _.
  apply raises_only_bind; [apply raises_only_insert_account|]. intros _.
  apply raises_only_ret.
Qed.

Lemma seed_users_raises count run_id :
  raises_only (λ e, e = IntegrityError ∧ refused) (seed_users count run_id).
Proof.
  unfold seed_users.
  apply raises_only_bind; [apply raises_only_now|]. intros base.
  apply raises_only_for_in. intros i _. apply seed_user_raises.
Qed.

Lemma seed_post_raises `{!PRNGRange} base user_ids board_ids i :
  board_ids ≠ [] →
  raises_only (λ e, (e = IntegrityError ∧ refused) ∨ (e = IndexError ∧ user_ids = []))
              (seed_post base user_ids board_ids i).
Proof.
  intros Hb. unfold seed_post.
  apply raises_only_bind; [apply raises_only_next_counter|]. intros seq.
  apply raises_only_bind.
  { eapply raises_only_weaken; [|apply raises_only_choice]. by intros e [_ ?]. }
  intros board_id.
  apply raises_only_bind.
  { eapply raises_only_weaken; [|apply raises_only_choice]. intros e ?. by right. }
  intros author_id.
  apply raises_only_bind; [apply raises_only_sample|]. intros [title content].
  apply raises_only_bind; [apply raises_only_randint|]. intros days.
  apply raises_only_bind; [apply raises_only_randint|]. intros seconds.
  apply raises_only_bind.
  { eapply raises_only_weaken; [|apply raises_only_insert_post]. intros e ?. by left. }
  intros _. apply raises_only_ret.
Qed.

Lemma like_post_raises user_ids liked_indices k n p :
  raises_only (λ e, e = IntegrityError ∧ refused) (like_post user_ids liked_indices k n p).
Proof.
  destruct p as [idx [post_id created_at]]. unfold like_post.
  destruct (_ || _); [apply raises_only_ret|].
  apply raises_only_bind; [|intros _; apply raises_only_ret].
  apply raises_only_for_in. intros u _. apply raises_only_insert_post_vote.
Qed.

Lemma seed_posts_raises `{!PRNGRange} count user_ids board_ids likes_per_post liked_every :
  board_ids ≠ [] →
  raises_only (seeding_error (user_ids = []) count)
              (seed_posts count user_ids board_ids likes_per_post liked_every).
Proof.
  intros Hb. unfold seed_posts.
  apply raises_only_bind; [apply raises_only_now|]. intros base.
  apply raises_only_bind.
  { destruct (decide (count ≤ 0)) as [Hc|Hc].
    - rewrite py_range_nonpos by done. apply raises_only_ret.
    - apply raises_only_for_in. intros i _.
      eapply raises_only_weaken; [|by apply seed_post_raises].
      intros e [?|[? ?]]; [by left|right]. repeat split; [done|done|lia]. }
  intros posts.
  apply raises_only_bind; [|intros n; apply raises_only_ret].
  apply raises_only_fold_in. intros n p.
  eapply raises_only_weaken; [|apply like_post_raises]. intros e ?. by left.
Qed.

Lemma seed_all_raises `{!PRNGRange} args :
  raises_only (seeding_error (args_users args ≤ 0) (args_posts args)) (seed_all args).
Proof.
  unfold seed_all.
  apply raises_only_bind.
  { intros s e s'. by erewrite (max_seq_run "users") by reflexivity. }
  intros m1.
  apply raises_only_bind.
  { intros s e s'. by rewrite ensure_counter_at_least_run. }
  intros _.
  apply raises_only_bind.
  { intros s e s'. by erewrite (max_seq_run "posts") by reflexivity. }
  intros m2.
  apply raises_only_bind.
  { intros s e s'. by rewrite ensure_counter_at_least_run. }
  intros _.
  apply raises_only_bind; [apply raises_only_now|]. intros now.
  apply (raises_only_bind_post _ (λ ids, length ids = Z.to_nat (args_users args))).
  { eapply raises_only_weaken; [|apply seed_users_raises]. intros e ?. by left. }
  { intros s ids s' (nu & na & _ & Hn & _ & _ & <- & _)%seed_users_ok.
    by rewrite length_fmap. }
  intros user_ids Hlen.
  apply (raises_only_bind_post _ (λ ids, ids ≠ [])).
  { intros s e s'. by rewrite fetch_board_ids_run. }
  { intros s ids s'. rewrite fetch_board_ids_run. intros [= <- _].
    apply board_pool_nonempty. }
  intros board_ids Hb.
  apply raises_only_bind.
  { eapply raises_only_weaken; [|by apply seed_posts_raises].
    intros e [?|(? & -> & ?)]; [by left|right]. simpl in Hlen.
    repeat split; [done|lia|done]. }
  intros [posts n]. apply raises_only_ret.
Qed.

Lemma main_uncaught_body args w d e w' :
  fs w !! args_db args = Some (File d) →
  main args w = (Uncaught e, w') →
  ∃ s s', seed_all args s = (Raise e, s').
Proof.
  intros Hd. unfold main, os_path_exists, sqlite3_connect. simpl. rewrite Hd.
  rewrite bool_decide_true by eauto. simpl. unfold with_connection.
  destruct (seed_all args _) as [[[[ids ps] n]|e1] s1] eqn:E.
  - by destruct (_ >? _).
  - intros [= <- _]. eauto.
Qed.



(** ** The draws *)

Lemma seed_users_rng count run_id s ids s' :
  seed_users count run_id s = (Ok ids, s') →
  rng (world s') = rng_after_users (Z.to_nat count) (rng (world s)) ∧
  ∀ j r, inserted (users (cur (conn s))) (users (cur (conn s'))) !! j = Some r →
    u_created_at r =
      rfc3339 (clock (world s) (ticks (world s)) -
               timedelta (randbelow (rng_after_users j (rng (world s))) 91).1 0).
Proof.
  unfold seed_users. rewrite bind_run. unfold datetime_now. cbv beta iota.
  set (base := clock (world s) (ticks (world s))). set (g0 := rng (world s)).
  set (d := cur (conn s)). intros Hrun.
  pose (I := λ (k : nat) (acc : list string) (s1 : State),
    rng (world s1) = rng_after_users k g0 ∧
    ∃ nu, users (cur (conn s1)) = users d ++ nu ∧ length nu = k ∧
      ∀ j r, nu !! j = Some r →
        u_created_at r =
          rfc3339 (base - timedelta (randbelow (rng_after_users j g0) 91).1 0)).
  assert (HI : I (Z.to_nat count) ids s').
  { eapply (for_in_range_ok I); [| |exact Hrun].
    - split; [done|]. exists []. by rewrite app_nil_r.
    - clear. intros k acc s1 b s2 _ (Hg & nu & Hu & Hlen & Hrows) Hb.
      apply seed_user_ok in Hb as [_ ->]. unfold I. simpl. rewrite Hg. split; [done|].
      eexists (nu ++ [_]). rewrite Hu, <- app_assoc. split; [done|].
      rewrite length_app. simpl. split; [lia|].
      intros j r [[Hj Hr]|[-> <-]]%lookup_snoc_Some; [by apply Hrows|].
      by rewrite Hlen. }
  destruct HI as (Hg & nu & Hu & _ & Hrows). split; [done|].
  unfold inserted. rewrite Hu, drop_app_length. exact Hrows.
Qed.

(** X17: [seed_users] makes one draw for each user, in order: the user at
    position [j] is backdated by the days drawn below 91 from the
    generator as the [j] users before left it, and the generator ends as
    [max(0, count)] such draws leave it. *)
Theorem seed_users_draws count run_id s ids s' :
  seed_users count run_id s = (Ok ids, s') →
  rng (world s') = rng_after_users (Z.to_nat count) (rng (world s)) ∧
  ∀ j r, inserted (users (cur (conn s))) (users (cur (conn s'))) !! j = Some r →
    u_created_at r =
      rfc3339 (clock (world s) (ticks (world s)) -
               timedelta (randbelow (rng_after_users j (rng (world s))) 91).1 0).
Proof. exact (seed_users_rng count run_id s ids s'). Qed.

Lemma chosen_lookup {A} (l : list A) g x :
  chosen l g = Some x → py_lookup l (randbelow g (len l)).1 = Some x.
Proof. by destruct l. Qed.

Lemma post_draws_eq boards users g :
  post_draws boards users g =
  let d1 := randbelow g boards in
  let d2 := randbelow d1.2 users in
  let d3 := randbelow d2.2 31 in
  let d4 := randbelow d3.2 86401 in
  ((d1.1, d2.1, d3.1, d4.1), d4.2).
Proof.
  unfold post_draws.
  destruct (randbelow g boards) as [x1 g1]. simpl.
  destruct (randbelow g1 users) as [x2 g2]. simpl.
  destruct (randbelow g2 31) as [x3 g3]. simpl.
  by destruct (randbelow g3 86401) as [x4 g4].
Qed.

Lemma seed_posts_rng count user_ids board_ids likes_per_post liked_every s ps n s' :
  seed_posts count user_ids board_ids likes_per_post liked_every s = (Ok (ps, n), s') →
  let after := rng_after_posts (len board_ids) (len user_ids) in
  rng (world s') = after (Z.to_nat count) (rng (world s)) ∧
  ∀ j r, inserted (posts (cur (conn s))) (posts (cur (conn s'))) !! j = Some r →
    ∃ board author days seconds,
      (post_draws (len board_ids) (len user_ids) (after j (rng (world s)))).1
        = (board, author, days, seconds) ∧
      py_lookup board_ids board = Some (p_board_id r) ∧
      py_lookup user_ids author = Some (p_author_id r) ∧
      p_created_at r =
        rfc3339 (clock (world s) (ticks (world s)) - timedelta days seconds).
Proof.
  unfold seed_posts. rewrite bind_run. unfold datetime_now at 1. cbv beta iota zeta.
  set (base := clock (world s) (ticks (world s))). set (g0 := rng (world s)).
  set (d := cur (conn s)). set (after := rng_after_posts (len board_ids) (len user_ids)).
  intros Hrun.
  apply bind_ok in Hrun as (ps0 & s1 & Hposts & Hrun).
  apply bind_ok in Hrun as (n0 & s2 & Hlikes & [= <- <- <-]).
  pose (I := λ (k : nat) (acc : list (string * string)) (s1 : State),
    rng (world s1) = after k g0 ∧
    ∃ np, posts (cur (conn s1)) = posts d ++ np ∧ length np = k ∧
      length acc = k ∧
      ∀ j r, np !! j = Some r →
        ∃ board author days seconds,
          (post_draws (len board_ids) (len user_ids) (after j g0)).1
            = (board, author, days, seconds) ∧
          py_lookup board_ids board = Some (p_board_id r) ∧
          py_lookup user_ids author = Some (p_author_id r) ∧
          p_created_at r = rfc3339 (base - timedelta days seconds)).
  assert (HI : I (Z.to_nat count) ps0 s1).
  { eapply (for_in_range_ok I); [| |exact Hposts].
    - split; [done|]. exists []. by rewrite app_nil_r.
    - clear. intros k acc s1 b s2 _ (Hg & np & Hp & Hlen & Hacc & Hrows) Hb.
      apply seed_post_ok in Hb as (bid & aid & Hbid & _ & Haid & _ & _ & ->).
      apply chosen_lookup in Hbid, Haid. unfold I. simpl. rewrite Hg in *.
      assert (Hafter : after (S k) g0 =
                (post_draws (len board_ids) (len user_ids) (after k g0)).2) by done.
      rewrite Hafter, post_draws_eq. clear Hafter Hg. split; [done|].
      eexists (np ++ [_]). rewrite Hp, <- app_assoc. split; [done|].
      rewrite !length_app. simpl. split; [lia|]. split; [lia|].
      intros j r [[Hj Hr]|[-> <-]]%lookup_snoc_Some; [by apply Hrows|].
      rewrite Hlen, post_draws_eq. do 4 eexists. split; [reflexivity|].
      by rewrite !Z.add_0_l. }
  destruct HI as (Hg & np & Hp & _ & Hlen & Hrows).
  pose proof (like_loop_rng _ _ _ _ _ _ _ Hlikes) as Hg2.
  apply like_loop_ok in Hlikes as [Hcur2 _]; [|done].
  split; [by rewrite Hg2|].
  rewrite Hcur2. simpl. unfold inserted. rewrite Hp, drop_app_length. exact Hrows.
Qed.

(** X18: [seed_posts] makes four draws for each post, in this order: the
    index of the board, the index of the author, the days and the
    seconds.  The post at position [j] has the board and the author at
    the indices drawn, and is backdated by the days and seconds drawn,
    from the generator as the [j] posts before left it; the likes draw
    nothing, so the generator ends as [max(0, count)] posts leave it. *)
Theorem seed_posts_draws count user_ids board_ids likes_per_post liked_every s ps n s' :
  seed_posts count user_ids board_ids likes_per_post liked_every s = (Ok (ps, n), s') →
  let after := rng_after_posts (len board_ids) (len user_ids) in
  rng (world s') = after (Z.to_nat count) (rng (world s)) ∧
  ∀ j r, inserted (posts (cur (conn s))) (posts (cur (conn s'))) !! j = Some r →
    ∃ board author days seconds,
      (post_draws (len board_ids) (len user_ids) (after j (rng (world s)))).1
        = (board, author, days, seconds) ∧
      py_lookup board_ids board = Some (p_board_id r) ∧
      py_lookup user_ids author = Some (p_author_id r) ∧
      p_created_at r =
        rfc3339 (clock (world s) (ticks (world s)) - timedelta days seconds).
Proof. exact (seed_posts_rng count user_ids board_ids likes_per_post liked_every s ps n s'). Qed.

Lemma board_pool_boards d1 d2 : boards d1 = boards d2 → board_pool d1 = board_pool d2.
Proof. unfold board_pool. by intros ->. Qed.


(** X20: a completed run gives each user it inserted one account, at
    the same position: the account has that user's id, an empty password
    hash, and the identifier [seed_<run id>_<NNN>], where the run id is
    the first reading of the clock as [YYYYmmddHHMMSS] and [NNN] the
    1-based position on three digits, the number the nickname of the user
    ends with. *)
Theorem accounts_pair_with_users args w d w' :
  fs w !! args_db args = Some (File d) →
  main args w = (Returned 0, w') →
  ∃ d', fs w' !! args_db args = Some (File d') ∧
    let nu := inserted (users d) (users d') in
    let na := inserted (accounts d) (accounts d') in
    length na = length nu ∧
    ∀ j a, na !! j = Some a →
      a_account a =
        "seed_" +:+ strftime_compact (reading w 0) +:+ "_" +:+ fmt_0d 3 (Z.of_nat j + 1) ∧
      a_password_hash a = "" ∧
      ∃ r, nu !! j = Some r ∧ a_user_id a = u_id r ∧
           u_nickname r = "虚拟用户" +:+ fmt_0d 3 (Z.of_nat j + 1).
Proof.
  intros Hd Hm.
  destruct (main_ok _ _ _ _ Hd Hm) as (ids & ps & n & s' & Hrun & Hfs & _).
  exists (cur (conn s')). split; [by rewrite Hfs, lookup_insert_eq|].
  unfold seed_all in Hrun.
  rewrite bind_run, (max_seq_run "users" (u_seq <$> users d)) in Hrun by done.
  rewrite bind_run, ensure_counter_at_least_run in Hrun.
  rewrite bind_run in Hrun.
  erewrite (max_seq_run "posts") in Hrun by reflexivity.
  rewrite bind_run, ensure_counter_at_least_run in Hrun.
  rewrite bind_run in Hrun. unfold datetime_now at 1 in Hrun. cbv beta iota in Hrun.
  apply bind_ok in Hrun as (ids0 & s1 & Husers & Hrun).
  rewrite bind_run, fetch_board_ids_run in Hrun.
  apply bind_ok in Hrun as ([ps0 n0] & s2 & Hposts & [= <- <- <- <-]).
  pose proof (seed_users_table _ _ _ _ _ Husers)
    as (nu & na & Hu & Ha & _ & _ & _ & Hnu & Hna & _ & Hrows & Haccs & _).
  pose proof (seed_posts_ok _ _ _ _ _ _ _ _ _ Hposts) as (np & Hcur2 & _).
  simpl in Hu, Ha, Hrows, Haccs.
  rewrite Hcur2. simpl. rewrite Hu, Ha. unfold inserted. rewrite !drop_app_length.
  split; [lia|]. intros j a Hj.
  destruct (lookup_lt_is_Some_2 nu j) as [r Hr].
  { apply lookup_lt_Some in Hj. lia. }
  destruct (Hrows j r Hr) as (days & _ & ->).
  rewrite (Haccs j a Hj). simpl. split; [done|]. split; [done|].
  eexists. split; [exact Hr|]. done.
Qed.

Lemma len_concat_likes user_ids k liked_every (l : list (Z * (string * string))) :
  k ≤ len user_ids →
  len (concat (likes_for user_ids k liked_every <$> l)) =
  Z.max 0 k * len (filter (λ p, liked liked_every p.1 && (0 <? k) = true) l).
Proof.
  intros Hk. induction l as [|p l IH]; [unfold len; simpl; lia|].
  rewrite fmap_cons, filter_cons. simpl concat. rewrite len_app, IH.
  unfold likes_for at 1. destruct (liked liked_every p.1 && (0 <? k)) eqn:E.
  - case_decide as Hdec; [|congruence]. rewrite len_like_rows by done.
    unfold len. simpl length. lia.
  - case_decide as Hdec; [congruence|]. unfold len. simpl length. lia.
Qed.

(** X21: a completed run inserts, in all, as many likes as the posts it
    reports as liked times the users that like each: with
    [k = min(likes_per_post, users inserted)], that is
    [k * ceil(posts / max(1, liked_every))] rows when [k] is at least 1,
    and none otherwise. *)
Theorem likes_inserted_in_all args w d w' :
  fs w !! args_db args = Some (File d) →
  main args w = (Returned 0, w') →
  ∃ d', fs w' !! args_db args = Some (File d') ∧
    let k := Z.min (args_likes_per_post args) (Z.max 0 (args_users args)) in
    let posts := Z.max 0 (args_posts args) in
    let period := Z.max 1 (args_liked_every args) in
    len (inserted (post_votes d) (post_votes d')) =
      if 1 <=? k then k * ((posts + period - 1) `div` period) else 0.
Proof.
  intros Hd Hm.
  destruct (main_ok _ _ _ _ Hd Hm) as (ids & ps & n & s1 & Hrun & Hfs & _).
  exists (cur (conn s1)). split; [by rewrite Hfs, lookup_insert_eq|].
  apply seed_all_ok in Hrun. simpl in Hrun.
  destruct Hrun as (nu & na & np & _ & _ & _ & _ & Hv & _ & _ & _ & Hlu & _ & Hlp & _ & _ &
                    Hids & _ & Hps & _).
  assert (Hli : len ids = Z.max 0 (args_users args))
    by (rewrite Hids; unfold len; rewrite length_fmap; lia).
  assert (Hlps : len ps = Z.max 0 (args_posts args))
    by (rewrite Hps; unfold len; rewrite length_fmap; lia).
  cbv zeta. rewrite Hv. unfold inserted. rewrite drop_app_length.
  rewrite len_concat_likes by lia.
  rewrite liked_posts_count, liked_count_ceil by (unfold len; lia).
  rewrite Hli, Hlps.
  destruct (Z.ltb_spec 0 (Z.min (args_likes_per_post args) (Z.max 0 (args_users args))));
    destruct (Z.leb_spec 1 (Z.min (args_likes_per_post args) (Z.max 0 (args_users args))));
    lia.
Qed.

End Properties.

(** * The properties at work

    Each theorem above that has a premise is applied here to a run of the
    script in the concrete setting, and each claim of the specification
    that the script does not meet is refuted on a run. *)

Import Fixture.

Global Instance lcg_range : PRNGRange.
Proof. intros g n Hn. simpl. by apply Z.mod_pos_bound. Qed.

Example rfc3339_t0 : rfc3339 t0 = "2023-11-14T22:13:20Z".
Proof. reflexivity. Qed.

Example run_id_t0 : strftime_compact t0 = "20231114221320".
Proof. reflexivity. Qed.

(** A run on [used_db] that asks for three posts fails at the second one,
    whose identifier [p_3] is taken: by then two users, two accounts and
    one post have been inserted on the connection. *)
Example failure_is_mid_batch :
  let r := seed_all (mkArgs "dev.db" 2 3 1 2) (start_of used_db t0) in
  r.1 = Raise IntegrityError ∧
  length (users (cur (conn r.2))) = 3%nat ∧
  length (accounts (cur (conn r.2))) = 3%nat ∧
  length (posts (cur (conn r.2))) = 2%nat.
Proof. vm_compute. repeat split. Qed.

Lemma run_of_outcome args w o :
  (main args w).1 = o → main args w = (o, after args w).
Proof. unfold after. destruct (main args w). simpl. by intros ->. Qed.

Lemma run_of_value {A} (m : M A) s default :
  is_ok (m s).1 = true → m s = (Ok (ok_value (m s).1 default), (m s).2).
Proof. destruct (m s) as [[a|e] s']; simpl; [done|discriminate]. Qed.

Lemma failed_run_is_rolled_back_witness :
  let args := mkArgs "dev.db" 2 3 1 2 in
  let w := world_of used_db t0 in
  (main args w).1 = Uncaught IntegrityError ∧
  fs (after args w) = fs w.
Proof.
  intros args w.
  assert (Ho : (main args w).1 = Uncaught IntegrityError) by (vm_compute; reflexivity).
  split; [exact Ho|].
  exact (proj1 (failed_run_is_rolled_back args w IntegrityError (after args w)
                  (run_of_outcome args w _ Ho))).
Defined.

Lemma counters_after_seeding_witness :
  let args := mkArgs "dev.db" 2 1 1 2 in
  let w := world_of used_db t0 in
  fs w !! args_db args = Some (File used_db) ∧
  (main args w).1 = Returned 0 ∧
  ∃ d',
    fs (after args w) !! args_db args = Some (File d') ∧
    counters d' !! "user" =
      Some (user_floor used_db + len (inserted (users used_db) (users d'))) ∧
    counters d' !! "post" =
      Some (post_floor used_db + len (inserted (posts used_db) (posts d'))).
Proof.
  intros args w.
  assert (Hd : fs w !! args_db args = Some (File used_db)) by (vm_compute; reflexivity).
  assert (Ho : (main args w).1 = Returned 0) by (vm_compute; reflexivity).
  split; [exact Hd|]. split; [exact Ho|].
  destruct (counters_after_seeding args w used_db (after args w) Hd
              (run_of_outcome args w _ Ho)) as (d' & Hfs & Hrest).
  cbv zeta in Hrest. destruct Hrest as (_ & _ & Hcu & Hcp & _).
  exists d'. split; [exact Hfs|]. split; [exact Hcu|exact Hcp].
Defined.

Lemma ensure_counter_at_least_spec_witness :
  ∃ s1,
    ensure_counter_at_least "post" 5 (start_of used_db t0) = (Ok (), s1) ∧
    counters (cur (conn s1)) !! "post" = Some 5 ∧
    counters (cur (conn s1)) !! "user" = Some 1.
Proof.
  destruct (ensure_counter_at_least_spec "post" 5 (start_of used_db t0))
    as (s1 & Hrun & Habsent & _ & _ & Hother & _).
  exists s1. split; [exact Hrun|]. split.
  - apply Habsent. vm_compute. reflexivity.
  - rewrite Hother by discriminate. vm_compute. reflexivity.
Defined.

Lemma likes_of_selected_posts_witness :
  let args := mkArgs "dev.db" 2 3 5 2 in
  let w := world_of empty_db t0 in
  fs w !! args_db args = Some (File empty_db) ∧
  (main args w).1 = Returned 0 ∧
  ∃ d',
    fs (after args w) !! args_db args = Some (File d') ∧
    let ids := u_id <$> inserted (users empty_db) (users d') in
    let ps := (λ r, (p_id r, p_created_at r)) <$> inserted (posts empty_db) (posts d') in
    len ids < args_likes_per_post args →
    stdout (after args w) = stdout w ++
      [summary (len ids) (len ps) (liked_count (args_liked_every args) (len ps));
       warning (len ids)].
Proof.
  intros args w.
  assert (Hd : fs w !! args_db args = Some (File empty_db)) by (vm_compute; reflexivity).
  assert (Ho : (main args w).1 = Returned 0) by (vm_compute; reflexivity).
  split; [exact Hd|]. split; [exact Ho|].
  destruct (proj2 likes_of_selected_posts args w empty_db (after args w) Hd
              (run_of_outcome args w _ Ho)) as (d' & Hfs & Hrest).
  exists d'. split; [exact Hfs|]. cbv zeta in Hrest |- *.
  intros Hlt. exact (proj2 (Hrest Hlt)).
Defined.

Lemma likes_every_fifth_of_twenty_witness :
  let s := start_of one_user_db t0 in
  let r := seed_posts 20 ["u_1"] ["b_1"] 3 5 s in
  is_ok r.1 = true ∧
  length (ok_value r.1 ([], 0)).1 = 20%nat ∧
  (ok_value r.1 ([], 0)).2 = if 1 <=? Z.min 3 (len ["u_1"]) then 4 else 0.
Proof.
  intros s r.
  assert (Hok : is_ok r.1 = true) by (vm_compute; reflexivity).
  split; [exact Hok|].
  pose proof (run_of_value (seed_posts 20 ["u_1"] ["b_1"] 3 5) s ([], 0) Hok) as Hr.
  fold r in Hr. destruct (ok_value r.1 ([], 0)) as [ps n].
  destruct (likes_every_fifth_of_twenty ["u_1"] ["b_1"] 3 s ps n r.2 Hr) as (Hlen & _ & Hn).
  split; [exact Hlen|exact Hn].
Defined.

Lemma missing_database_exits_without_writing_witness :
  let args := mkArgs "nope.db" 50 200 50 5 in
  let w := world_of used_db t0 in
  fs w !! args_db args = None ∧
  ∃ line w',
    script args w = (1, w') ∧ fs w' = fs w ∧ stdout w' = stdout w ∧
    stderr w' = stderr w ++ [line] ∧ line = "Database not found: nope.db".
Proof.
  intros args w.
  assert (Hd : fs w !! args_db args = None) by (vm_compute; reflexivity).
  split; [exact Hd|].
  destruct (missing_database_exits_without_writing args w) as (line & w' & H1 & H2 & H3 & H4 & H5).
  { intros d. rewrite Hd. discriminate. }
  exists line, w'. repeat split; try assumption. exact (H5 Hd).
Defined.

Lemma rows_inserted_witness :
  let args := mkArgs "dev.db" 2 1 1 2 in
  let w := world_of used_db t0 in
  fs w !! args_db args = Some (File used_db) ∧
  (main args w).1 = Returned 0 ∧
  ∃ d',
    fs (after args w) !! args_db args = Some (File d') ∧
    len (inserted (users used_db) (users d')) = 2 ∧
    len (inserted (posts used_db) (posts d')) = 1.
Proof.
  intros args w.
  assert (Hd : fs w !! args_db args = Some (File used_db)) by (vm_compute; reflexivity).
  assert (Ho : (main args w).1 = Returned 0) by (vm_compute; reflexivity).
  split; [exact Hd|]. split; [exact Ho|].
  destruct (rows_inserted args w used_db (after args w) Hd (run_of_outcome args w _ Ho))
    as (d' & Hfs & Hu & Hp).
  exists d'. split; [exact Hfs|]. split; [exact Hu|exact Hp].
Defined.

Lemma posts_refer_to_seeded_users_and_boards_witness :
  let args := mkArgs "dev.db" 2 1 1 2 in
  let w := world_of used_db t0 in
  fs w !! args_db args = Some (File used_db) ∧
  (main args w).1 = Returned 0 ∧
  ∃ d',
    fs (after args w) !! args_db args = Some (File d') ∧
    Forall (λ r,
        p_author_id r ∈ u_id <$> inserted (users used_db) (users d') ∧
        if decide (boards used_db = []) then p_board_id r ∈ ["b_1"; "b_2"; "b_3"]
        else p_board_id r ∈ b_id <$> boards used_db)
      (inserted (posts used_db) (posts d')).
Proof.
  intros args w.
  assert (Hd : fs w !! args_db args = Some (File used_db)) by (vm_compute; reflexivity).
  assert (Ho : (main args w).1 = Returned 0) by (vm_compute; reflexivity).
  split; [exact Hd|]. split; [exact Ho|].
  exact (posts_refer_to_seeded_users_and_boards args w used_db (after args w) Hd
           (run_of_outcome args w _ Ho)).
Defined.

Lemma runs_differ_by_the_clock_only_witness :
  let args := mkArgs "dev.db" 2 3 5 2 in
  let w1 := world_of empty_db t0 in
  let w2 := world_of empty_db t1 in
  (main args w1).1 = Returned 0 ∧
  (main args w2).1 = Returned 0 ∧
  ∃ d1 d2,
    fs (after args w1) !! args_db args = Some (File d1) ∧
    fs (after args w2) !! args_db args = Some (File d2) ∧
    rng (after args w1) = rng (after args w2) ∧
    counters d1 = counters d2 ∧
    Forall2 (same_post (reading w1 2) (reading w2 2))
            (inserted (posts empty_db) (posts d1)) (inserted (posts empty_db) (posts d2)).
Proof.
  intros args w1 w2.
  assert (Hd1 : fs w1 !! args_db args = Some (File empty_db)) by (vm_compute; reflexivity).
  assert (Hd2 : fs w2 !! args_db args = Some (File empty_db)) by (vm_compute; reflexivity).
  assert (Ho1 : (main args w1).1 = Returned 0) by (vm_compute; reflexivity).
  assert (Ho2 : (main args w2).1 = Returned 0) by (vm_compute; reflexivity).
  split; [exact Ho1|]. split; [exact Ho2|].
  destruct (runs_differ_by_the_clock_only args w1 w2 empty_db _ _ Hd1 Hd2
              (run_of_outcome args w1 _ Ho1) (run_of_outcome args w2 _ Ho2))
    as (d1 & d2 & out & Hf1 & Hf2 & Hg & _ & _ & Hc & _ & _ & _ & Hp & _).
  exists d1, d2. repeat split; assumption.
Defined.

Lemma posts_need_users_witness :
  let args := mkArgs "dev.db" 0 1 50 5 in
  let w := world_of used_db t0 in
  fs w !! args_db args = Some (File used_db) ∧
  ∃ w', main args w = (Uncaught IndexError, w') ∧ fs w' = fs w ∧ (script args w).1 = 1.
Proof.
  intros args w.
  assert (Hd : fs w !! args_db args = Some (File used_db)) by (vm_compute; reflexivity).
  split; [exact Hd|].
  apply (proj2 posts_need_users args w used_db Hd); vm_compute; discriminate.
Defined.

(** C4, as the specification states it, fails: with [likes_per_post = -1]
    the post at index 0, a multiple of the period, receives no like row,
    and the count the claim gives, [min(-1, 1)], is -1. *)
Lemma likes_count_counterexample :
  let s := start_of one_user_db t0 in
  let r := seed_posts 1 ["u_1"] ["b_1"] (-1) 1 s in
  let p := ("p_1", "2023-11-04T19:12:12Z") in
  r.1 = Ok ([p], 0) ∧
  (0, p) ∈ enumerate [p] ∧
  0 `mod` Z.max 1 1 = 0 ∧
  len (likes_received p.1
         (inserted (post_votes (cur (conn s))) (post_votes (cur (conn r.2)))))
  ≠ Z.min (-1) (len ["u_1"]).
Proof.
  intros s r p. split; [vm_compute; reflexivity|].
  split; [apply list_elem_of_here|]. split; [reflexivity|]. vm_compute. discriminate.
Qed.

(** C5, as the specification states it, fails: a run with [liked_every = 5]
    and 20 posts in which [likes_per_post] is 0 completes, and the post at
    index 0 receives no like row (no post does). *)
Lemma likes_every_fifth_counterexample :
  let args := mkArgs "dev.db" 1 20 0 5 in
  let w := world_of empty_db t0 in
  (main args w).1 = Returned 0 ∧
  length (posts (database_of (after args w))) = 20%nat ∧
  p_id <$> posts (database_of (after args w)) !! 0%nat = Some "p_1" ∧
  likes_received "p_1" (post_votes (database_of (after args w))) = [] ∧
  post_votes (database_of (after args w)) = [].
Proof.
  intros args w. repeat split; vm_compute; reflexivity.
Qed.

(** C7, as the specification states it, fails: a run that asks for -3
    users and no post completes and inserts no user row, which is not -3
    rows. *)
Lemma rows_inserted_counterexample :
  let args := mkArgs "dev.db" (-3) 0 50 5 in
  let w := world_of empty_db t0 in
  (main args w).1 = Returned 0 ∧
  fs (after args w) !! "dev.db" = Some (File (database_of (after args w))) ∧
  len (inserted (users empty_db) (users (database_of (after args w)))) ≠ args_users args.
Proof.
  intros args w. split; [vm_compute; reflexivity|]. split; [vm_compute; reflexivity|].
  vm_compute. discriminate.
Qed.

(** C9, as the specification states it, fails: two runs with the same flags
    on the same database, a day apart, both complete, and their user rows
    differ, in [created_at]; the account identifiers are not all that
    differs. *)
Lemma clock_shows_in_timestamps_counterexample :
  let args := mkArgs "dev.db" 1 0 50 5 in
  let w1 := world_of empty_db t0 in
  let w2 := world_of empty_db t1 in
  (main args w1).1 = Returned 0 ∧
  (main args w2).1 = Returned 0 ∧
  fs w1 = fs w2 ∧
  u_created_at <$> users (database_of (after args w1)) = ["2023-11-14T22:13:20Z"] ∧
  u_created_at <$> users (database_of (after args w2)) = ["2023-11-15T22:13:20Z"] ∧
  users (database_of (after args w1)) ≠ users (database_of (after args w2)).
Proof.
  intros args w1 w2.
  split; [vm_compute; reflexivity|]. split; [vm_compute; reflexivity|].
  split; [reflexivity|]. split; [vm_compute; reflexivity|].
  split; [vm_compute; reflexivity|]. vm_compute. discriminate.
Qed.

(** ** The functions at work

    Each property above that has a premise, applied to a run of the
    fixture. *)

Lemma seed_users_rows_witness :
  let s := start_of used_db t0 in
  let run := seed_users 2 "20231114221320" s in
  is_ok run.1 = true ∧
  (∃ nu na,
    users (cur (conn run.2)) = users (cur (conn s)) ++ nu ∧
    accounts (cur (conn run.2)) = accounts (cur (conn s)) ++ na ∧
    boards (cur (conn run.2)) = boards (cur (conn s)) ∧
    posts (cur (conn run.2)) = posts (cur (conn s)) ∧
    post_votes (cur (conn run.2)) = post_votes (cur (conn s)) ∧
    length nu = Z.to_nat 2 ∧
    length na = Z.to_nat 2 ∧
    (ok_value run.1 []) = u_id <$> nu ∧
    (∀ j r, nu !! j = Some r →
       ∃ days, drawn_below 91 days ∧
         r = user_row (counter_value (cur (conn s)) "user" + Z.of_nat j)
                      (clock (world s) (ticks (world s))) (Z.of_nat j) days) ∧
    (∀ j a, na !! j = Some a →
       a = account_row (counter_value (cur (conn s)) "user" + Z.of_nat j)
                       "20231114221320" (Z.of_nat j)) ∧
    ticks (world run.2) = S (ticks (world s))).
Proof.
  intros s run.
  assert (Hok : is_ok run.1 = true) by (vm_compute; reflexivity).
  split; [exact Hok|].
  exact (seed_users_rows 2 "20231114221320" s (ok_value run.1 []) run.2
           (run_of_value (seed_users 2 "20231114221320") s [] Hok)).
Defined.

Lemma seed_users_backdates_by_days_witness :
  let s := start_of used_db t0 in
  let run := seed_users 2 "20231114221320" s in
  is_ok run.1 = true ∧
  (Forall (λ r, ∃ days, 0 ≤ days ≤ 90 ∧
                 u_created_at r =
                   rfc3339 (clock (world s) (ticks (world s)) - timedelta days 0))
         (inserted (users (cur (conn s))) (users (cur (conn run.2))))).
Proof.
  intros s run.
  assert (Hok : is_ok run.1 = true) by (vm_compute; reflexivity).
  split; [exact Hok|].
  exact (seed_users_backdates_by_days 2 "20231114221320" s (ok_value run.1 []) run.2
           (run_of_value (seed_users 2 "20231114221320") s [] Hok)).
Defined.

Lemma seed_users_draws_witness :
  let s := start_of used_db t0 in
  let run := seed_users 2 "20231114221320" s in
  is_ok run.1 = true ∧
  (rng (world run.2) = rng_after_users (Z.to_nat 2) (rng (world s)) ∧
  ∀ j r, inserted (users (cur (conn s))) (users (cur (conn run.2))) !! j = Some r →
    u_created_at r =
      rfc3339 (clock (world s) (ticks (world s)) -
               timedelta (randbelow (rng_after_users j (rng (world s))) 91).1 0)).
Proof.
  intros s run.
  assert (Hok : is_ok run.1 = true) by (vm_compute; reflexivity).
  split; [exact Hok|].
  exact (seed_users_draws 2 "20231114221320" s (ok_value run.1 []) run.2
           (run_of_value (seed_users 2 "20231114221320") s [] Hok)).
Defined.

Lemma seed_posts_rows_witness :
  let s := start_of one_user_db t0 in
  let run := seed_posts 12 ["u_1"] ["b_1"; "b_2"] 1 5 s in
  is_ok run.1 = true ∧
  (∃ np,
    posts (cur (conn run.2)) = posts (cur (conn s)) ++ np ∧
    users (cur (conn run.2)) = users (cur (conn s)) ∧
    accounts (cur (conn run.2)) = accounts (cur (conn s)) ∧
    boards (cur (conn run.2)) = boards (cur (conn s)) ∧
    length np = Z.to_nat 12 ∧
    (ok_value run.1 ([], 0)).1 = (λ r, (p_id r, p_created_at r)) <$> np ∧
    ∀ j r, np !! j = Some r →
      ∃ board author days seconds,
        board ∈ ["b_1"; "b_2"] ∧ author ∈ ["u_1"] ∧
        drawn_below 31 days ∧ drawn_below 86401 seconds ∧
        r = post_row (counter_value (cur (conn s)) "post" + Z.of_nat j)
                     (clock (world s) (ticks (world s))) (Z.of_nat j)
                     board author days seconds).
Proof.
  intros s run.
  assert (Hok : is_ok run.1 = true) by (vm_compute; reflexivity).
  split; [exact Hok|].
  pose proof (run_of_value (seed_posts 12 ["u_1"] ["b_1"; "b_2"] 1 5) s ([], 0) Hok) as Hr.
  fold run in Hr. destruct (ok_value run.1 ([], 0)) as [ps n].
  exact (seed_posts_rows 12 ["u_1"] ["b_1"; "b_2"] 1 5 s ps n run.2 Hr).
Defined.

Lemma seed_posts_backdates_witness :
  let s := start_of one_user_db t0 in
  let run := seed_posts 12 ["u_1"] ["b_1"; "b_2"] 1 5 s in
  is_ok run.1 = true ∧
  (Forall (λ r, ∃ days seconds,
                 0 ≤ days ≤ 30 ∧ 0 ≤ seconds ≤ 86400 ∧
                 p_created_at r =
                   rfc3339 (clock (world s) (ticks (world s)) - timedelta days seconds))
         (inserted (posts (cur (conn s))) (posts (cur (conn run.2))))).
Proof.
  intros s run.
  assert (Hok : is_ok run.1 = true) by (vm_compute; reflexivity).
  split; [exact Hok|].
  pose proof (run_of_value (seed_posts 12 ["u_1"] ["b_1"; "b_2"] 1 5) s ([], 0) Hok) as Hr.
  fold run in Hr. destruct (ok_value run.1 ([], 0)) as [ps n].
  exact (seed_posts_backdates 12 ["u_1"] ["b_1"; "b_2"] 1 5 s ps n run.2 Hr).
Defined.

Lemma seed_posts_cycles_the_samples_witness :
  let s := start_of one_user_db t0 in
  let run := seed_posts 12 ["u_1"] ["b_1"; "b_2"] 1 5 s in
  is_ok run.1 = true ∧
  (let np := inserted (posts (cur (conn s))) (posts (cur (conn run.2))) in
  (∀ j r, np !! j = Some r →
     ∃ title content,
       SAMPLE_POSTS !! (j `mod` 10)%nat = Some (title, content) ∧
       p_title r = title ∧
       p_content r = content +:+ "（帖子 " +:+ fmt_d (Z.of_nat j + 1) +:+ "）") ∧
  (∀ j r1 r2, np !! j = Some r1 → np !! (j + 10)%nat = Some r2 → p_title r1 = p_title r2)).
Proof.
  intros s run.
  assert (Hok : is_ok run.1 = true) by (vm_compute; reflexivity).
  split; [exact Hok|].
  pose proof (run_of_value (seed_posts 12 ["u_1"] ["b_1"; "b_2"] 1 5) s ([], 0) Hok) as Hr.
  fold run in Hr. destruct (ok_value run.1 ([], 0)) as [ps n].
  exact (seed_posts_cycles_the_samples 12 ["u_1"] ["b_1"; "b_2"] 1 5 s ps n run.2 Hr).
Defined.

Lemma likes_refer_to_the_posts_seeded_witness :
  let s := start_of one_user_db t0 in
  let run := seed_posts 12 ["u_1"] ["b_1"; "b_2"] 1 5 s in
  is_ok run.1 = true ∧
  (Forall (λ v,
      v_value v = 1 ∧ v_user_id v ∈ ["u_1"] ∧
      ∃ r, r ∈ inserted (posts (cur (conn s))) (posts (cur (conn run.2))) ∧
           v_post_id v = p_id r ∧ v_created_at v = p_created_at r)
    (inserted (post_votes (cur (conn s))) (post_votes (cur (conn run.2))))).
Proof.
  intros s run.
  assert (Hok : is_ok run.1 = true) by (vm_compute; reflexivity).
  split; [exact Hok|].
  pose proof (run_of_value (seed_posts 12 ["u_1"] ["b_1"; "b_2"] 1 5) s ([], 0) Hok) as Hr.
  fold run in Hr. destruct (ok_value run.1 ([], 0)) as [ps n].
  exact (likes_refer_to_the_posts_seeded 12 ["u_1"] ["b_1"; "b_2"] 1 5 s ps n run.2 Hr).
Defined.

Lemma seed_posts_draws_witness :
  let s := start_of one_user_db t0 in
  let run := seed_posts 12 ["u_1"] ["b_1"; "b_2"] 1 5 s in
  is_ok run.1 = true ∧
  (let after := rng_after_posts (len ["b_1"; "b_2"]) (len ["u_1"]) in
  rng (world run.2) = after (Z.to_nat 12) (rng (world s)) ∧
  ∀ j r, inserted (posts (cur (conn s))) (posts (cur (conn run.2))) !! j = Some r →
    ∃ board author days seconds,
      (post_draws (len ["b_1"; "b_2"]) (len ["u_1"]) (after j (rng (world s)))).1
        = (board, author, days, seconds) ∧
      py_lookup ["b_1"; "b_2"] board = Some (p_board_id r) ∧
      py_lookup ["u_1"] author = Some (p_author_id r) ∧
      p_created_at r =
        rfc3339 (clock (world s) (ticks (world s)) - timedelta days seconds)).
Proof.
  intros s run.
  assert (Hok : is_ok run.1 = true) by (vm_compute; reflexivity).
  split; [exact Hok|].
  pose proof (run_of_value (seed_posts 12 ["u_1"] ["b_1"; "b_2"] 1 5) s ([], 0) Hok) as Hr.
  fold run in Hr. destruct (ok_value run.1 ([], 0)) as [ps n].
  exact (seed_posts_draws 12 ["u_1"] ["b_1"; "b_2"] 1 5 s ps n run.2 Hr).
Defined.

Lemma seeded_rows_are_fresh_witness :
  let args := mkArgs "dev.db" 2 1 5 2 in
  let w := world_of used_db t0 in
  fs w !! args_db args = Some (File used_db) ∧
  (main args w).1 = Returned 0 ∧
  (∃ d',
    fs (after args w) !! args_db args = Some (File d') ∧
    let nu := inserted (users used_db) (users d') in
    let np := inserted (posts used_db) (posts d') in
    NoDup (u_seq <$> nu) ∧
    Forall (λ r, u_seq r ∉ u_seq <$> users used_db) nu ∧
    Forall (λ r, u_id r = "u_" +:+ fmt_d (u_seq r)) nu ∧
    NoDup (u_id <$> nu) ∧
    NoDup (p_seq <$> np) ∧
    Forall (λ r, p_seq r ∉ p_seq <$> posts used_db) np ∧
    Forall (λ r, p_id r = "p_" +:+ fmt_d (p_seq r)) np ∧
    NoDup (p_id <$> np)).
Proof.
  intros args w.
  assert (Hd : fs w !! args_db args = Some (File used_db)) by (vm_compute; reflexivity).
  assert (Ho : (main args w).1 = Returned 0) by (vm_compute; reflexivity).
  split; [exact Hd|]. split; [exact Ho|].
  exact (seeded_rows_are_fresh args w used_db (after args w) Hd (run_of_outcome args w _ Ho)).
Defined.

Lemma no_like_is_inserted_twice_witness :
  let args := mkArgs "dev.db" 2 1 5 2 in
  let w := world_of used_db t0 in
  fs w !! args_db args = Some (File used_db) ∧
  (main args w).1 = Returned 0 ∧
  (∃ d',
    fs (after args w) !! args_db args = Some (File d') ∧
    NoDup (vote_key <$> inserted (post_votes used_db) (post_votes d'))).
Proof.
  intros args w.
  assert (Hd : fs w !! args_db args = Some (File used_db)) by (vm_compute; reflexivity).
  assert (Ho : (main args w).1 = Returned 0) by (vm_compute; reflexivity).
  split; [exact Hd|]. split; [exact Ho|].
  exact (no_like_is_inserted_twice args w used_db (after args w) Hd (run_of_outcome args w _ Ho)).
Defined.

Lemma summary_reports_what_was_inserted_witness :
  let args := mkArgs "dev.db" 2 1 5 2 in
  let w := world_of used_db t0 in
  fs w !! args_db args = Some (File used_db) ∧
  (main args w).1 = Returned 0 ∧
  (let users := Z.max 0 (args_users args) in
  let posts := Z.max 0 (args_posts args) in
  let period := Z.max 1 (args_liked_every args) in
  let liked := if 1 <=? Z.min (args_likes_per_post args) users
               then (posts + period - 1) `div` period else 0 in
  stdout (after args w) = stdout w ++ summary users posts liked ::
                (if users <? args_likes_per_post args then [warning users] else []) ∧
  stderr (after args w) = stderr w ∧
  script args w = (0, (after args w))).
Proof.
  intros args w.
  assert (Hd : fs w !! args_db args = Some (File used_db)) by (vm_compute; reflexivity).
  assert (Ho : (main args w).1 = Returned 0) by (vm_compute; reflexivity).
  split; [exact Hd|]. split; [exact Ho|].
  exact (summary_reports_what_was_inserted args w used_db (after args w) Hd (run_of_outcome args w _ Ho)).
Defined.


Lemma accounts_pair_with_users_witness :
  let args := mkArgs "dev.db" 2 1 5 2 in
  let w := world_of used_db t0 in
  fs w !! args_db args = Some (File used_db) ∧
  (main args w).1 = Returned 0 ∧
  (∃ d', fs (after args w) !! args_db args = Some (File d') ∧
    let nu := inserted (users used_db) (users d') in
    let na := inserted (accounts used_db) (accounts d') in
    length na = length nu ∧
    ∀ j a, na !! j = Some a →
      a_account a =
        "seed_" +:+ strftime_compact (reading w 0) +:+ "_" +:+ fmt_0d 3 (Z.of_nat j + 1) ∧
      a_password_hash a = "" ∧
      ∃ r, nu !! j = Some r ∧ a_user_id a = u_id r ∧
           u_nickname r = "虚拟用户" +:+ fmt_0d 3 (Z.of_nat j + 1)).
Proof.
  intros args w.
  assert (Hd : fs w !! args_db args = Some (File used_db)) by (vm_compute; reflexivity).
  assert (Ho : (main args w).1 = Returned 0) by (vm_compute; reflexivity).
  split; [exact Hd|]. split; [exact Ho|].
  exact (accounts_pair_with_users args w used_db (after args w) Hd (run_of_outcome args w _ Ho)).
Defined.

Lemma likes_inserted_in_all_witness :
  let args := mkArgs "dev.db" 2 1 5 2 in
  let w := world_of used_db t0 in
  fs w !! args_db args = Some (File used_db) ∧
  (main args w).1 = Returned 0 ∧
  (∃ d', fs (after args w) !! args_db args = Some (File d') ∧
    let k := Z.min (args_likes_per_post args) (Z.max 0 (args_users args)) in
    let posts := Z.max 0 (args_posts args) in
    let period := Z.max 1 (args_liked_every args) in
    len (inserted (post_votes used_db) (post_votes d')) =
      if 1 <=? k then k * ((posts + period - 1) `div` period) else 0).
Proof.
  intros args w.
  assert (Hd : fs w !! args_db args = Some (File used_db)) by (vm_compute; reflexivity).
  assert (Ho : (main args w).1 = Returned 0) by (vm_compute; reflexivity).
  split; [exact Hd|]. split; [exact Ho|].
  exact (likes_inserted_in_all args w used_db (after args w) Hd (run_of_outcome args w _ Ho)).
Defined.

Lemma run_only_appends_witness :
  let args := mkArgs "dev.db" 2 1 5 2 in
  let w := world_of used_db t0 in
  fs w !! args_db args = Some (File used_db) ∧
  (main args w).1 = Returned 0 ∧
  (∃ d',
    fs (after args w) = <[args_db args := File d']> (fs w) ∧
    users used_db `prefix_of` users d' ∧
    accounts used_db `prefix_of` accounts d' ∧
    posts used_db `prefix_of` posts d' ∧
    post_votes used_db `prefix_of` post_votes d' ∧
    boards d' = boards used_db ∧
    ∀ name, name ≠ "user" → name ≠ "post" → counters d' !! name = counters used_db !! name).
Proof.
  intros args w.
  assert (Hd : fs w !! args_db args = Some (File used_db)) by (vm_compute; reflexivity).
  assert (Ho : (main args w).1 = Returned 0) by (vm_compute; reflexivity).
  split; [exact Hd|]. split; [exact Ho|].
  exact (run_only_appends args w used_db (Returned 0) (after args w) Hd
           (run_of_outcome args w _ Ho)).
Defined.


